(** * Flow client: sessions, bounded queues, callback dispatch and the
      notification poller of [src/flow.py], as a shallow embedding.

    The Python code is stateful and raises exceptions, so every method becomes
    a function from a state to an [outcome]: a normal return, a raised
    exception, or a thread blocked forever on a lock or an empty queue.
    One call of a method is one atomic step; the interleaving of the caller's
    thread with the poller thread is a sequence of such steps. *)

From Stdlib Require Import ZArith QArith_base List String Bool Lia.
From stdpp Require Import base gmap strings list.

Set Warnings "-register-all".
Close Scope Q_scope.
Local Open Scope string_scope.
Local Open Scope list_scope.
Local Open Scope nat_scope.

(* ===================================================================== *)
(** ** Python values decoded from JSON *)
(* ===================================================================== *)

(** What [json.loads] hands to the module: responses and change dicts.
    A dict is kept as the list of its items; a key is looked up from the
    front. *)
Inductive value : Type :=
| VNone
| VBool (b : bool)
| VInt (n : Z)
| VStr (s : string)
| VList (l : list value)
| VDict (d : list (string * value)).

(** Exceptions that the modelled code raises or lets through. *)
Inductive exn : Type :=
| KeyError (key : value)
| TypeError
| AttributeError
| ValueError
| QueueEmpty
| FlowError (msg : value)
| FlowConnectionError
| FlowTimeoutError
| HandlerError (msg : string)
| NotSupported (ty : value).

(** Result of evaluating a pure Python expression. *)
Inductive result (A : Type) : Type :=
| Ok (a : A)
| Err (e : exn).
Arguments Ok {A} a.
Arguments Err {A} e.

Module Py.

(** [bool(v)]. *)
Definition truthy (v : value) : bool :=
  match v with
  | VNone => false
  | VBool b => b
  | VInt n => negb (n =? 0)%Z
  | VStr s => negb (String.eqb s "")
  | VList l => match l with [] => false | _ => true end
  | VDict d => match d with [] => false | _ => true end
  end.

(** [d.get(key)] on the items of a dict. *)
Fixpoint dict_get (key : string) (d : list (string * value)) : option value :=
  match d with
  | [] => None
  | (k, v) :: d' => if String.eqb key k then Some v else dict_get key d'
  end.

Definition is_str (key : string) (v : value) : bool :=
  match v with
  | VStr s => String.eqb key s
  | _ => false
  end.

(** [key in v] for a string [key]: key test on a dict, membership on a
    list, substring test on a string, TypeError on what is not iterable. *)
Definition contains (key : string) (v : value) : result bool :=
  match v with
  | VDict d => Ok (match dict_get key d with Some _ => true | None => false end)
  | VList l => Ok (existsb (is_str key) l)
  | VStr s => Ok (match String.index 0 key s with Some _ => true | None => false end)
  | VNone | VBool _ | VInt _ => Err TypeError
  end.

(** [v[key]] for a string [key]. *)
Definition getitem (v : value) (key : string) : result value :=
  match v with
  | VDict d =>
      match dict_get key d with
      | Some x => Ok x
      | None => Err (KeyError (VStr key))
      end
  | _ => Err TypeError
  end.

(** [len(v)]. *)
Definition len (v : value) : result nat :=
  match v with
  | VStr s => Ok (String.length s)
  | VList l => Ok (List.length l)
  | VDict d => Ok (List.length d)
  | VNone | VBool _ | VInt _ => Err TypeError
  end.

(** [v.keys()]: only a dict has the method. *)
Definition keys (v : value) : result (list string) :=
  match v with
  | VDict d => Ok (map fst d)
  | _ => Err AttributeError
  end.

End Py.

(* ===================================================================== *)
(** ** Outcomes and the state-and-exception monad *)
(* ===================================================================== *)

Inductive outcome (S A : Type) : Type :=
| Ret (a : A) (s : S)
| Raise (e : exn) (s : S)
| Blocked (s : S).
Arguments Ret {S A} a s.
Arguments Raise {S A} e s.
Arguments Blocked {S A} s.

Definition M (S A : Type) : Type := S -> outcome S A.

Definition ret {S A} (a : A) : M S A := fun s => Ret a s.

Definition bind {S A B} (m : M S A) (k : A -> M S B) : M S B :=
  fun s =>
    match m s with
    | Ret a s' => k a s'
    | Raise e s' => Raise e s'
    | Blocked s' => Blocked s'
    end.

Definition raise {S A} (e : exn) : M S A := fun s => Raise e s.

(** A pure expression evaluated inside a method. *)
Definition lift {S A} (r : result A) : M S A :=
  fun s => match r with Ok a => Ret a s | Err e => Raise e s end.

(** [try: m except Exception as e: h e]. *)
Definition try_except {S A} (m : M S A) (h : exn -> M S A) : M S A :=
  fun s =>
    match m s with
    | Raise e s' => h e s'
    | o => o
    end.

(** [try: m finally: f]; the finally clause runs on return and on raise. *)
Definition try_finally {S A} (m : M S A) (f : M S unit) : M S A :=
  fun s =>
    match m s with
    | Ret a s' => bind f (fun _ => ret a) s'
    | Raise e s' => bind f (fun _ => raise e) s'
    | Blocked s' => Blocked s'
    end.

Notation "'let*' x ':=' m 'in' k" := (bind m (fun x => k))
  (at level 10, x name, m at level 100, k at level 200).
Notation "m >> k" := (bind m (fun _ => k))
  (at level 90, right associativity).

(** [for x in xs: body x]. *)
Fixpoint for_each {S A} (xs : list A) (body : A -> M S unit) : M S unit :=
  match xs with
  | [] => ret tt
  | x :: xs' => body x >> for_each xs' body
  end.

(* ===================================================================== *)
(** ** Flow._Session *)
(* ===================================================================== *)

Module Session.

(** A user callback, called with the type tag and the data of a
    notification: it returns, or raises an exception. *)
Inductive cb_result : Type :=
| CbReturn
| CbRaise (msg : string).

Abbreviation callback := (string -> value -> cb_result).

(** A request posted to the backend: the method, the parameters and the
    client-side timeout handed to [requests.post]. *)
Record request : Type := mkRequest {
  req_method : string;
  req_params : list (string * value);
  req_timeout : option Q
}.

(** Records handed to [LOG]. *)
Inductive log_record : Type :=
| WarnErrorQueueFull (ignored_error : string)
| WarnNotificationQueueFull (data : value)
| DebugError (e : exn).

Record session : Type := mkSession {
  sid : Z;
  callbacks : gmap string callback;
  notification_queue : list value;
  error_queue : list string;
  listen_notifications : bool;
  callback_lock : bool;
  (** history, not program state: the callback invocations made so far,
      the records logged so far and the requests posted by the poller so
      far, oldest first *)
  invoked : list (string * value);
  logged : list log_record;
  polled : list request
}.

Definition new_Session (sid0 : Z) : session :=
  {| sid := sid0; callbacks := ∅; notification_queue := [];
     error_queue := []; listen_notifications := false;
     callback_lock := false; invoked := []; logged := []; polled := [] |}.

Definition set_callbacks (c : gmap string callback) (s : session) : session :=
  {| sid := sid s; callbacks := c;
     notification_queue := notification_queue s;
     error_queue := error_queue s;
     listen_notifications := listen_notifications s;
     callback_lock := callback_lock s;
     invoked := invoked s; logged := logged s;
     polled := polled s |}.

Definition set_notification_queue (q : list value) (s : session) : session :=
  {| sid := sid s; callbacks := callbacks s;
     notification_queue := q;
     error_queue := error_queue s;
     listen_notifications := listen_notifications s;
     callback_lock := callback_lock s;
     invoked := invoked s; logged := logged s;
     polled := polled s |}.

Definition set_error_queue (q : list string) (s : session) : session :=
  {| sid := sid s; callbacks := callbacks s;
     notification_queue := notification_queue s;
     error_queue := q;
     listen_notifications := listen_notifications s;
     callback_lock := callback_lock s;
     invoked := invoked s; logged := logged s;
     polled := polled s |}.

Definition set_listen_notifications (b : bool) (s : session) : session :=
  {| sid := sid s; callbacks := callbacks s;
     notification_queue := notification_queue s;
     error_queue := error_queue s;
     listen_notifications := b;
     callback_lock := callback_lock s;
     invoked := invoked s; logged := logged s;
     polled := polled s |}.

Definition set_callback_lock (b : bool) (s : session) : session :=
  {| sid := sid s; callbacks := callbacks s;
     notification_queue := notification_queue s;
     error_queue := error_queue s;
     listen_notifications := listen_notifications s;
     callback_lock := b;
     invoked := invoked s; logged := logged s;
     polled := polled s |}.

Definition add_invoked (c : string * value) (s : session) : session :=
  {| sid := sid s; callbacks := callbacks s;
     notification_queue := notification_queue s;
     error_queue := error_queue s;
     listen_notifications := listen_notifications s;
     callback_lock := callback_lock s;
     invoked := invoked s ++ [c]; logged := logged s;
     polled := polled s |}.

Definition add_logged (r : log_record) (s : session) : session :=
  {| sid := sid s; callbacks := callbacks s;
     notification_queue := notification_queue s;
     error_queue := error_queue s;
     listen_notifications := listen_notifications s;
     callback_lock := callback_lock s;
     invoked := invoked s; logged := logged s ++ [r];
     polled := polled s |}.

(** *** Primitives: [threading.Lock], [Queue.Queue], [LOG] *)

Module Lock.
(** [callback_lock.acquire()]: a held lock blocks the caller; nothing in
    the session releases a lock on behalf of a blocked thread. *)
Definition acquire : M session unit :=
  fun s => if callback_lock s then Blocked s
           else Ret tt (set_callback_lock true s).

(** [callback_lock.release()]. *)
Definition release : M session unit :=
  fun s => Ret tt (set_callback_lock false s).
End Lock.

Module NotificationQueue.
Definition qsize : M session nat :=
  fun s => Ret (length (notification_queue s)) s.

(** [get()] with no timeout: waits for an item. *)
Definition get : M session value :=
  fun s => match notification_queue s with
           | x :: q => Ret x (set_notification_queue q s)
           | [] => Blocked s
           end.

(** [get(block=True, timeout=t)]: the oldest item, or [Queue.Empty] when
    the queue stayed empty until the timeout ran out. *)
Definition get_timeout (timeout_secs : Q) : M session value :=
  fun s => match notification_queue s with
           | x :: q => Ret x (set_notification_queue q s)
           | [] => Raise QueueEmpty s
           end.

Definition put (x : value) : M session unit :=
  fun s => Ret tt (set_notification_queue (notification_queue s ++ [x]) s).
End NotificationQueue.

Module ErrorQueue.
Definition qsize : M session nat :=
  fun s => Ret (length (error_queue s)) s.

Definition get : M session string :=
  fun s => match error_queue s with
           | x :: q => Ret x (set_error_queue q s)
           | [] => Blocked s
           end.

Definition get_timeout (timeout_secs : Q) : M session string :=
  fun s => match error_queue s with
           | x :: q => Ret x (set_error_queue q s)
           | [] => Raise QueueEmpty s
           end.

Definition put (x : string) : M session unit :=
  fun s => Ret tt (set_error_queue (error_queue s ++ [x]) s).
End ErrorQueue.

Definition add_polled (r : request) (s : session) : session :=
  {| sid := sid s; callbacks := callbacks s;
     notification_queue := notification_queue s;
     error_queue := error_queue s;
     listen_notifications := listen_notifications s;
     callback_lock := callback_lock s;
     invoked := invoked s; logged := logged s;
     polled := polled s ++ [r] |}.

Definition LOG (r : log_record) : M session unit :=
  fun s => Ret tt (add_logged r s).

(** *** Methods of [_Session] *)

Definition _MAX_QUEUE_SIZE : nat := 128.

Definition start_notification_loop : M session unit :=
  fun s => Ret tt (set_listen_notifications true s).

(** [unregister_callback]: acquire, [del self.callbacks[name]], release.
    The [del] raises KeyError on a missing name, and the release after it
    is then not reached. *)
Definition unregister_callback (notification_name : string) : M session unit :=
  Lock.acquire >>
  (fun s => match callbacks s !! notification_name with
            | Some _ => Ret tt (set_callbacks (delete notification_name (callbacks s)) s)
            | None => Raise (KeyError (VStr notification_name)) s
            end) >>
  Lock.release.

Definition register_callback (notification_name : string) (cb : callback)
  : M session unit :=
  Lock.acquire >>
  (fun s => Ret tt (set_callbacks (<[notification_name := cb]> (callbacks s)) s)) >>
  Lock.release.

Definition _queue_error (error : string) : M session unit :=
  let* n := ErrorQueue.qsize in
  (if _MAX_QUEUE_SIZE <? n then
     let* ignored_error := ErrorQueue.get in
     LOG (WarnErrorQueueFull ignored_error)
   else ret tt) >>
  ErrorQueue.put error.

(** [x in self.callbacks]: the keys are strings; a list or a dict is not
    hashable. *)
Definition in_callbacks (x : value) : M session bool :=
  fun s => match x with
           | VStr t => Ret (bool_decide (is_Some (callbacks s !! t))) s
           | VList _ | VDict _ => Raise TypeError s
           | VNone | VBool _ | VInt _ => Ret false s
           end.

(** The body of the [for change in changes] loop of [_queue_changes]. *)
Definition _queue_change (change : value) : M session unit :=
  if Py.truthy change then
    let* has_type := lift (Py.contains "type" change) in
    if has_type then
      let* ty := lift (Py.getitem change "type") in
      let* registered := in_callbacks ty in
      if registered then
        let* n := NotificationQueue.qsize in
        (if _MAX_QUEUE_SIZE <? n then
           let* notification := NotificationQueue.get in
           let* data := lift (Py.getitem notification "data") in
           LOG (WarnNotificationQueueFull data)
         else ret tt) >>
        NotificationQueue.put change
      else ret tt
    else ret tt
  else ret tt.

Definition _queue_changes (changes : value) : M session unit :=
  let changes := match changes with VList l => l | _ => [changes] end in
  for_each changes _queue_change.

Definition get_queued_error (timeout_secs : Q) : M session string :=
  ErrorQueue.get_timeout timeout_secs.

(** The call of the registered callback: the callee is looked up first,
    then the two arguments are evaluated, then the call is made. *)
Definition call_callback (notification : value) : M session unit :=
  let* ty := lift (Py.getitem notification "type") in
  let* registered := in_callbacks ty in
  (if registered then ret tt else raise (NotSupported ty)) >>
  let* ty' := lift (Py.getitem notification "type") in
  (fun s =>
     match ty' with
     | VStr t =>
         match callbacks s !! t with
         | Some cb =>
             match Py.getitem notification "data" with
             | Ok data =>
                 match cb t data with
                 | CbReturn => Ret tt (add_invoked (t, data) s)
                 | CbRaise msg => Raise (HandlerError msg) (add_invoked (t, data) s)
                 end
             | Err e => Raise e s
             end
         | None => Raise (KeyError ty') s
         end
     | VList _ | VDict _ => Raise TypeError s
     | VNone | VBool _ | VInt _ => Raise (KeyError ty') s
     end).

Definition consume_notification (timeout_secs : Q) : M session bool :=
  try_except
    (let* notification := NotificationQueue.get_timeout timeout_secs in
     try_finally
       (try_except
          (Lock.acquire >> call_callback notification)
          (fun exception => LOG (DebugError exception)))
       Lock.release >>
     ret true)
    (fun e => match e with
              | QueueEmpty => ret false
              | _ => raise e
              end).

(** [close]: the flag is cleared, and the caller joins the poller thread
    when it is alive. [thread] is [None] when the thread has not been
    started or has ended, and otherwise what the thread has still to run:
    the join waits until that has ended, in a return or in an exception,
    and does not return while the thread is blocked. *)
Definition close (thread : option (M session unit)) : M session unit :=
  fun s =>
    let s1 := set_listen_notifications false s in
    match thread with
    | None => Ret tt s1
    | Some rest =>
        match rest s1 with
        | Ret _ s2 | Raise _ s2 => Ret tt s2
        | Blocked s2 => Blocked s2
        end
    end.

End Session.

(* ===================================================================== *)
(** ** Flow *)
(* ===================================================================== *)

Definition rbind {A B} (r : result A) (k : A -> result B) : result B :=
  match r with
  | Ok a => k a
  | Err e => Err e
  end.

Notation "'let?' x ':=' r 'in' k" := (rbind r (fun x => k))
  (at level 10, x name, r at level 100, k at level 200).

Module Flow.

Record flow : Type := mkFlow {
  api_timeout : option Q;
  sessions : gmap Z Session.session;
  _current_session : Z;
  _loop_process_notifications : bool
}.

Definition set_sessions (m : gmap Z Session.session) (f : flow) : flow :=
  {| api_timeout := api_timeout f; sessions := m;
     _current_session := _current_session f;
     _loop_process_notifications := _loop_process_notifications f |}.

(** [return sid if sid else self._current_session]; an integer is falsy
    exactly when it is 0. *)
Definition _get_session_id (f : flow) (sid : Z) : Z :=
  if Py.truthy (VInt sid) then sid else _current_session f.

Definition set_api_timeout (timeout : option Q) (f : flow) : flow :=
  {| api_timeout := timeout; sessions := sessions f;
     _current_session := _current_session f;
     _loop_process_notifications := _loop_process_notifications f |}.

Definition set_current_session (sid : Z) (f : flow) : flow :=
  {| api_timeout := api_timeout f; sessions := sessions f;
     _current_session := sid;
     _loop_process_notifications := _loop_process_notifications f |}.

Definition get_current_session (f : flow) : Z := _current_session f.

(** Truth value of a timeout: [None] and a zero number are falsy. *)
Definition timeout_truthy (t : option Q) : bool :=
  match t with
  | None => false
  | Some q => negb (Qnum q =? 0)%Z
  end.

(** [a or b] on timeouts. *)
Definition timeout_or (a b : option Q) : option Q :=
  if timeout_truthy a then a else b.

(** How the [try] block of [_run] and the decoding after it end.
    [RequestsConnectionError]: the post raised an exception that is a
    [requests.ConnectionError], a connect timeout included, which is tested
    first. [RequestsTimeout]: it raised a [requests.Timeout] that is no
    connection error. [PostRaised e]: [json.dumps] or the post raised another
    exception, which no [except] clause of [_run] catches.
    [ResponseNotJSON]: the body of the response did not decode.
    [Response response_data]: the decoded body. *)
Inductive transport_reply : Type :=
| RequestsConnectionError
| RequestsTimeout
| PostRaised (e : exn)
| ResponseNotJSON
| Response (response_data : value).

(** The request that [_run] posts. *)
Definition _run_request (f : flow) (method : string) (timeout : option Q)
    (params : list (string * value)) : Session.request :=
  let req_timeout :=
    timeout_or timeout
      (if negb (String.eqb method "WaitForNotification")
       then api_timeout f else None) in
  {| Session.req_method := method; Session.req_params := params;
     Session.req_timeout := req_timeout |}.

(** ["name" in response_data.keys() and len(response_data["name"]) > 0]. *)
Definition nonempty_field (name : string) (response_data : value) : result bool :=
  let? keys := Py.keys response_data in
  if existsb (String.eqb name) keys then
    let? x := Py.getitem response_data name in
    let? n := Py.len x in
    Ok (0 <? n)
  else Ok false.

(** The part of [_run] after the response has been decoded. *)
Definition _run_response (response_data : value) : result value :=
  let? has_error := nonempty_field "error" response_data in
  if has_error then
    let? msg := Py.getitem response_data "error" in Err (FlowError msg)
  else
    let? has_Error := nonempty_field "Error" response_data in
    if has_Error then
      let? msg := Py.getitem response_data "Error" in Err (FlowError msg)
    else
      let? keys := Py.keys response_data in
      if existsb (String.eqb "result") keys
      then Py.getitem response_data "result"
      else Ok response_data.

(** [_run]: the request posted, and what the call gives back as a function
    of the reply that the backend makes to it. *)
Definition _run (f : flow) (method : string) (timeout : option Q)
    (params : list (string * value))
  : Session.request * (transport_reply -> result value) :=
  (_run_request f method timeout params,
   fun reply =>
     match reply with
     | RequestsConnectionError => Err FlowConnectionError
     | RequestsTimeout => Err FlowTimeoutError
     | PostRaised e => Err e
     | ResponseNotJSON => Err ValueError
     | Response response_data => _run_response response_data
     end).

Definition wait_for_notification (f : flow) (sid : Z) (timeout : option Q)
  : Session.request * (transport_reply -> result value) :=
  let sid := _get_session_id f sid in
  _run f "WaitForNotification" timeout [("SessionID", VInt sid)].

(** [self.sessions[sid].m(...)]: KeyError when [sid] is not a key; the
    session object is updated in place. *)
Definition on_session {A} (sid : Z) (m : M Session.session A) : M flow A :=
  fun f =>
    match sessions f !! sid with
    | None => Raise (KeyError (VInt sid)) f
    | Some s =>
        match m s with
        | Ret a s' => Ret a (set_sessions (<[sid := s']> (sessions f)) f)
        | Raise e s' => Raise e (set_sessions (<[sid := s']> (sessions f)) f)
        | Blocked s' => Blocked (set_sessions (<[sid := s']> (sessions f)) f)
        end
    end.

Definition register_callback (notification_name : string)
    (cb : Session.callback) (sid : Z) : M flow unit :=
  fun f =>
    let sid := _get_session_id f sid in
    on_session sid (Session.register_callback notification_name cb) f.

Definition unregister_callback (notification_name : string) (sid : Z)
  : M flow unit :=
  fun f =>
    let sid := _get_session_id f sid in
    on_session sid (Session.unregister_callback notification_name) f.

Definition process_one_notification (timeout_secs : Q) (sid : Z) : M flow bool :=
  fun f =>
    let sid := _get_session_id f sid in
    on_session sid (Session.consume_notification timeout_secs) f.

Definition get_notification_error (timeout_secs : Q) (sid : Z)
  : M flow (option string) :=
  fun f =>
    let sid := _get_session_id f sid in
    match sessions f !! sid with
    | Some _ =>
        try_except
          (let* error := on_session sid (Session.get_queued_error timeout_secs) in
           ret (Some error))
          (fun e => match e with
                    | QueueEmpty => ret None
                    | _ => raise e
                    end) f
    | None => Ret None f
    end.

(** [_close]: stop the poller of the session and join it, then drop the
    session. [threads] gives, for the key of a session, the state of its
    poller thread as [Session.close] takes it. *)
Definition _close (sid : Z) (threads : Z -> option (M Session.session unit))
  : M flow unit :=
  fun f =>
    let sid := _get_session_id f sid in
    (on_session sid (Session.close (threads sid)) >>
     (fun f' => Ret tt (set_sessions (delete sid (sessions f')) f'))) f.

End Flow.

(* ===================================================================== *)
(** ** The poller: Flow._Session._notification_loop *)
(* ===================================================================== *)

Section Poller.

(** [str(flow_err)], the description of an exception. *)
Variable str : exn -> string.

(** What the backend does while one wait call is outstanding: the reply to
    the call, and what [flowappglue.poll()] reports afterwards ([None]
    while the process is alive, its return code once it has exited). *)
Definition backend_step : Type := Flow.transport_reply * option Z.

(** The thread body. [f] is the Flow object the session belongs to, of which
    the loop reads the default timeout and the current session through
    [wait_for_notification]. Each turn of the [while] consumes one step of
    the backend; when no step is left the thread is inside the wait call,
    which has no reply yet. *)
Fixpoint _notification_loop (f : Flow.flow) (env : list backend_step)
  : M Session.session unit :=
  fun s =>
    if Session.listen_notifications s then
      let (posted, answer) := Flow.wait_for_notification f (Session.sid s) None in
      let s1 := Session.add_polled posted s in
      match env with
      | [] => Blocked s1
      | (reply, poll) :: env' =>
          match answer reply with
          | Err flow_err =>
              match poll with
              | Some _ => Ret tt s1
              | None =>
                  (Session._queue_error (str flow_err) >>
                   _notification_loop f env') s1
              end
          | Ok changes =>
              (Session.Lock.acquire >>
               Session._queue_changes changes >>
               Session.Lock.release >>
               _notification_loop f env') s1
          end
      end
    else Ret tt s.

End Poller.

(* ===================================================================== *)
(** ** Vocabulary of the statements *)
(* ===================================================================== *)

(** An event as the backend delivers it: [{"type": tag, "data": payload}]. *)
Definition Event (tag : string) (payload : value) : value :=
  VDict [("type", VStr tag); ("data", payload)].

(** The type tag of a change dict, when it has a string one. *)
Definition event_type (v : value) : option string :=
  match Py.getitem v "type" with
  | Ok (VStr t) => Some t
  | _ => None
  end.

(** The payload of a change dict, when it has one. *)
Definition event_data (v : value) : option value :=
  match Py.getitem v "data" with
  | Ok d => Some d
  | Err _ => None
  end.

(** A change dict with a string type tag and a payload. *)
Definition is_event (v : value) : Prop :=
  is_Some (event_type v) /\ is_Some (event_data v).

(** The last [n] items of a list. *)
Definition last_n {A} (n : nat) (l : list A) : list A :=
  skipn (length l - n) l.

(** One push on a queue under the size check of [_queue_error] and
    [_queue_changes]: [if qsize() > _MAX_QUEUE_SIZE: get()] and then
    [put(x)]. *)
Definition push_bounded {A} (q : list A) (x : A) : list A :=
  if Session._MAX_QUEUE_SIZE <? length q then tl q ++ [x] else q ++ [x].

(** [s'] differs from [s] in its two queues and its log at most. *)
Definition queues_only (s s' : Session.session) : Prop :=
  Session.sid s' = Session.sid s /\
  Session.callbacks s' = Session.callbacks s /\
  Session.listen_notifications s' = Session.listen_notifications s /\
  Session.callback_lock s' = Session.callback_lock s /\
  Session.invoked s' = Session.invoked s /\
  Session.polled s' = Session.polled s.

(** Unfolds the monad operations at the head of a goal, leaving the size
    checks folded. *)
Ltac step_m :=
  unfold bind, ret, raise, lift, try_except, try_finally,
    Session.LOG, Session.Lock.acquire, Session.Lock.release,
    Session.ErrorQueue.qsize, Session.ErrorQueue.get, Session.ErrorQueue.put,
    Session.ErrorQueue.get_timeout,
    Session.NotificationQueue.qsize, Session.NotificationQueue.get,
    Session.NotificationQueue.put, Session.NotificationQueue.get_timeout,
    Session.in_callbacks;
  cbv beta iota.

(** A change that [_queue_changes] admits in state [s] and that can later
    be evicted: it has a payload and a type tag with a handler. *)
Definition deliverable (s : Session.session) (change : value) : Prop :=
  is_Some (event_data change) /\
  exists t, event_type change = Some t /\ is_Some (Session.callbacks s !! t).

(** What one push does to a queue [q]: [q'] is the queue afterwards and
    [dropped] the items taken out of it. *)
Definition drop_oldest_push {A} (q : list A) (x : A) (q' dropped : list A) : Prop :=
  (Session._MAX_QUEUE_SIZE < length q -> q' = tl q ++ [x] /\ dropped = firstn 1 q) /\
  (length q <= Session._MAX_QUEUE_SIZE -> q' = q ++ [x] /\ dropped = []).

(** Accessors for statements about one concrete run. *)
Definition returned {S A} (o : outcome S A) : option A :=
  match o with
  | Ret a _ => Some a
  | _ => None
  end.

Definition state_of {S A} (o : outcome S A) : S :=
  match o with
  | Ret _ s | Raise _ s | Blocked s => s
  end.

(** [n] distinct error descriptions, and [n] events with distinct payloads. *)
Definition numbered_errors (n : nat) : list string :=
  map (fun i => String (Ascii.ascii_of_nat i) "") (seq 0 n).

Definition numbered_events (tag : string) (n : nat) : list value :=
  map (fun i => Event tag (VInt (Z.of_nat i))) (seq 0 n).

(** A session as it is right after construction, with one handler. *)
Definition listening_for (tag : string) (cb : Session.callback) : Session.session :=
  Session.set_callbacks (<[tag := cb]> ∅) (Session.new_Session 1).

Definition quiet : Session.callback := fun _ _ => Session.CbReturn.
Definition failing : Session.callback := fun _ _ => Session.CbRaise "boom".


(** Whether the type tag of a change has a handler in the registry of [s]. *)
Definition registered (s : Session.session) (change : value) : bool :=
  match event_type change with
  | Some t => bool_decide (is_Some (Session.callbacks s !! t))
  | None => false
  end.

(** The poller's step on a successful wait, the [else] branch of
    [_notification_loop]: the changes are queued under the callback lock. *)
Definition poller_delivers (changes : value) : M Session.session unit :=
  Session.Lock.acquire >>
  Session._queue_changes changes >>
  Session.Lock.release.

(** [n] calls of [process_one_notification] in a row, with their results. *)
Fixpoint process_n (n : nat) (timeout_secs : Q) (sid : Z) : M Flow.flow (list bool) :=
  match n with
  | 0 => ret []
  | S n' =>
      let* r := Flow.process_one_notification timeout_secs sid in
      let* rs := process_n n' timeout_secs sid in
      ret (r :: rs)
  end.

(** The arguments that the handler of a change is called with. *)
Definition call_of (change : value) : option (string * value) :=
  match event_type change, event_data change with
  | Some t, Some d => Some (t, d)
  | _, _ => None
  end.

(** What [consume_notification] logs for the outcome of a handler. *)
Definition handler_log (r : Session.cb_result) : list Session.log_record :=
  match r with
  | Session.CbReturn => []
  | Session.CbRaise msg => [Session.DebugError (HandlerError msg)]
  end.

(** A client with one session, which is the current one. *)
Definition client_with (sid : Z) (s : Session.session) : Flow.flow :=
  {| Flow.api_timeout := None; Flow.sessions := {[ sid := s ]};
     Flow._current_session := sid;
     Flow._loop_process_notifications := false |}.

(** The scenario of three messages: a handler for ["message"] is
    registered on the current session, the poller delivers three message
    events, and [process_one_notification] is called four times. *)
Definition three_messages (h : Session.callback) (timeout_secs : Q)
  : M Flow.flow (list bool) :=
  Flow.register_callback "message" h 0 >>
  Flow.on_session 1 (poller_delivers (Event "message" (VStr "a"))) >>
  Flow.on_session 1 (poller_delivers (Event "message" (VStr "b"))) >>
  Flow.on_session 1 (poller_delivers (Event "message" (VStr "c"))) >>
  process_n 4 timeout_secs 0.

(** The field [name] of a response dict is there and its length is
    positive. *)
Definition nonempty (name : string) (d : list (string * value)) : Prop :=
  exists v n, Py.dict_get name d = Some v /\ Py.len v = Ok n /\ 0 < n.

(** The field [name] of a response dict, when it is there, is a string, a
    list or a dict, the values that [len] applies to. *)
Definition sized_if_present (name : string) (d : list (string * value)) : Prop :=
  forall v, Py.dict_get name d = Some v -> exists n, Py.len v = Ok n.

(* ===================================================================== *)
(** ** Further vocabulary: the session table and the queues as a whole *)
(* ===================================================================== *)

(** The last loop of [terminate]: [for sid in sids: self._close(sid)],
    where [sids] is [list(self.sessions.keys())]. *)
Definition close_all_sessions (sids : list Z)
    (threads : Z -> option (M Session.session unit)) : M Flow.flow unit :=
  for_each sids (fun sid => Flow._close sid threads).

(** What the poller thread has still to run while it is inside a wait
    call: the rest of the turn, from the reply [step] to the call on, and
    then the loop on the later steps of the backend. *)
Definition after_wait (str : exn -> string) (f : Flow.flow)
    (step : backend_step) (env : list backend_step) : M Session.session unit :=
  fun s1 =>
    match snd (Flow.wait_for_notification f (Session.sid s1) None) (fst step) with
    | Err flow_err =>
        match snd step with
        | Some _ => Ret tt s1
        | None =>
            (Session._queue_error (str flow_err) >>
             _notification_loop str f env) s1
        end
    | Ok changes =>
        (Session.Lock.acquire >>
         Session._queue_changes changes >>
         Session.Lock.release >>
         _notification_loop str f env) s1
    end.

(** The poller thread, in the state given for it, ends when it is run from
    [s1]: it does not stay blocked. *)
Definition thread_ends (thread : option (M Session.session unit))
    (s1 : Session.session) : Prop :=
  match thread with
  | None => True
  | Some rest => forall s2, rest s1 <> Blocked s2
  end.

(** Both queues of a session hold at most [_MAX_QUEUE_SIZE + 1] items. *)
Definition queues_bounded (s : Session.session) : Prop :=
  length (Session.error_queue s) <= S Session._MAX_QUEUE_SIZE /\
  length (Session.notification_queue s) <= S Session._MAX_QUEUE_SIZE.

(** A change that [_queue_changes] passes over: a falsy value, a dict
    without a "type" key, or a dict whose "type" is [None], a boolean or a
    number. *)
Definition passed_over (change : value) : Prop :=
  Py.truthy change = false \/
  exists d, change = VDict d /\
    (Py.dict_get "type" d = None \/
     Py.dict_get "type" d = Some VNone \/
     (exists b, Py.dict_get "type" d = Some (VBool b)) \/
     (exists n, Py.dict_get "type" d = Some (VInt n))).

(** A change on which the tests of [_queue_changes] raise TypeError: a
    nonzero number or [True] (not iterable), or a dict whose "type" is a
    list or a dict (not hashable). *)
Definition malformed (change : value) : Prop :=
  (exists n, change = VInt n /\ n <> 0%Z) \/
  change = VBool true \/
  exists d, change = VDict d /\
    ((exists l, Py.dict_get "type" d = Some (VList l)) \/
     (exists d', Py.dict_get "type" d = Some (VDict d'))).

(** The changes that one answer of the wait call delivers, and the error
    description that it queues. *)
Definition delivered (answer : result value) : list value :=
  match answer with
  | Ok (VList l) => l
  | Ok change => [change]
  | Err _ => []
  end.

Definition failure (str : exn -> string) (answer : result value) : list string :=
  match answer with
  | Ok _ => []
  | Err e => [str e]
  end.

(** The answer of the poller's wait call of session [s] to a reply. *)
Definition wait_answer (f : Flow.flow) (s : Session.session)
    (reply : Flow.transport_reply) : result value :=
  snd (Flow.wait_for_notification f (Session.sid s) None) reply.

(** Reduces the fields of a session that has gone through the setters. *)
Ltac simpl_session :=
  cbn [Session.sid Session.callbacks Session.notification_queue
       Session.error_queue Session.listen_notifications Session.callback_lock
       Session.invoked Session.logged Session.polled
       Session.set_callbacks Session.set_notification_queue
       Session.set_error_queue Session.set_listen_notifications
       Session.set_callback_lock Session.add_invoked Session.add_logged
       Session.add_polled] in *.

(** [_make_notification_decorator(name)]: the decorator registers the
    function for [name] on the current session and gives the function
    back. [Flow.message], [Flow.org] and the other nineteen class
    attributes are this decorator at their notification type. *)
Definition _make_notification_decorator (name : string)
  : Session.callback -> M Flow.flow Session.callback :=
  fun func => Flow.register_callback name func 0 >> ret func.

Definition MESSAGE_NOTIFICATION : string := "message".
Definition message := _make_notification_decorator MESSAGE_NOTIFICATION.

(** [n] calls of [get_queued_error] in a row, with the errors they give. *)
Fixpoint drain_errors (n : nat) (timeout_secs : Q) : M Session.session (list string) :=
  match n with
  | 0 => ret []
  | S n' =>
      let* e := Session.get_queued_error timeout_secs in
      let* es := drain_errors n' timeout_secs in
      ret (e :: es)
  end.

(* ===================================================================== *)
(** ** Lists: bounded pushes keep the newest items *)
(* ===================================================================== *)

Section BoundedPush.
Context {A : Type}.
Implicit Types (q xs : list A) (x : A).

Lemma last_n_all n q : length q <= n -> last_n n q = q.
Proof.
  intros Hle. unfold last_n.
  replace (length q - n) with 0 by lia. reflexivity.
Qed.

Lemma last_n_length n q : n <= length q -> length (last_n n q) = n.
Proof.
  intros Hle. unfold last_n. rewrite length_skipn. lia.
Qed.

Lemma last_n_app_long n q xs : n <= length xs -> last_n n (q ++ xs) = last_n n xs.
Proof.
  intros Hle. unfold last_n. rewrite length_app.
  replace (length q + length xs - n) with (length q + (length xs - n)) by lia.
  apply drop_app_add.
Qed.

Lemma push_bounded_length q x :
  length q <= S Session._MAX_QUEUE_SIZE ->
  length (push_bounded q x) <= S Session._MAX_QUEUE_SIZE.
Proof.
  intros Hle. unfold push_bounded.
  destruct (Nat.ltb_spec Session._MAX_QUEUE_SIZE (length q)) as [Hlt | Hge].
  - destruct q as [| a q']; [inversion Hlt |].
    cbn [tl]. rewrite length_app. cbn [length] in *. lia.
  - rewrite length_app. cbn [length]. lia.
Qed.

Lemma push_bounded_last_n q x :
  length q <= S Session._MAX_QUEUE_SIZE ->
  push_bounded q x = last_n (S Session._MAX_QUEUE_SIZE) (q ++ [x]).
Proof.
  intros Hle. unfold push_bounded, last_n.
  destruct (Nat.ltb_spec Session._MAX_QUEUE_SIZE (length q)) as [Hlt | Hge].
  - destruct q as [| a q']; [inversion Hlt |].
    cbn [tl]. rewrite length_app. cbn [length] in *.
    replace (S (length q') + 1 - S Session._MAX_QUEUE_SIZE) with 1 by lia.
    reflexivity.
  - rewrite length_app. cbn [length].
    replace (length q + 1 - S Session._MAX_QUEUE_SIZE) with 0 by lia.
    reflexivity.
Qed.

Lemma fold_push_bounded xs : forall q,
  length q <= S Session._MAX_QUEUE_SIZE ->
  fold_left push_bounded xs q = last_n (S Session._MAX_QUEUE_SIZE) (q ++ xs).
Proof.
  induction xs as [| x xs IH]; intros q Hle.
  - cbn [fold_left]. rewrite app_nil_r. symmetry. by apply last_n_all.
  - cbn [fold_left]. rewrite IH by (by apply push_bounded_length).
    unfold push_bounded.
    destruct (Nat.ltb_spec Session._MAX_QUEUE_SIZE (length q)) as [Hlt | Hge].
    + destruct q as [| a q']; [inversion Hlt |].
      cbn [tl]. rewrite <- app_assoc. cbn [app]. unfold last_n.
      set (l := q' ++ x :: xs).
      assert (Hl : S Session._MAX_QUEUE_SIZE <= length l).
      { subst l. rewrite length_app. cbn [length] in *. lia. }
      cbn [length].
      replace (S (length l) - S Session._MAX_QUEUE_SIZE)
        with (S (length l - S Session._MAX_QUEUE_SIZE)) by lia.
      reflexivity.
    + rewrite <- app_assoc. reflexivity.
Qed.

(** Pushing at least 129 items leaves the 129 newest of them. *)
Lemma fold_push_bounded_long xs q :
  length q <= S Session._MAX_QUEUE_SIZE ->
  S Session._MAX_QUEUE_SIZE <= length xs ->
  fold_left push_bounded xs q = last_n (S Session._MAX_QUEUE_SIZE) xs.
Proof.
  intros Hq Hxs. rewrite fold_push_bounded by done. by apply last_n_app_long.
Qed.

End BoundedPush.

(* ===================================================================== *)
(** ** What a method leaves alone *)
(* ===================================================================== *)

Lemma queues_only_refl s : queues_only s s.
Proof. by repeat split. Qed.

Lemma queues_only_trans s1 s2 s3 :
  queues_only s1 s2 -> queues_only s2 s3 -> queues_only s1 s3.
Proof.
  unfold queues_only. intros (?&?&?&?&?&?) (?&?&?&?&?&?).
  repeat split; congruence.
Qed.

(* ===================================================================== *)
(** ** The error queue *)
(* ===================================================================== *)

Lemma _queue_error_push error s :
  exists s',
    Session._queue_error error s = Ret tt s' /\
    Session.error_queue s' = push_bounded (Session.error_queue s) error /\
    Session.logged s' =
      Session.logged s ++
        (if Session._MAX_QUEUE_SIZE <? length (Session.error_queue s)
         then map Session.WarnErrorQueueFull (firstn 1 (Session.error_queue s))
         else []) /\
    Session.notification_queue s' = Session.notification_queue s /\
    queues_only s s'.
Proof.
  unfold Session._queue_error, push_bounded. step_m.
  destruct (Nat.ltb_spec Session._MAX_QUEUE_SIZE (length (Session.error_queue s)))
    as [Hlt | Hge].
  - destruct (Session.error_queue s) as [| ignored rest] eqn:Hq;
      [inversion Hlt |].
    step_m. eexists. split; [reflexivity |].
    cbn. rewrite ?Hq. by repeat split.
  - step_m. eexists. split; [reflexivity |].
    cbn. rewrite app_nil_r. by repeat split.
Qed.

Lemma for_each__queue_error errors : forall s,
  exists s',
    for_each errors Session._queue_error s = Ret tt s' /\
    Session.error_queue s' = fold_left push_bounded errors (Session.error_queue s) /\
    Session.notification_queue s' = Session.notification_queue s /\
    queues_only s s'.
Proof.
  induction errors as [| e errors IH]; intros s.
  - exists s. cbn. repeat split.
  - destruct (_queue_error_push e s) as (s1 & Hrun & Hq & _ & Hn & Hframe).
    destruct (IH s1) as (s2 & Hrun2 & Hq2 & Hn2 & Hframe2).
    exists s2. cbn [for_each fold_left]. unfold bind at 1. rewrite Hrun.
    split; [exact Hrun2 |]. rewrite Hq2, Hq, Hn2, Hn.
    split; [done |]. split; [done |]. by eapply queues_only_trans.
Qed.

(* ===================================================================== *)
(** ** The notification queue *)
(* ===================================================================== *)

Lemma event_type_inv v t :
  event_type v = Some t ->
  exists d, v = VDict d /\ Py.dict_get "type" d = Some (VStr t).
Proof.
  unfold event_type, Py.getitem. intros H.
  destruct v as [| | | | | d]; try discriminate.
  destruct (Py.dict_get "type" d) as [[| | | t' | |] |] eqn:Hd; try discriminate.
  exists d. split; [reflexivity |]. congruence.
Qed.

Lemma event_type_Event tag payload : event_type (Event tag payload) = Some tag.
Proof. reflexivity. Qed.

Lemma event_data_Event tag payload : event_data (Event tag payload) = Some payload.
Proof. reflexivity. Qed.

Lemma is_event_Event tag payload : is_event (Event tag payload).
Proof. split; eexists; reflexivity. Qed.

(** The first tests of [_queue_changes] on a change with a string type tag
    come down to the registry lookup. *)
Lemma _queue_change_typed change t s :
  event_type change = Some t ->
  Session._queue_change change s =
    (if bool_decide (is_Some (Session.callbacks s !! t)) then
       let* n := Session.NotificationQueue.qsize in
       (if Session._MAX_QUEUE_SIZE <? n then
          let* notification := Session.NotificationQueue.get in
          let* data := lift (Py.getitem notification "data") in
          Session.LOG (Session.WarnNotificationQueueFull data)
        else ret tt) >>
       Session.NotificationQueue.put change
     else ret tt) s.
Proof.
  intros Ht. destruct (event_type_inv _ _ Ht) as (d & -> & Hd).
  unfold Session._queue_change.
  assert (Htruthy : Py.truthy (VDict d) = true).
  { destruct d; [discriminate | reflexivity]. }
  rewrite Htruthy. unfold Py.contains, Py.getitem. rewrite Hd.
  reflexivity.
Qed.

(** A change whose type has no handler is dropped: nothing changes. *)
Lemma _queue_change_unregistered change t s :
  event_type change = Some t ->
  Session.callbacks s !! t = None ->
  Session._queue_change change s = Ret tt s.
Proof.
  intros Ht Hcb. rewrite (_queue_change_typed _ _ _ Ht), Hcb.
  rewrite bool_decide_false; [reflexivity |].
  intros [x Hx]. discriminate.
Qed.

(** A change whose type has a handler is pushed, after the oldest item has
    been taken out when more than [_MAX_QUEUE_SIZE] items are queued. *)
Lemma _queue_change_registered change t s :
  event_type change = Some t ->
  is_Some (Session.callbacks s !! t) ->
  Forall (fun x => is_Some (event_data x)) (Session.notification_queue s) ->
  exists s',
    Session._queue_change change s = Ret tt s' /\
    Session.notification_queue s' =
      push_bounded (Session.notification_queue s) change /\
    Session.logged s' =
      Session.logged s ++
        (if Session._MAX_QUEUE_SIZE <? length (Session.notification_queue s)
         then omap (fun x => Session.WarnNotificationQueueFull <$> event_data x)
                (firstn 1 (Session.notification_queue s))
         else []) /\
    Session.error_queue s' = Session.error_queue s /\
    queues_only s s'.
Proof.
  intros Ht Hcb Hdata. rewrite (_queue_change_typed _ _ _ Ht).
  rewrite bool_decide_true by done.
  unfold push_bounded. step_m.
  destruct (Nat.ltb_spec Session._MAX_QUEUE_SIZE
              (length (Session.notification_queue s))) as [Hlt | Hge].
  - destruct (Session.notification_queue s) as [| x rest] eqn:Hq;
      [inversion Hlt |].
    apply Forall_cons in Hdata as [[data Hx] _].
    assert (Hget : Py.getitem x "data" = Ok data).
    { unfold event_data in Hx. destruct (Py.getitem x "data"); congruence. }
    step_m. rewrite Hget. eexists. split; [reflexivity |].
    cbn. rewrite ?Hq, Hx. by repeat split.
  - step_m. eexists. split; [reflexivity |].
    cbn. rewrite app_nil_r. by repeat split.
Qed.

Lemma Forall_push_bounded {A} (P : A -> Prop) (q : list A) (x : A) :
  Forall P q -> P x -> Forall P (push_bounded q x).
Proof.
  intros Hq Hx. unfold push_bounded.
  destruct (Session._MAX_QUEUE_SIZE <? length q).
  - apply Forall_app. split; [| by constructor].
    destruct q; [constructor | by inversion Hq].
  - apply Forall_app. split; [done | by constructor].
Qed.

Lemma for_each__queue_change changes : forall s,
  Forall (deliverable s) changes ->
  Forall (fun x => is_Some (event_data x)) (Session.notification_queue s) ->
  exists s',
    for_each changes Session._queue_change s = Ret tt s' /\
    Session.notification_queue s' =
      fold_left push_bounded changes (Session.notification_queue s) /\
    Session.error_queue s' = Session.error_queue s /\
    queues_only s s'.
Proof.
  induction changes as [| c changes IH]; intros s Hall Hq.
  - exists s. cbn. repeat split.
  - apply Forall_cons in Hall as [[Hdata (t & Ht & Hcb)] Hall].
    destruct (_queue_change_registered c t s Ht Hcb Hq)
      as (s1 & Hrun & Hq1 & _ & He1 & Hframe1).
    destruct (IH s1) as (s2 & Hrun2 & Hq2 & He2 & Hframe2).
    + eapply Forall_impl; [exact Hall |].
      intros x [Hx (t' & Ht' & Hcb')]. split; [done |].
      exists t'. split; [done |].
      destruct Hframe1 as (_ & -> & _). done.
    + rewrite Hq1. by apply Forall_push_bounded.
    + exists s2. cbn [for_each fold_left]. unfold bind at 1. rewrite Hrun.
      split; [exact Hrun2 |]. rewrite Hq2, Hq1, He2, He1.
      split; [done |]. split; [done |]. by eapply queues_only_trans.
Qed.

Lemma push_bounded_drop_oldest {A} (q : list A) (x : A) :
  drop_oldest_push q x (push_bounded q x)
    (if Session._MAX_QUEUE_SIZE <? length q then firstn 1 q else []).
Proof.
  unfold drop_oldest_push, push_bounded.
  destruct (Nat.ltb_spec Session._MAX_QUEUE_SIZE (length q)); split; intros; try lia; done.
Qed.

(* ===================================================================== *)
(** ** C1: the two bounded queues *)
(* ===================================================================== *)

(** C1, as amended. The size check of both queues is
    [qsize() > _MAX_QUEUE_SIZE], so a queue grows to 129 items before a push
    evicts anything. In a session whose queues hold at most 129 items:
    one push of an error returns, takes out the single oldest error and
    logs it when it finds more than 128 queued, takes out nothing when it
    finds 128 or fewer, and appends the new error; any run of pushes
    returns and leaves the last 129 of the items queued and pushed, in
    order, so after 129 or more pushes exactly the last 129 pushed remain.
    The same holds of the notification queue for changes that carry a
    payload and a type tag with a registered handler, the evicted payload
    being what is logged. Nothing but the queue and the log changes. *)
Theorem bounded_queues_keep_the_newest_129 (s : Session.session) :
  length (Session.error_queue s) <= S Session._MAX_QUEUE_SIZE ->
  length (Session.notification_queue s) <= S Session._MAX_QUEUE_SIZE ->
  Forall (fun x => is_Some (event_data x)) (Session.notification_queue s) ->
  (forall error, exists s' dropped,
     Session._queue_error error s = Ret tt s' /\
     drop_oldest_push (Session.error_queue s) error
       (Session.error_queue s') dropped /\
     Session.logged s' =
       Session.logged s ++ map Session.WarnErrorQueueFull dropped /\
     Session.notification_queue s' = Session.notification_queue s /\
     queues_only s s') /\
  (forall errors, exists s',
     for_each errors Session._queue_error s = Ret tt s' /\
     Session.error_queue s' =
       last_n (S Session._MAX_QUEUE_SIZE) (Session.error_queue s ++ errors) /\
     (S Session._MAX_QUEUE_SIZE <= length errors ->
      Session.error_queue s' = last_n (S Session._MAX_QUEUE_SIZE) errors /\
      length (Session.error_queue s') = S Session._MAX_QUEUE_SIZE) /\
     Session.notification_queue s' = Session.notification_queue s /\
     queues_only s s') /\
  (forall change, deliverable s change -> exists s' dropped,
     Session._queue_changes change s = Ret tt s' /\
     drop_oldest_push (Session.notification_queue s) change
       (Session.notification_queue s') dropped /\
     Session.logged s' =
       Session.logged s ++
         omap (fun x => Session.WarnNotificationQueueFull <$> event_data x) dropped /\
     Session.error_queue s' = Session.error_queue s /\
     queues_only s s') /\
  (forall changes, Forall (deliverable s) changes -> exists s',
     Session._queue_changes (VList changes) s = Ret tt s' /\
     Session.notification_queue s' =
       last_n (S Session._MAX_QUEUE_SIZE) (Session.notification_queue s ++ changes) /\
     (S Session._MAX_QUEUE_SIZE <= length changes ->
      Session.notification_queue s' = last_n (S Session._MAX_QUEUE_SIZE) changes /\
      length (Session.notification_queue s') = S Session._MAX_QUEUE_SIZE) /\
     Session.error_queue s' = Session.error_queue s /\
     queues_only s s').
Proof.
  intros Hlen_e Hlen_n Hdata. repeat split.
  - intros error.
    destruct (_queue_error_push error s) as (s' & Hrun & Hq & Hlog & Hn & Hfr).
    exists s'. eexists. split; [exact Hrun |]. rewrite Hq.
    split; [apply push_bounded_drop_oldest |].
    rewrite Hlog. repeat split; try apply Hfr; try done.
    by destruct (Session._MAX_QUEUE_SIZE <? length (Session.error_queue s)).
  - intros errors.
    destruct (for_each__queue_error errors s) as (s' & Hrun & Hq & Hn & Hfr).
    exists s'. split; [exact Hrun |].
    rewrite Hq. split; [by apply fold_push_bounded |].
    split; [| by split].
    intros Hlong. rewrite fold_push_bounded_long by done.
    split; [done |]. by apply last_n_length.
  - intros change [Hpayload (t & Ht & Hcb)].
    destruct (_queue_change_registered change t s Ht Hcb Hdata)
      as (s' & Hrun & Hq & Hlog & He & Hfr).
    exists s'. eexists.
    destruct (event_type_inv _ _ Ht) as (d & -> & _).
    unfold Session._queue_changes. cbn [for_each]. unfold bind at 1.
    rewrite Hrun. split; [reflexivity |]. rewrite Hq.
    split; [apply push_bounded_drop_oldest |].
    rewrite Hlog. repeat split; try apply Hfr; try done.
    by destruct (Session._MAX_QUEUE_SIZE <? length (Session.notification_queue s)).
  - intros changes Hall.
    destruct (for_each__queue_change changes s Hall Hdata)
      as (s' & Hrun & Hq & He & Hfr).
    exists s'. split; [exact Hrun |].
    rewrite Hq. split; [by apply fold_push_bounded |].
    split; [| by split].
    intros Hlong. rewrite fold_push_bounded_long by done.
    split; [done |]. by apply last_n_length.
Qed.

Lemma bounded_queues_keep_the_newest_129_witness :
  let s0 := listening_for "message" quiet in
  length (Session.error_queue s0) <= S Session._MAX_QUEUE_SIZE /\
  length (Session.notification_queue s0) <= S Session._MAX_QUEUE_SIZE /\
  Forall (fun x => is_Some (event_data x)) (Session.notification_queue s0) /\
  exists s',
    for_each (numbered_errors 130) Session._queue_error s0 = Ret tt s' /\
    Session.error_queue s' = last_n 129 (numbered_errors 130).
Proof.
  intros s0.
  assert (He : length (Session.error_queue s0) <= S Session._MAX_QUEUE_SIZE)
    by (vm_compute; lia).
  assert (Hn : length (Session.notification_queue s0) <= S Session._MAX_QUEUE_SIZE)
    by (vm_compute; lia).
  assert (Hd : Forall (fun x => is_Some (event_data x)) (Session.notification_queue s0))
    by constructor.
  split; [exact He |]. split; [exact Hn |]. split; [exact Hd |].
  destruct (bounded_queues_keep_the_newest_129 s0 He Hn Hd) as (_ & Hrun & _).
  destruct (Hrun (numbered_errors 130)) as (s' & Hs' & _ & Hlong & _).
  exists s'. split; [exact Hs' |].
  apply Hlong. vm_compute. lia.
Defined.

(** C1 as stated fails: 130 pushes leave 129 items, not 128, in either
    queue, and a push that finds exactly 128 items queued evicts nothing. *)
Lemma pushing_130_items_leaves_129 :
  let errors := for_each (numbered_errors 130) Session._queue_error
                  (Session.new_Session 1) in
  let events := Session._queue_changes (VList (numbered_events "message" 130))
                  (listening_for "message" quiet) in
  let full := for_each (numbered_errors 128) Session._queue_error
                (Session.new_Session 1) in
  let one_more := Session._queue_error "one more" (state_of full) in
  (returned errors = Some tt /\
   length (Session.error_queue (state_of errors)) = 129 /\
   Session.error_queue (state_of errors) <> last_n 128 (numbered_errors 130)) /\
  (returned events = Some tt /\
   length (Session.notification_queue (state_of events)) = 129 /\
   Session.notification_queue (state_of events)
     <> last_n 128 (numbered_events "message" 130)) /\
  (length (Session.error_queue (state_of full)) = 128 /\
   returned one_more = Some tt /\
   Session.error_queue (state_of one_more)
     = Session.error_queue (state_of full) ++ ["one more"] /\
   Session.logged (state_of one_more) = []).
Proof.
  cbv zeta. repeat match goal with |- _ /\ _ => split end;
    try (vm_compute; reflexivity);
    intros H; apply (f_equal (@length _)) in H; vm_compute in H; lia.
Qed.

(* ===================================================================== *)
(** ** C2: only events with a registered handler are queued *)
(* ===================================================================== *)

Lemma registered_frame s s' change :
  queues_only s s' -> registered s' change = registered s change.
Proof.
  intros (_ & Hcb & _). unfold registered. by rewrite Hcb.
Qed.

Lemma push_bounded_last {A} (q : list A) (x : A) : last (push_bounded q x) = Some x.
Proof.
  unfold push_bounded.
  destruct (Session._MAX_QUEUE_SIZE <? length q); apply last_snoc.
Qed.

(** A batch of events: exactly those with a registered type are pushed. *)
Lemma for_each__queue_change_filter changes : forall s,
  Forall is_event changes ->
  Forall (fun x => is_Some (event_data x)) (Session.notification_queue s) ->
  exists s',
    for_each changes Session._queue_change s = Ret tt s' /\
    Session.notification_queue s' =
      fold_left push_bounded (List.filter (registered s) changes)
        (Session.notification_queue s) /\
    Session.error_queue s' = Session.error_queue s /\
    queues_only s s'.
Proof.
  induction changes as [| c changes IH]; intros s Hall Hq.
  - exists s. cbn. repeat split.
  - apply Forall_cons in Hall as [[[t Ht] Hdata] Hall].
    cbn [for_each List.filter]. unfold bind at 1.
    unfold registered at 1. rewrite Ht.
    destruct (Session.callbacks s !! t) as [cb |] eqn:Hcb.
    + rewrite bool_decide_true by done.
      destruct (_queue_change_registered c t s Ht) as (s1 & Hrun & Hq1 & _ & He1 & Hfr1);
        [by rewrite Hcb | done |].
      rewrite Hrun. cbn [fold_left].
      destruct (IH s1 Hall) as (s2 & Hrun2 & Hq2 & He2 & Hfr2).
      { rewrite Hq1. by apply Forall_push_bounded. }
      exists s2. split; [exact Hrun2 |].
      rewrite Hq2, Hq1, He2, He1.
      split; [| split; [done | by eapply queues_only_trans]].
      f_equal. apply filter_ext. intros x. by apply registered_frame.
    + rewrite bool_decide_false by (intros [? ?]; discriminate).
      rewrite (_queue_change_unregistered c t s Ht Hcb).
      apply (IH s Hall Hq).
Qed.

Lemma register_callback_unlocked name cb s :
  Session.callback_lock s = false ->
  exists s',
    Session.register_callback name cb s = Ret tt s' /\
    Session.callbacks s' = <[name := cb]> (Session.callbacks s) /\
    Session.notification_queue s' = Session.notification_queue s /\
    Session.error_queue s' = Session.error_queue s /\
    Session.callback_lock s' = false /\
    Session.listen_notifications s' = Session.listen_notifications s /\
    Session.invoked s' = Session.invoked s /\
    Session.logged s' = Session.logged s.
Proof.
  intros Hlock. unfold Session.register_callback. step_m. rewrite Hlock.
  eexists. split; [reflexivity |]. cbn. by repeat split.
Qed.

Lemma _queue_changes_one change t s s' :
  event_type change = Some t ->
  Session._queue_change change s = Ret tt s' ->
  Session._queue_changes change s = Ret tt s'.
Proof.
  intros Ht Hrun. destruct (event_type_inv _ _ Ht) as (d & -> & _).
  unfold Session._queue_changes. cbn [for_each]. unfold bind.
  by rewrite Hrun.
Qed.

(** Where every queued item carries a payload the rule holds: let [event]
    carry the type tag [t], delivered to such a session. If [t] has a handler in the registry when
    [_queue_changes] runs, the event is put at the tail of the notification
    queue; if it has none, the call returns with the session unchanged, so
    the event is discarded. In the second case, registering a handler for
    [t] afterwards leaves the queue as it was before the delivery, and an
    event of type [t] delivered after the registration is put at the tail.
    Of a batch of events, exactly those whose type has a handler are
    pushed, in order. *)
Theorem queued_iff_handler_registered
    (s : Session.session) (event : value) (t : string) :
  event_type event = Some t ->
  Forall (fun x => is_Some (event_data x)) (Session.notification_queue s) ->
  (is_Some (Session.callbacks s !! t) ->
   exists s',
     Session._queue_changes event s = Ret tt s' /\
     Session.notification_queue s' =
       push_bounded (Session.notification_queue s) event /\
     last (Session.notification_queue s') = Some event) /\
  (Session.callbacks s !! t = None ->
   Session._queue_changes event s = Ret tt s) /\
  (Session.callbacks s !! t = None ->
   Session.callback_lock s = false ->
   forall cb, exists s1,
     (Session._queue_changes event >> Session.register_callback t cb) s
       = Ret tt s1 /\
     Session.notification_queue s1 = Session.notification_queue s /\
     forall later, event_type later = Some t ->
       exists s2,
         Session._queue_changes later s1 = Ret tt s2 /\
         Session.notification_queue s2 =
           push_bounded (Session.notification_queue s) later /\
         last (Session.notification_queue s2) = Some later) /\
  (forall changes, Forall is_event changes ->
   exists s',
     Session._queue_changes (VList changes) s = Ret tt s' /\
     Session.notification_queue s' =
       fold_left push_bounded (List.filter (registered s) changes)
         (Session.notification_queue s)).
Proof.
  intros Ht Hdata.
  assert (Hyes : forall s0 ev,
    event_type ev = Some t ->
    Forall (fun x => is_Some (event_data x)) (Session.notification_queue s0) ->
    is_Some (Session.callbacks s0 !! t) ->
    exists s',
      Session._queue_changes ev s0 = Ret tt s' /\
      Session.notification_queue s' =
        push_bounded (Session.notification_queue s0) ev /\
      last (Session.notification_queue s') = Some ev).
  { intros s0 ev Hev Hq Hcb.
    destruct (_queue_change_registered ev t s0 Hev Hcb Hq) as (s' & Hrun & Hq' & _).
    exists s'. split; [by eapply _queue_changes_one |].
    split; [done |]. rewrite Hq'. apply push_bounded_last. }
  assert (Hno : Session.callbacks s !! t = None ->
                Session._queue_changes event s = Ret tt s).
  { intros Hcb. eapply _queue_changes_one; [done |].
    by apply (_queue_change_unregistered _ t). }
  split; [by apply Hyes |]. split; [exact Hno |]. split.
  - intros Hcb Hlock cb.
    destruct (register_callback_unlocked t cb s Hlock)
      as (s1 & Hreg & Hcbs & Hq1 & _).
    exists s1. unfold bind at 1. rewrite (Hno Hcb).
    split; [exact Hreg |]. split; [exact Hq1 |].
    intros later Hlater. rewrite <- Hq1. apply Hyes; [done | by rewrite Hq1 |].
    rewrite Hcbs, lookup_insert_eq. by eexists.
  - intros changes Hall.
    destruct (for_each__queue_change_filter changes s Hall Hdata)
      as (s' & Hrun & Hq & _).
    exists s'. split; [exact Hrun | exact Hq].
Qed.

Lemma queued_iff_handler_registered_witness :
  let s := Session.new_Session 1 in
  let event := Event "message" (VStr "a") in
  event_type event = Some "message" /\
  Forall (fun x => is_Some (event_data x)) (Session.notification_queue s) /\
  Session.callbacks s !! "message" = None /\
  Session._queue_changes event s = Ret tt s.
Proof.
  intros s event.
  assert (Ht : event_type event = Some "message") by reflexivity.
  assert (Hq : Forall (fun x => is_Some (event_data x)) (Session.notification_queue s))
    by constructor.
  assert (Hcb : Session.callbacks s !! "message" = None) by reflexivity.
  split; [exact Ht |]. split; [exact Hq |]. split; [exact Hcb |].
  destruct (queued_iff_handler_registered s event "message" Ht Hq) as (_ & Hno & _).
  exact (Hno Hcb).
Defined.

(** C2: the case in which the code departs from it. A change is queued as
    soon as its type has a handler, with or without a "data" key, and the
    eviction log reads [notification["data"]] of the item it has taken out.
    On a session with a handler for "message", the delivery of 129 changes
    [{"type": "message"}] returns and queues them all. The event
    [{"type": "message", "data": "new"}] delivered next has a registered
    type, yet it is not queued: [_queue_changes] raises KeyError for "data"
    after the oldest item has been taken out, and in the poller's step the
    exception leaves the callback lock held. *)
Theorem registered_event_lost_at_eviction :
  let bare := VDict [("type", VStr "message")] in
  let event := Event "message" (VStr "new") in
  let filled := Session._queue_changes (VList (repeat bare 129))
                  (listening_for "message" quiet) in
  let s := state_of filled in
  returned filled = Some tt /\
  Session.notification_queue s = repeat bare 129 /\
  Session.callback_lock s = false /\
  registered s event = true /\
  Session._queue_changes event s =
    Raise (KeyError (VStr "data"))
      (Session.set_notification_queue (repeat bare 128) s) /\
  Forall (fun x => x = bare /\ x <> event)
    (Session.notification_queue (state_of (Session._queue_changes event s))) /\
  poller_delivers event s =
    Raise (KeyError (VStr "data"))
      (Session.set_callback_lock true
         (Session.set_notification_queue (repeat bare 128) s)).
Proof.
  cbv zeta.
  assert (Hq : Session.notification_queue
                 (state_of (Session._queue_changes
                    (Event "message" (VStr "new"))
                    (state_of (Session._queue_changes
                       (VList (repeat (VDict [("type", VStr "message")]) 129))
                       (listening_for "message" quiet)))))
               = repeat (VDict [("type", VStr "message")]) 128)
    by (vm_compute; reflexivity).
  repeat match goal with |- _ /\ _ => split end;
    try (vm_compute; reflexivity).
  rewrite Hq. apply Forall_forall. intros x Hx.
  apply list_elem_of_In, repeat_spec in Hx. subst x.
  split; [reflexivity | discriminate].
Qed.

(* ===================================================================== *)
(** ** Dispatch: consume_notification *)
(* ===================================================================== *)

Lemma call_callback_deliverable x t d cb s :
  event_type x = Some t ->
  event_data x = Some d ->
  Session.callbacks s !! t = Some cb ->
  Session.call_callback x s =
    match cb t d with
    | Session.CbReturn => Ret tt (Session.add_invoked (t, d) s)
    | Session.CbRaise msg =>
        Raise (HandlerError msg) (Session.add_invoked (t, d) s)
    end.
Proof.
  intros Ht Hd Hcb. destruct (event_type_inv _ _ Ht) as (items & -> & Hty).
  unfold event_data, Py.getitem in Hd.
  destruct (Py.dict_get "data" items) as [d' |] eqn:Hdata; [| discriminate].
  injection Hd as ->.
  unfold Session.call_callback, Py.getitem. rewrite Hty. step_m.
  rewrite Hcb, bool_decide_true by done. cbv beta iota.
  rewrite Hcb, Hdata. reflexivity.
Qed.

Lemma call_callback_unregistered x t s :
  event_type x = Some t ->
  Session.callbacks s !! t = None ->
  Session.call_callback x s = Raise (NotSupported (VStr t)) s.
Proof.
  intros Ht Hcb. destruct (event_type_inv _ _ Ht) as (items & -> & Hty).
  unfold Session.call_callback, Py.getitem. rewrite Hty. step_m.
  rewrite Hcb, bool_decide_false by (intros [? ?]; discriminate).
  reflexivity.
Qed.

(** Whatever the notification is, the dispatch returns or raises; it changes
    nothing but the record of invocations. *)
Lemma call_callback_total x s :
  exists s',
    ((exists a, Session.call_callback x s = Ret a s') \/
     (exists e, Session.call_callback x s = Raise e s')) /\
    (s' = s \/ exists c, s' = Session.add_invoked c s).
Proof.
  unfold Session.call_callback. step_m.
  destruct (Py.getitem x "type") as [ty | e] eqn:Hty; cbv beta iota;
    [| exists s; split; [right; by eexists | by left]].
  destruct ty as [| b | n | t | l | d]; cbv beta iota;
    try (exists s; split; [right; by eexists | by left]).
  destruct (Session.callbacks s !! t) as [cb |] eqn:Hcb.
  - rewrite bool_decide_true by done. cbv beta iota. rewrite Hcb.
    destruct (Py.getitem x "data") as [data | e]; cbv beta iota;
      [| exists s; split; [right; by eexists | by left]].
    exists (Session.add_invoked (t, data) s).
    split; [| right; by eexists].
    destruct (cb t data); [left; by exists tt | right; by eexists].
  - rewrite bool_decide_false by (intros [? ?]; discriminate). cbv beta iota.
    exists s; split; [right; by eexists | by left].
Qed.

Lemma consume_notification_empty timeout_secs s :
  Session.notification_queue s = [] ->
  Session.consume_notification timeout_secs s = Ret false s.
Proof.
  intros Hq. unfold Session.consume_notification. step_m. by rewrite Hq.
Qed.

(** With the lock free, a call that finds an item pops it and returns true,
    whatever the dispatch does. *)
Lemma consume_notification_pops timeout_secs x rest s :
  Session.notification_queue s = x :: rest ->
  Session.callback_lock s = false ->
  exists s',
    Session.consume_notification timeout_secs s = Ret true s' /\
    Session.notification_queue s' = rest /\
    Session.callback_lock s' = false /\
    Session.callbacks s' = Session.callbacks s /\
    Session.listen_notifications s' = Session.listen_notifications s /\
    Session.error_queue s' = Session.error_queue s /\
    Session.sid s' = Session.sid s /\
    Session.polled s' = Session.polled s.
Proof.
  intros Hq Hlock. unfold Session.consume_notification. step_m.
  rewrite Hq. cbn [Session.callback_lock Session.set_notification_queue].
  rewrite Hlock.
  set (s1 := Session.set_callback_lock true (Session.set_notification_queue rest s)).
  destruct (call_callback_total x s1) as (s2 & [[[] Hrun] | [e Hrun]] & Hfr);
    rewrite Hrun; (eexists; split; [reflexivity |]);
    destruct Hfr as [-> | [c ->]]; cbn; by repeat split.
Qed.

(** The same call when the item at the head can be dispatched: the handler
    is invoked once, with the type tag and the payload of the item, and a
    handler that raises is logged. *)
Lemma consume_notification_dispatches timeout_secs x rest t d cb s :
  Session.notification_queue s = x :: rest ->
  Session.callback_lock s = false ->
  event_type x = Some t ->
  event_data x = Some d ->
  Session.callbacks s !! t = Some cb ->
  exists s',
    Session.consume_notification timeout_secs s = Ret true s' /\
    Session.invoked s' = Session.invoked s ++ [(t, d)] /\
    Session.logged s' = Session.logged s ++ handler_log (cb t d) /\
    Session.notification_queue s' = rest /\
    Session.callback_lock s' = false /\
    Session.callbacks s' = Session.callbacks s /\
    Session.listen_notifications s' = Session.listen_notifications s.
Proof.
  intros Hq Hlock Ht Hd Hcb. unfold Session.consume_notification. step_m.
  rewrite Hq. cbn [Session.callback_lock Session.set_notification_queue].
  rewrite Hlock.
  rewrite (call_callback_deliverable x t d cb) by done.
  destruct (cb t d); (eexists; split; [reflexivity |]); cbn;
    rewrite ?app_nil_r; by repeat split.
Qed.

(** The same call when the type of the item has no handler any more: the
    item is gone, no handler is invoked, the refusal is logged. *)
Lemma consume_notification_drops timeout_secs x rest t s :
  Session.notification_queue s = x :: rest ->
  Session.callback_lock s = false ->
  event_type x = Some t ->
  Session.callbacks s !! t = None ->
  exists s',
    Session.consume_notification timeout_secs s = Ret true s' /\
    Session.invoked s' = Session.invoked s /\
    Session.logged s' =
      Session.logged s ++ [Session.DebugError (NotSupported (VStr t))] /\
    Session.notification_queue s' = rest /\
    Session.callback_lock s' = false.
Proof.
  intros Hq Hlock Ht Hcb. unfold Session.consume_notification. step_m.
  rewrite Hq. cbn [Session.callback_lock Session.set_notification_queue].
  rewrite Hlock.
  rewrite (call_callback_unregistered x t) by done.
  eexists. split; [reflexivity |]. cbn. by repeat split.
Qed.

(* ===================================================================== *)
(** ** Flow: methods that go through the session table *)
(* ===================================================================== *)

Lemma on_session_Ret {A} sid (m : M Session.session A) f s a s' :
  Flow.sessions f !! sid = Some s ->
  m s = Ret a s' ->
  Flow.on_session sid m f =
    Ret a (Flow.set_sessions (<[sid := s']> (Flow.sessions f)) f).
Proof. intros Hs Hm. unfold Flow.on_session. by rewrite Hs, Hm. Qed.

Lemma on_session_same {A} sid (m : M Session.session A) f s a :
  Flow.sessions f !! sid = Some s ->
  m s = Ret a s ->
  Flow.on_session sid m f = Ret a f.
Proof.
  intros Hs Hm. rewrite (on_session_Ret sid m f s a s Hs Hm).
  rewrite insert_id by done. by destruct f.
Qed.

Lemma on_session_frame {A} k (m : M Session.session A) f :
  let f' := state_of (Flow.on_session k m f) in
  (forall j, j <> k -> Flow.sessions f' !! j = Flow.sessions f !! j) /\
  Flow._current_session f' = Flow._current_session f /\
  Flow.api_timeout f' = Flow.api_timeout f.
Proof.
  cbv zeta. unfold Flow.on_session.
  destruct (Flow.sessions f !! k) as [s |]; [| by repeat split].
  destruct (m s); cbn; (split; [| by split]);
    intros j Hj; by rewrite lookup_insert_ne.
Qed.

Lemma call_of_deliverable s x :
  deliverable s x ->
  exists t d cb,
    event_type x = Some t /\ event_data x = Some d /\
    Session.callbacks s !! t = Some cb /\ call_of x = Some (t, d).
Proof.
  intros [[d Hd] (t & Ht & [cb Hcb])]. exists t, d, cb.
  unfold call_of. by rewrite Ht, Hd.
Qed.

(** Draining a queue of dispatchable items: one call per item, each true,
    the handlers invoked in queue order. *)
Lemma process_n_fifo timeout_secs sid k q : forall f s,
  Flow._get_session_id f sid = k ->
  Flow.sessions f !! k = Some s ->
  Session.notification_queue s = q ->
  Session.callback_lock s = false ->
  Forall (deliverable s) q ->
  exists f' s',
    process_n (length q) timeout_secs sid f = Ret (repeat true (length q)) f' /\
    Flow._get_session_id f' sid = k /\
    Flow.sessions f' !! k = Some s' /\
    Session.invoked s' = Session.invoked s ++ omap call_of q /\
    Session.notification_queue s' = [] /\
    Session.callback_lock s' = false /\
    Session.callbacks s' = Session.callbacks s.
Proof.
  induction q as [| x rest IH]; intros f s Hk Hs Hq Hlock Hall.
  - exists f, s. cbn. rewrite app_nil_r. by repeat split.
  - apply Forall_cons in Hall as [Hx Hrest].
    destruct (call_of_deliverable s x Hx) as (t & d & cb & Ht & Hd & Hcb & Hcall).
    destruct (consume_notification_dispatches timeout_secs x rest t d cb s)
      as (s1 & Hrun & Hinv & _ & Hq1 & Hlock1 & Hcbs1 & _); try done.
    set (f1 := Flow.set_sessions (<[k := s1]> (Flow.sessions f)) f).
    assert (Hone : Flow.process_one_notification timeout_secs sid f = Ret true f1).
    { unfold Flow.process_one_notification. rewrite Hk.
      by apply (on_session_Ret k _ f s true s1). }
    destruct (IH f1 s1) as (f' & s' & Hrun' & Hk' & Hs' & Hinv' & Hq' & Hlock' & Hcbs');
      try done.
    + subst f1. cbn. apply lookup_insert_eq.
    + eapply Forall_impl; [exact Hrest |].
      intros y [Hy (t' & Ht' & Hcb')]. split; [done |].
      exists t'. by rewrite Hcbs1.
    + exists f', s'. cbn [length process_n repeat]. unfold bind at 1.
      rewrite Hone. unfold bind at 1. rewrite Hrun'.
      split; [reflexivity |]. split; [done |]. split; [done |].
      rewrite Hinv', Hinv.
      change (omap call_of (x :: rest))
        with (match call_of x with
              | Some c => c :: omap call_of rest
              | None => omap call_of rest
              end).
      rewrite Hcall, <- app_assoc. repeat split; congruence.
Qed.

(* ===================================================================== *)
(** ** C3: dispatch in queue order *)
(* ===================================================================== *)

Lemma three_messages_run h timeout_secs :
  let run := three_messages h timeout_secs (client_with 1 (Session.new_Session 1)) in
  returned run = Some [true; true; true; false] /\
  Session.invoked <$> (Flow.sessions (state_of run) !! 1%Z) =
    Some [("message", VStr "a"); ("message", VStr "b"); ("message", VStr "c")].
Proof.
  cbv zeta. vm_compute.
  destruct (h "message" (VStr "a")), (h "message" (VStr "b")),
    (h "message" (VStr "c")); split; reflexivity.
Qed.

(** C3. Scenario: on a fresh client, after a handler for ["message"] has
    been registered and the poller has delivered three message events with
    data "a", "b", "c", four calls of [process_one_notification] return
    true, true, true, false, and the handler has been invoked with "a",
    "b", "c" in that order, whether it returns or raises. In general: when
    every queued item of a session has a payload and a type tag with a
    handler, and the callback lock is free, as many calls as there are
    items return true each and invoke the handlers on the items in queue
    order, and the next call returns false. *)
Theorem dispatch_follows_queue_order :
  (forall (h : Session.callback) (timeout_secs : Q),
     let run := three_messages h timeout_secs
                  (client_with 1 (Session.new_Session 1)) in
     returned run = Some [true; true; true; false] /\
     Session.invoked <$> (Flow.sessions (state_of run) !! 1%Z) =
       Some [("message", VStr "a"); ("message", VStr "b"); ("message", VStr "c")]) /\
  (forall (f : Flow.flow) (sid : Z) (s : Session.session) (timeout_secs : Q),
     Flow.sessions f !! Flow._get_session_id f sid = Some s ->
     Session.callback_lock s = false ->
     Forall (deliverable s) (Session.notification_queue s) ->
     exists f' s',
       process_n (length (Session.notification_queue s)) timeout_secs sid f
         = Ret (repeat true (length (Session.notification_queue s))) f' /\
       Flow.sessions f' !! Flow._get_session_id f sid = Some s' /\
       Session.invoked s' =
         Session.invoked s ++ omap call_of (Session.notification_queue s) /\
       Session.notification_queue s' = [] /\
       Flow.process_one_notification timeout_secs sid f' = Ret false f').
Proof.
  split; [apply three_messages_run |].
  intros f sid s timeout_secs Hs Hlock Hall.
  destruct (process_n_fifo timeout_secs sid (Flow._get_session_id f sid)
              (Session.notification_queue s) f s)
    as (f' & s' & Hrun & Hk & Hs' & Hinv & Hq & _); try done.
  exists f', s'. repeat split; try done.
  unfold Flow.process_one_notification. rewrite Hk.
  eapply on_session_same; [exact Hs' |].
  by apply consume_notification_empty.
Qed.

Lemma dispatch_follows_queue_order_witness :
  let s := Session.set_notification_queue
             [Event "message" (VStr "a"); Event "org" (VStr "b")]
             (Session.set_callbacks (<["org" := failing]> (<["message" := quiet]> ∅))
                (Session.new_Session 7)) in
  let f := client_with 7 s in
  Flow.sessions f !! Flow._get_session_id f 0 = Some s /\
  Session.callback_lock s = false /\
  Forall (deliverable s) (Session.notification_queue s) /\
  exists f' s',
    process_n 2 (1 # 20) 0 f = Ret [true; true] f' /\
    Flow.sessions f' !! 7%Z = Some s' /\
    Session.invoked s' = [("message", VStr "a"); ("org", VStr "b")].
Proof.
  intros s f.
  assert (Hs : Flow.sessions f !! Flow._get_session_id f 0 = Some s) by reflexivity.
  assert (Hlock : Session.callback_lock s = false) by reflexivity.
  assert (Hall : Forall (deliverable s) (Session.notification_queue s)).
  { repeat constructor; try (eexists; reflexivity);
      eexists; (split; [reflexivity |]); eexists; reflexivity. }
  split; [exact Hs |]. split; [exact Hlock |]. split; [exact Hall |].
  destruct dispatch_follows_queue_order as [_ Hgen].
  destruct (Hgen f 0%Z s (1 # 20)%Q Hs Hlock Hall) as (f' & s' & Hrun & Hs' & Hinv & _).
  exists f', s'. split; [exact Hrun |]. split; [exact Hs' | exact Hinv].
Defined.

(* ===================================================================== *)
(** ** C4: a handler that raises *)
(* ===================================================================== *)

Lemma poller_delivers_registered change t s :
  Session.callback_lock s = false ->
  event_type change = Some t ->
  is_Some (Session.callbacks s !! t) ->
  Forall (fun x => is_Some (event_data x)) (Session.notification_queue s) ->
  exists s',
    poller_delivers change s = Ret tt s' /\
    Session.notification_queue s' =
      push_bounded (Session.notification_queue s) change /\
    Session.callback_lock s' = false.
Proof.
  intros Hlock Ht Hcb Hq. unfold poller_delivers. step_m. rewrite Hlock.
  set (s1 := Session.set_callback_lock true s).
  destruct (_queue_change_registered change t s1 Ht Hcb Hq)
    as (s2 & Hrun & Hq2 & _).
  rewrite (_queue_changes_one change t s1 s2 Ht Hrun).
  eexists. split; [reflexivity |]. cbn. by rewrite Hq2.
Qed.

(** C4. Let the item at the head of the notification queue have a payload
    and a type tag whose registered handler raises on it, the callback lock
    being free. Then [process_one_notification] returns true: the handler
    has been invoked once, the exception is in the log and goes no further,
    the lock is free again, and the poller flag, the registry and the rest
    of the queue are as before. The items behind it are still dispatched to
    their handlers in order by the next calls, and the poller can still
    queue a delivered event. *)
Theorem handler_exception_is_contained
    (f : Flow.flow) (sid : Z) (s : Session.session) (timeout_secs : Q)
    (x : value) (rest : list value) (t : string) (d : value)
    (cb : Session.callback) (msg : string) :
  Flow.sessions f !! Flow._get_session_id f sid = Some s ->
  Session.callback_lock s = false ->
  Session.notification_queue s = x :: rest ->
  event_type x = Some t ->
  event_data x = Some d ->
  Session.callbacks s !! t = Some cb ->
  cb t d = Session.CbRaise msg ->
  exists f' s',
    Flow.process_one_notification timeout_secs sid f = Ret true f' /\
    Flow.sessions f' !! Flow._get_session_id f sid = Some s' /\
    Session.invoked s' = Session.invoked s ++ [(t, d)] /\
    Session.logged s' =
      Session.logged s ++ [Session.DebugError (HandlerError msg)] /\
    Session.listen_notifications s' = Session.listen_notifications s /\
    Session.callback_lock s' = false /\
    Session.callbacks s' = Session.callbacks s /\
    Session.notification_queue s' = rest /\
    (Forall (deliverable s) rest ->
     exists f'' s'',
       process_n (length rest) timeout_secs sid f'
         = Ret (repeat true (length rest)) f'' /\
       Flow.sessions f'' !! Flow._get_session_id f sid = Some s'' /\
       Session.invoked s'' = Session.invoked s' ++ omap call_of rest) /\
    (forall later,
       deliverable s later ->
       Forall (fun y => is_Some (event_data y)) rest ->
       exists s'',
         poller_delivers later s' = Ret tt s'' /\
         Session.notification_queue s'' = push_bounded rest later).
Proof.
  intros Hs Hlock Hq Ht Hd Hcb Hraise.
  destruct (consume_notification_dispatches timeout_secs x rest t d cb s)
    as (s' & Hrun & Hinv & Hlog & Hq' & Hlock' & Hcbs & Hlisten); try done.
  set (k := Flow._get_session_id f sid) in *.
  set (f' := Flow.set_sessions (<[k := s']> (Flow.sessions f)) f).
  assert (Hs' : Flow.sessions f' !! k = Some s').
  { subst f'. cbn. apply lookup_insert_eq. }
  exists f', s'. split.
  { unfold Flow.process_one_notification. fold k.
    by apply (on_session_Ret k _ f s true s'). }
  split; [exact Hs' |]. split; [exact Hinv |].
  split; [by rewrite Hlog, Hraise |].
  split; [exact Hlisten |]. split; [exact Hlock' |].
  split; [exact Hcbs |]. split; [exact Hq' |]. split.
  - intros Hall.
    destruct (process_n_fifo timeout_secs sid k rest f' s')
      as (f'' & s'' & Hrun'' & _ & Hs'' & Hinv'' & _); try done.
    + eapply Forall_impl; [exact Hall |].
      intros y [Hy (t' & Ht' & Hcb')]. split; [done |].
      exists t'. by rewrite Hcbs.
    + by exists f'', s''.
  - intros later [_ (t' & Ht' & Hcb')] Hdata.
    destruct (poller_delivers_registered later t' s') as (s'' & Hrun'' & Hq'' & _);
      try done.
    + by rewrite Hcbs.
    + by rewrite Hq'.
    + exists s''. split; [done |]. by rewrite Hq'', Hq'.
Qed.

Lemma handler_exception_is_contained_witness :
  let s := Session.set_notification_queue
             [Event "message" (VStr "a"); Event "message" (VStr "b")]
             (listening_for "message" failing) in
  let f := client_with 1 s in
  exists f' s',
    Flow.process_one_notification (1 # 20) 0 f = Ret true f' /\
    Flow.sessions f' !! 1%Z = Some s' /\
    Session.logged s' = [Session.DebugError (HandlerError "boom")] /\
    Session.callback_lock s' = false /\
    Session.notification_queue s' = [Event "message" (VStr "b")].
Proof.
  intros s f.
  destruct (handler_exception_is_contained f 0 s (1 # 20)
              (Event "message" (VStr "a")) [Event "message" (VStr "b")]
              "message" (VStr "a") failing "boom")
    as (f' & s' & Hrun & Hs' & _ & Hlog & _ & Hlock & _ & Hq & _);
    try reflexivity.
  exists f', s'. split; [exact Hrun |]. split; [exact Hs' |].
  split; [exact Hlog |]. split; [exact Hlock | exact Hq].
Defined.

(* ===================================================================== *)
(** ** C9: what process_one_notification returns *)
(* ===================================================================== *)

(** C9. For a session that exists and whose callback lock is free,
    [process_one_notification] returns true when the notification queue
    holds an item and false when it is empty, in which case nothing
    changes. In the first case the item at the head is gone afterwards
    whatever the dispatch did: when its type has no handler any more no
    handler is invoked and the refusal is logged, and when its handler
    raises the exception is logged; the call returns true in both. *)
Theorem process_one_true_iff_popped
    (f : Flow.flow) (sid : Z) (s : Session.session) (timeout_secs : Q) :
  Flow.sessions f !! Flow._get_session_id f sid = Some s ->
  Session.callback_lock s = false ->
  exists f' s',
    Flow.process_one_notification timeout_secs sid f
      = Ret (match Session.notification_queue s with [] => false | _ => true end) f' /\
    Flow.sessions f' !! Flow._get_session_id f sid = Some s' /\
    Session.notification_queue s' = tl (Session.notification_queue s) /\
    (Session.notification_queue s = [] -> f' = f) /\
    (forall x rest t,
       Session.notification_queue s = x :: rest ->
       event_type x = Some t ->
       Session.callbacks s !! t = None ->
       Session.invoked s' = Session.invoked s /\
       Session.logged s' =
         Session.logged s ++ [Session.DebugError (NotSupported (VStr t))]) /\
    (forall x rest t d cb msg,
       Session.notification_queue s = x :: rest ->
       event_type x = Some t ->
       event_data x = Some d ->
       Session.callbacks s !! t = Some cb ->
       cb t d = Session.CbRaise msg ->
       Session.invoked s' = Session.invoked s ++ [(t, d)] /\
       Session.logged s' =
         Session.logged s ++ [Session.DebugError (HandlerError msg)]).
Proof.
  intros Hs Hlock. set (k := Flow._get_session_id f sid) in *.
  destruct (Session.notification_queue s) as [| x rest] eqn:Hq.
  - exists f, s. split.
    { unfold Flow.process_one_notification. fold k.
      eapply on_session_same; [exact Hs |].
      by apply consume_notification_empty. }
    repeat split; try done.
  - destruct (consume_notification_pops timeout_secs x rest s Hq Hlock)
      as (s' & Hrun & Hq' & _).
    exists (Flow.set_sessions (<[k := s']> (Flow.sessions f)) f), s'. split.
    { unfold Flow.process_one_notification. fold k.
      by apply (on_session_Ret k _ f s true s'). }
    split; [cbn; apply lookup_insert_eq |]. split; [exact Hq' |].
    split; [done |]. split.
    + intros x0 rest0 t [= <- <-] Ht Hcb.
      destruct (consume_notification_drops timeout_secs x rest t s)
        as (s2 & Hrun2 & Hinv & Hlog & _); try done.
      rewrite Hrun in Hrun2. by injection Hrun2 as <-.
    + intros x0 rest0 t d cb msg [= <- <-] Ht Hd Hcb Hraise.
      destruct (consume_notification_dispatches timeout_secs x rest t d cb s)
        as (s2 & Hrun2 & Hinv & Hlog & _); try done.
      rewrite Hrun in Hrun2. injection Hrun2 as <-.
      by rewrite Hlog, Hraise.
Qed.

Lemma process_one_true_iff_popped_witness :
  let s := Session.set_notification_queue [Event "org" VNone]
             (listening_for "message" quiet) in
  let f := client_with 1 s in
  exists f' s',
    Flow.process_one_notification (1 # 20) 0 f = Ret true f' /\
    Flow.sessions f' !! 1%Z = Some s' /\
    Session.notification_queue s' = [] /\
    Session.invoked s' = [] /\
    Session.logged s' = [Session.DebugError (NotSupported (VStr "org"))].
Proof.
  intros s f.
  assert (Hs : Flow.sessions f !! Flow._get_session_id f 0 = Some s) by reflexivity.
  assert (Hlock : Session.callback_lock s = false) by reflexivity.
  destruct (process_one_true_iff_popped f 0 s (1 # 20) Hs Hlock)
    as (f' & s' & Hrun & Hs' & Hq & _ & Hdrop & _).
  destruct (Hdrop (Event "org" VNone) [] "org") as [Hinv Hlog]; try reflexivity.
  exists f', s'. split; [exact Hrun |]. split; [exact Hs' |].
  split; [exact Hq |]. split; [exact Hinv | exact Hlog].
Defined.

(* ===================================================================== *)
(** ** C8: unregistering a type that has no handler *)
(* ===================================================================== *)

Lemma locked_blocks {A} (m : M Session.session A) s :
  Session.callback_lock s = true ->
  (Session.Lock.acquire >> m) s = Blocked s.
Proof. intros Hlock. step_m. by rewrite Hlock. Qed.

(** C8. With the callback lock free and no handler registered for the
    name, [unregister_callback] raises KeyError with the lock taken and
    nothing else changed. From that state on, [register_callback],
    [unregister_callback], the poller's delivery and [consume_notification]
    on a queue that holds an item all block at the acquisition of the lock,
    and so does the poller loop at its first successful wait. *)
Theorem unregister_missing_leaves_lock_held
    (s : Session.session) (notification_name : string) :
  Session.callback_lock s = false ->
  Session.callbacks s !! notification_name = None ->
  let s' := Session.set_callback_lock true s in
  Session.unregister_callback notification_name s
    = Raise (KeyError (VStr notification_name)) s' /\
  Session.callback_lock s' = true /\
  (forall name cb, Session.register_callback name cb s' = Blocked s') /\
  (forall name, Session.unregister_callback name s' = Blocked s') /\
  (forall changes, poller_delivers changes s' = Blocked s') /\
  (forall timeout_secs x rest,
     Session.notification_queue s = x :: rest ->
     Session.consume_notification timeout_secs s'
       = Blocked (Session.set_notification_queue rest s')) /\
  (forall str f reply poll env changes,
     Session.listen_notifications s = true ->
     snd (Flow.wait_for_notification f (Session.sid s) None) reply = Ok changes ->
     exists s'',
       _notification_loop str f ((reply, poll) :: env) s' = Blocked s'' /\
       Session.callback_lock s'' = true /\
       Session.notification_queue s'' = Session.notification_queue s).
Proof.
  intros Hlock Hcb s'.
  assert (Hheld : Session.callback_lock s' = true) by reflexivity.
  split.
  { unfold Session.unregister_callback. step_m. rewrite Hlock.
    cbn [Session.callbacks Session.set_callback_lock]. by rewrite Hcb. }
  split; [exact Hheld |]. split.
  { intros name cb. by apply locked_blocks. }
  split.
  { intros name. by apply locked_blocks. }
  split.
  { intros changes. by apply locked_blocks. }
  split.
  { intros timeout_secs x rest Hq.
    subst s'. unfold Session.consume_notification. step_m.
    cbn [Session.notification_queue Session.set_callback_lock]. rewrite Hq.
    reflexivity. }
  intros str f reply poll env changes Hlisten Hok.
  subst s'. cbn [_notification_loop].
  cbn [Session.listen_notifications Session.set_callback_lock Session.sid].
  rewrite Hlisten.
  destruct (Flow.wait_for_notification f (Session.sid s) None) as [posted answer].
  cbn [snd] in Hok. rewrite Hok.
  eexists. split; [by apply locked_blocks |]. by split.
Qed.

Lemma unregister_missing_leaves_lock_held_witness :
  let s := listening_for "message" quiet in
  Session.callback_lock s = false /\
  Session.callbacks s !! "org" = None /\
  Session.unregister_callback "org" s
    = Raise (KeyError (VStr "org")) (Session.set_callback_lock true s) /\
  Session.register_callback "org" quiet (Session.set_callback_lock true s)
    = Blocked (Session.set_callback_lock true s).
Proof.
  intros s.
  assert (Hlock : Session.callback_lock s = false) by reflexivity.
  assert (Hcb : Session.callbacks s !! "org" = None) by reflexivity.
  split; [exact Hlock |]. split; [exact Hcb |].
  destruct (unregister_missing_leaves_lock_held s "org" Hlock Hcb)
    as (Hraise & _ & Hreg & _).
  split; [exact Hraise | exact (Hreg "org" quiet)].
Defined.

(* ===================================================================== *)
(** ** C5: the poller when the wait call fails *)
(* ===================================================================== *)

Lemma wait_for_notification_request f sid timeout :
  Session.req_method (fst (Flow.wait_for_notification f sid timeout))
    = "WaitForNotification" /\
  (Flow.timeout_truthy timeout = false ->
   Session.req_timeout (fst (Flow.wait_for_notification f sid timeout)) = None).
Proof.
  split; [reflexivity |]. intros Hfalsy.
  cbn. unfold Flow.timeout_or. by rewrite Hfalsy.
Qed.

(** C5. Let the poller flag be set and the wait call of this turn fail.
    If [poll()] then reports a return code, the loop ends at once: the
    thread returns, and but for the record of the request the session is
    as before, so no error has been queued. If [poll()] reports [None],
    the description of the failure is pushed on the error queue, the flag
    stays set, and the loop goes on with the next step of the backend; when
    there is none yet, the thread is inside a second wait call, posted
    right after the first. The request is a WaitForNotification without a
    client-side timeout. *)
Theorem poller_failure_paths
    (str : exn -> string) (f : Flow.flow) (s : Session.session)
    (reply : Flow.transport_reply) (flow_err : exn) (env : list backend_step) :
  Session.listen_notifications s = true ->
  snd (Flow.wait_for_notification f (Session.sid s) None) reply = Err flow_err ->
  let posted := fst (Flow.wait_for_notification f (Session.sid s) None) in
  let s1 := Session.add_polled posted s in
  (forall rc, _notification_loop str f ((reply, Some rc) :: env) s = Ret tt s1) /\
  Session.error_queue s1 = Session.error_queue s /\
  Session.notification_queue s1 = Session.notification_queue s /\
  (exists s2,
     Session._queue_error (str flow_err) s1 = Ret tt s2 /\
     Session.error_queue s2 = push_bounded (Session.error_queue s) (str flow_err) /\
     Session.listen_notifications s2 = true /\
     _notification_loop str f ((reply, None) :: env) s
       = _notification_loop str f env s2 /\
     _notification_loop str f [(reply, None)] s
       = Blocked (Session.add_polled posted s2) /\
     Session.polled (Session.add_polled posted s2)
       = Session.polled s ++ [posted; posted]) /\
  Session.req_method posted = "WaitForNotification" /\
  Session.req_timeout posted = None.
Proof.
  intros Hlisten Herr posted s1.
  assert (Hloop : forall poll env0,
    _notification_loop str f ((reply, poll) :: env0) s =
    match poll with
    | Some _ => Ret tt s1
    | None => (Session._queue_error (str flow_err) >>
               _notification_loop str f env0) s1
    end).
  { intros poll env0. subst s1 posted. cbn [_notification_loop].
    rewrite Hlisten.
    destruct (Flow.wait_for_notification f (Session.sid s) None) as [p answer].
    cbn [snd fst] in *. by rewrite Herr. }
  split; [intros rc; apply Hloop |].
  split; [reflexivity |]. split; [reflexivity |]. split.
  - destruct (_queue_error_push (str flow_err) s1)
      as (s2 & Hrun & Hq & _ & _ & Hfr).
    destruct Hfr as (Hsid & _ & Hl & _ & _ & Hpolled).
    exists s2. split; [exact Hrun |]. split; [exact Hq |].
    split; [by rewrite Hl |].
    assert (Hgo : forall env0, _notification_loop str f ((reply, None) :: env0) s
                               = _notification_loop str f env0 s2).
    { intros env0. rewrite Hloop. unfold bind. by rewrite Hrun. }
    split; [apply Hgo |]. split.
    + rewrite Hgo. cbn [_notification_loop]. rewrite Hl, Hsid. subst s1.
      cbn [Session.listen_notifications Session.sid Session.add_polled].
      rewrite Hlisten. subst posted.
      by destruct (Flow.wait_for_notification f (Session.sid s) None).
    + cbn [Session.polled Session.add_polled]. rewrite Hpolled. subst s1.
      cbn [Session.polled Session.add_polled]. by rewrite <- app_assoc.
  - destruct (wait_for_notification_request f (Session.sid s) None)
      as [Hmethod Htimeout].
    split; [exact Hmethod | by apply Htimeout].
Qed.

Lemma poller_failure_paths_witness :
  let s := Session.set_listen_notifications true (Session.new_Session 1) in
  let f := client_with 1 s in
  let str := fun _ : exn => "connection refused" in
  Session.listen_notifications s = true /\
  snd (Flow.wait_for_notification f (Session.sid s) None)
    Flow.RequestsConnectionError = Err FlowConnectionError /\
  (exists s1,
     _notification_loop str f [(Flow.RequestsConnectionError, Some 1%Z)] s
       = Ret tt s1 /\
     Session.error_queue s1 = []) /\
  (exists s2,
     _notification_loop str f [(Flow.RequestsConnectionError, None)] s
       = Blocked s2 /\
     Session.error_queue s2 = ["connection refused"]).
Proof.
  intros s f str.
  assert (Hl : Session.listen_notifications s = true) by reflexivity.
  assert (He : snd (Flow.wait_for_notification f (Session.sid s) None)
                 Flow.RequestsConnectionError = Err FlowConnectionError)
    by reflexivity.
  split; [exact Hl |]. split; [exact He |].
  destruct (poller_failure_paths str f s Flow.RequestsConnectionError
              FlowConnectionError [] Hl He)
    as (Hexit & Hq1 & _ & (s2 & _ & Hq2 & _ & _ & Hwait & _) & _).
  split.
  - eexists. split; [apply Hexit | exact Hq1].
  - eexists. split; [exact Hwait |]. cbn. rewrite Hq2. reflexivity.
Defined.

(* ===================================================================== *)
(** ** C6: what _run makes of a response *)
(* ===================================================================== *)

Lemma existsb_keys name d :
  existsb (String.eqb name) (map fst d) =
  match Py.dict_get name d with Some _ => true | None => false end.
Proof.
  induction d as [| [k v] d IH]; [reflexivity |].
  cbn [map fst existsb Py.dict_get].
  destruct (String.eqb name k); [reflexivity | exact IH].
Qed.

Lemma nonempty_field_true name d :
  nonempty name d -> Flow.nonempty_field name (VDict d) = Ok true.
Proof.
  intros (v & n & Hv & Hn & Hpos).
  unfold Flow.nonempty_field, rbind, Py.keys, Py.getitem.
  rewrite existsb_keys, Hv, Hn.
  f_equal. apply Nat.ltb_lt. exact Hpos.
Qed.

Lemma nonempty_field_false name d :
  sized_if_present name d -> ~ nonempty name d ->
  Flow.nonempty_field name (VDict d) = Ok false.
Proof.
  intros Hsized Hnot.
  unfold Flow.nonempty_field, rbind, Py.keys, Py.getitem.
  rewrite existsb_keys.
  destruct (Py.dict_get name d) as [v |] eqn:Hv; [| reflexivity].
  destruct (Hsized v Hv) as [n Hn]. rewrite Hn. f_equal.
  apply Nat.ltb_ge. apply Nat.nlt_ge. intros Hpos. apply Hnot.
  by exists v, n.
Qed.

(** C6, as amended. Let the response be a dict whose "error" and "Error"
    fields, when there, are values that have a length. If "error" is there and not
    empty, FlowError is raised with its value; otherwise, if "Error" is
    there and not empty, FlowError is raised with its value; otherwise the
    value of "result" is returned when the key is there, and the whole
    response when it is not. [_run] gives back exactly this on a decoded
    response. *)
Theorem response_error_result_fallback (d : list (string * value)) :
  sized_if_present "error" d ->
  sized_if_present "Error" d ->
  let response_data := VDict d in
  (forall msg,
     Py.dict_get "error" d = Some msg -> nonempty "error" d ->
     Flow._run_response response_data = Err (FlowError msg)) /\
  (forall msg,
     ~ nonempty "error" d ->
     Py.dict_get "Error" d = Some msg -> nonempty "Error" d ->
     Flow._run_response response_data = Err (FlowError msg)) /\
  (forall r,
     ~ nonempty "error" d -> ~ nonempty "Error" d ->
     Py.dict_get "result" d = Some r ->
     Flow._run_response response_data = Ok r) /\
  (~ nonempty "error" d -> ~ nonempty "Error" d ->
   Py.dict_get "result" d = None ->
   Flow._run_response response_data = Ok response_data) /\
  (forall f method timeout params,
     snd (Flow._run f method timeout params) (Flow.Response response_data)
       = Flow._run_response response_data).
Proof.
  intros Hsized_e Hsized_E response_data. subst response_data.
  repeat match goal with |- _ /\ _ => split end.
  - intros msg Hmsg Hne. unfold Flow._run_response.
    rewrite (nonempty_field_true _ _ Hne). cbn [rbind].
    unfold Py.getitem. by rewrite Hmsg.
  - intros msg Hne Hmsg HnE. unfold Flow._run_response.
    rewrite (nonempty_field_false _ _ Hsized_e Hne). cbn [rbind].
    rewrite (nonempty_field_true _ _ HnE). cbn [rbind].
    unfold Py.getitem. by rewrite Hmsg.
  - intros r Hne HnE Hr. unfold Flow._run_response.
    rewrite (nonempty_field_false _ _ Hsized_e Hne). cbn [rbind].
    rewrite (nonempty_field_false _ _ Hsized_E HnE). cbn [rbind Py.keys].
    rewrite existsb_keys, Hr. unfold Py.getitem. by rewrite Hr.
  - intros Hne HnE Hr. unfold Flow._run_response.
    rewrite (nonempty_field_false _ _ Hsized_e Hne). cbn [rbind].
    rewrite (nonempty_field_false _ _ Hsized_E HnE). cbn [rbind Py.keys].
    by rewrite existsb_keys, Hr.
  - reflexivity.
Qed.

Lemma response_error_result_fallback_witness :
  let d := [("error", VStr ""); ("Error", VStr "no local account");
            ("result", VInt 3)] in
  sized_if_present "error" d /\
  sized_if_present "Error" d /\
  Flow._run_response (VDict d) = Err (FlowError (VStr "no local account")).
Proof.
  intros d.
  assert (He : sized_if_present "error" d).
  { intros v [= <-]. by exists 0. }
  assert (HE : sized_if_present "Error" d).
  { intros v [= <-]. by exists 16. }
  split; [exact He |]. split; [exact HE |].
  destruct (response_error_result_fallback d He HE) as (_ & Hsecond & _).
  apply Hsecond.
  - intros (v & n & [= <-] & [= <-] & Hpos). inversion Hpos.
  - reflexivity.
  - exists (VStr "no local account"), 16.
    split; [reflexivity |]. split; [reflexivity |]. apply Nat.lt_0_succ.
Defined.

(** C6 as stated fails: on a response with a null "error" field and a
    "result", [_run] raises TypeError where the claim has the result
    returned, and on a response that is a list it raises AttributeError
    where the claim has the response returned as it is. *)
Lemma null_error_field_hides_the_result :
  let with_null := VDict [("error", VNone); ("result", VInt 1)] in
  let f := client_with 1 (Session.new_Session 1) in
  Flow.nonempty_field "error" with_null <> Ok true /\
  Flow._run_response with_null = Err TypeError /\
  Flow._run_response with_null <> Ok (VInt 1) /\
  snd (Flow._run f "AccountId" None [("SessionID", VInt 1)])
      (Flow.Response with_null) = Err TypeError /\
  Flow._run_response (VList []) = Err AttributeError /\
  Flow._run_response (VList []) <> Ok (VList []).
Proof.
  cbv zeta. repeat match goal with |- _ /\ _ => split end;
    try reflexivity; discriminate.
Qed.

(* ===================================================================== *)
(** ** C7: the timeout of a request *)
(* ===================================================================== *)

(** C7, as amended. [_run] posts a request with the timeout given for the
    call when that timeout is truthy, for every method, WaitForNotification
    included. When the call gives no timeout (or a zero one), the default
    API timeout is used for every method but WaitForNotification, and
    WaitForNotification is posted without a client-side timeout. The poller
    calls [wait_for_notification] without a timeout, so the requests it
    posts never have one. *)
Theorem request_timeout_rule
    (f : Flow.flow) (method : string) (timeout : option Q)
    (params : list (string * value)) :
  let posted := fst (Flow._run f method timeout params) in
  (Flow.timeout_truthy timeout = true -> Session.req_timeout posted = timeout) /\
  (Flow.timeout_truthy timeout = false ->
   method <> "WaitForNotification" ->
   Session.req_timeout posted = Flow.api_timeout f) /\
  (Flow.timeout_truthy timeout = false ->
   method = "WaitForNotification" ->
   Session.req_timeout posted = None) /\
  (forall sid,
     let waited := fst (Flow.wait_for_notification f sid timeout) in
     Session.req_method waited = "WaitForNotification" /\
     (Flow.timeout_truthy timeout = true -> Session.req_timeout waited = timeout) /\
     (Flow.timeout_truthy timeout = false -> Session.req_timeout waited = None)) /\
  (forall str s,
     Session.listen_notifications s = true ->
     exists waited,
       _notification_loop str f [] s = Blocked (Session.add_polled waited s) /\
       Session.req_method waited = "WaitForNotification" /\
       Session.req_timeout waited = None).
Proof.
  cbv zeta. cbn [fst Flow._run Flow._run_request Session.req_timeout].
  unfold Flow.timeout_or.
  repeat match goal with |- _ /\ _ => split end.
  - by intros ->.
  - intros -> Hne. apply String.eqb_neq in Hne. by rewrite Hne.
  - by intros -> ->.
  - intros sid.
    cbn [fst Flow.wait_for_notification Flow._run Flow._run_request
           Session.req_timeout Session.req_method].
    unfold Flow.timeout_or.
    split; [reflexivity |]. split; by intros ->.
  - intros str s Hlisten.
    exists (fst (Flow.wait_for_notification f (Session.sid s) None)).
    cbn [_notification_loop]. rewrite Hlisten.
    split; [by destruct (Flow.wait_for_notification f (Session.sid s) None) |].
    destruct (wait_for_notification_request f (Session.sid s) None)
      as [Hmethod Htimeout].
    split; [exact Hmethod | by apply Htimeout].
Qed.

Lemma request_timeout_rule_witness :
  let f := Flow.set_api_timeout (Some (30 # 1)%Q) (client_with 1 (Session.new_Session 1)) in
  Flow.timeout_truthy None = false /\
  "SendMessage" <> "WaitForNotification" /\
  Session.req_timeout (fst (Flow._run f "SendMessage" None [])) = Some (30 # 1)%Q /\
  Session.req_timeout (fst (Flow._run f "WaitForNotification" None [])) = None.
Proof.
  intros f.
  assert (Hfalsy : Flow.timeout_truthy None = false) by reflexivity.
  assert (Hne : "SendMessage" <> "WaitForNotification") by discriminate.
  split; [exact Hfalsy |]. split; [exact Hne |]. split.
  - destruct (request_timeout_rule f "SendMessage" None []) as (_ & Hdefault & _).
    exact (Hdefault Hfalsy Hne).
  - destruct (request_timeout_rule f "WaitForNotification" None [])
      as (_ & _ & Hwait & _).
    exact (Hwait Hfalsy eq_refl).
Defined.

(** C7 as stated fails: [wait_for_notification] takes a timeout and hands
    it to [_run], which posts the WaitForNotification request with it. *)
Lemma wait_call_with_explicit_timeout :
  let f := client_with 1 (Session.new_Session 1) in
  let posted := fst (Flow.wait_for_notification f 0 (Some (5 # 1)%Q)) in
  Session.req_method posted = "WaitForNotification" /\
  Session.req_timeout posted = Some (5 # 1)%Q /\
  Session.req_timeout posted <> None.
Proof.
  cbv zeta. split; [reflexivity |]. split; [reflexivity |]. discriminate.
Qed.

(* ===================================================================== *)
(** ** C10: the session identifier of a call *)
(* ===================================================================== *)

Lemma _get_session_id_zero f : Flow._get_session_id f 0 = Flow._current_session f.
Proof. reflexivity. Qed.

Lemma _get_session_id_nonzero f sid : sid <> 0%Z -> Flow._get_session_id f sid = sid.
Proof.
  intros Hne. unfold Flow._get_session_id. cbn [Py.truthy].
  apply Z.eqb_neq in Hne. by rewrite Hne.
Qed.

Lemma _get_session_id_current f :
  Flow._get_session_id f (Flow._current_session f) = Flow._current_session f.
Proof.
  unfold Flow._get_session_id. by destruct (Py.truthy _).
Qed.

Lemma get_notification_error_resolved f timeout_secs sid :
  Flow.get_notification_error timeout_secs sid f =
    match Flow.sessions f !! Flow._get_session_id f sid with
    | Some s =>
        match Session.error_queue s with
        | error :: rest =>
            Ret (Some error)
              (Flow.set_sessions
                 (<[Flow._get_session_id f sid := Session.set_error_queue rest s]>
                    (Flow.sessions f)) f)
        | [] => Ret None f
        end
    | None => Ret None f
    end.
Proof.
  unfold Flow.get_notification_error.
  destruct (Flow.sessions f !! Flow._get_session_id f sid) as [s |] eqn:Hs;
    [| reflexivity].
  unfold try_except, bind, Flow.on_session. rewrite Hs.
  unfold Session.get_queued_error, Session.ErrorQueue.get_timeout.
  destruct (Session.error_queue s) as [| error rest]; [| reflexivity].
  cbv beta iota. unfold ret. rewrite insert_id by done. by destruct f.
Qed.

Lemma get_notification_error_frame f timeout_secs sid j :
  j <> Flow._get_session_id f sid ->
  Flow.sessions (state_of (Flow.get_notification_error timeout_secs sid f)) !! j
    = Flow.sessions f !! j.
Proof.
  intros Hj. rewrite get_notification_error_resolved.
  destruct (Flow.sessions f !! Flow._get_session_id f sid) as [s |];
    [| reflexivity].
  destruct (Session.error_queue s); [reflexivity |].
  cbn. by rewrite lookup_insert_ne.
Qed.

(** C10. An identifier is falsy exactly when it is 0; [_get_session_id]
    gives back a nonzero identifier as it is and the current session for 0,
    so the identifier resolved is 0 only when the argument is 0 and the
    current session is 0. The session-scoped methods act on the session
    resolved in this way from their argument: [register_callback],
    [unregister_callback] and [process_one_notification] are the method of
    [_Session] run on that entry of the table (KeyError when it is not
    there), [get_notification_error] reads the error queue of that entry,
    and [wait_for_notification] sends its identifier as SessionID; a
    registration with the lock free puts the handler in the registry of
    that session. No other session of the table is touched. Hence, while
    the current session is not 0, whatever identifier is passed, session 0
    is left as it is by each of these calls and no wait request carries
    SessionID 0. *)
Theorem zero_sid_means_current_session (f : Flow.flow) :
  (forall sid, Py.truthy (VInt sid) = false <-> sid = 0%Z) /\
  Flow._get_session_id f 0 = Flow._current_session f /\
  (forall sid, sid <> 0%Z -> Flow._get_session_id f sid = sid) /\
  (forall sid,
     Flow._get_session_id f sid = 0%Z <->
     sid = 0%Z /\ Flow._current_session f = 0%Z) /\
  (forall sid name cb,
     Flow.register_callback name cb sid f =
       Flow.on_session (Flow._get_session_id f sid)
         (Session.register_callback name cb) f) /\
  (forall sid name,
     Flow.unregister_callback name sid f =
       Flow.on_session (Flow._get_session_id f sid)
         (Session.unregister_callback name) f) /\
  (forall sid timeout_secs,
     Flow.process_one_notification timeout_secs sid f =
       Flow.on_session (Flow._get_session_id f sid)
         (Session.consume_notification timeout_secs) f) /\
  (forall sid timeout_secs,
     Flow.get_notification_error timeout_secs sid f =
       match Flow.sessions f !! Flow._get_session_id f sid with
       | Some s =>
           match Session.error_queue s with
           | error :: rest =>
               Ret (Some error)
                 (Flow.set_sessions
                    (<[Flow._get_session_id f sid := Session.set_error_queue rest s]>
                       (Flow.sessions f)) f)
           | [] => Ret None f
           end
       | None => Ret None f
       end) /\
  (forall sid timeout,
     Session.req_params (fst (Flow.wait_for_notification f sid timeout))
       = [("SessionID", VInt (Flow._get_session_id f sid))]) /\
  (forall sid name cb,
     Flow.sessions f !! Flow._get_session_id f sid = None ->
     Flow.register_callback name cb sid f
       = Raise (KeyError (VInt (Flow._get_session_id f sid))) f) /\
  (forall sid name cb s,
     Flow.sessions f !! Flow._get_session_id f sid = Some s ->
     Session.callback_lock s = false ->
     exists f' s',
       Flow.register_callback name cb sid f = Ret tt f' /\
       Flow.sessions f' !! Flow._get_session_id f sid = Some s' /\
       Session.callbacks s' = <[name := cb]> (Session.callbacks s)) /\
  (forall sid j name cb timeout_secs,
     j <> Flow._get_session_id f sid ->
     Flow.sessions (state_of (Flow.register_callback name cb sid f)) !! j
       = Flow.sessions f !! j /\
     Flow.sessions (state_of (Flow.unregister_callback name sid f)) !! j
       = Flow.sessions f !! j /\
     Flow.sessions (state_of (Flow.process_one_notification timeout_secs sid f)) !! j
       = Flow.sessions f !! j /\
     Flow.sessions (state_of (Flow.get_notification_error timeout_secs sid f)) !! j
       = Flow.sessions f !! j) /\
  (Flow._current_session f <> 0%Z ->
   forall sid name cb timeout_secs timeout,
     Flow._get_session_id f sid <> 0%Z /\
     Flow.sessions (state_of (Flow.register_callback name cb sid f)) !! 0%Z
       = Flow.sessions f !! 0%Z /\
     Flow.sessions (state_of (Flow.unregister_callback name sid f)) !! 0%Z
       = Flow.sessions f !! 0%Z /\
     Flow.sessions (state_of (Flow.process_one_notification timeout_secs sid f)) !! 0%Z
       = Flow.sessions f !! 0%Z /\
     Flow.sessions (state_of (Flow.get_notification_error timeout_secs sid f)) !! 0%Z
       = Flow.sessions f !! 0%Z /\
     Session.req_params (fst (Flow.wait_for_notification f sid timeout))
       <> [("SessionID", VInt 0)]).
Proof.
  assert (Hfalsy : forall sid, Py.truthy (VInt sid) = false <-> sid = 0%Z).
  { intros sid. cbn [Py.truthy]. rewrite negb_false_iff. apply Z.eqb_eq. }
  assert (Hzero : forall sid,
    Flow._get_session_id f sid = 0%Z <->
    sid = 0%Z /\ Flow._current_session f = 0%Z).
  { intros sid. destruct (decide (sid = 0%Z)) as [-> | Hne].
    - rewrite _get_session_id_zero. tauto.
    - rewrite _get_session_id_nonzero by done. tauto. }
  assert (Hframe : forall sid j name cb timeout_secs,
    j <> Flow._get_session_id f sid ->
    Flow.sessions (state_of (Flow.register_callback name cb sid f)) !! j
      = Flow.sessions f !! j /\
    Flow.sessions (state_of (Flow.unregister_callback name sid f)) !! j
      = Flow.sessions f !! j /\
    Flow.sessions (state_of (Flow.process_one_notification timeout_secs sid f)) !! j
      = Flow.sessions f !! j /\
    Flow.sessions (state_of (Flow.get_notification_error timeout_secs sid f)) !! j
      = Flow.sessions f !! j).
  { intros sid j name cb timeout_secs Hj.
    split; [by apply on_session_frame |].
    split; [by apply on_session_frame |].
    split; [by apply on_session_frame |].
    by apply get_notification_error_frame. }
  repeat match goal with |- _ /\ _ => split end.
  - exact Hfalsy.
  - reflexivity.
  - apply _get_session_id_nonzero.
  - exact Hzero.
  - reflexivity.
  - reflexivity.
  - reflexivity.
  - intros sid timeout_secs. apply get_notification_error_resolved.
  - reflexivity.
  - intros sid name cb Hnone.
    unfold Flow.register_callback, Flow.on_session. by rewrite Hnone.
  - intros sid name cb s Hs Hlock.
    destruct (register_callback_unlocked name cb s Hlock) as (s' & Hrun & Hcb & _).
    exists (Flow.set_sessions
              (<[Flow._get_session_id f sid := s']> (Flow.sessions f)) f), s'.
    split; [by apply (on_session_Ret _ _ f s tt s') |].
    split; [apply lookup_insert_eq | exact Hcb].
  - exact Hframe.
  - intros Hcur sid name cb timeout_secs timeout.
    assert (Hk : Flow._get_session_id f sid <> 0%Z).
    { intros Hres. apply Hzero in Hres. tauto. }
    split; [exact Hk |].
    destruct (Hframe sid 0%Z name cb timeout_secs) as (H1 & H2 & H3 & H4);
      [by intros Heq; apply Hk |].
    split; [exact H1 |]. split; [exact H2 |]. split; [exact H3 |].
    split; [exact H4 |].
    intros Heq. apply Hk. cbn in Heq. congruence.
Qed.

Lemma zero_sid_means_current_session_witness :
  let f := Flow.set_sessions
             (<[4%Z := Session.new_Session 4]> {[ 0%Z := Session.new_Session 0 ]})
             (client_with 4 (Session.new_Session 4)) in
  Flow._current_session f <> 0%Z /\
  Flow.sessions f !! Flow._get_session_id f 0 = Some (Session.new_Session 4) /\
  (exists f' s',
     Flow.register_callback "message" quiet 0 f = Ret tt f' /\
     Flow.sessions f' !! 4%Z = Some s' /\
     Session.callbacks s' !! "message" = Some quiet /\
     Flow.sessions f' !! 0%Z = Some (Session.new_Session 0)).
Proof.
  intros f.
  assert (Hcur : Flow._current_session f <> 0%Z) by discriminate.
  assert (Hs : Flow.sessions f !! Flow._get_session_id f 0
               = Some (Session.new_Session 4)) by reflexivity.
  split; [exact Hcur |]. split; [exact Hs |].
  destruct (zero_sid_means_current_session f)
    as (_ & _ & _ & _ & _ & _ & _ & _ & _ & _ & Hreg & _ & Hnever).
  destruct (Hreg 0%Z "message" quiet (Session.new_Session 4) Hs eq_refl)
    as (f' & s' & Hrun & Hs' & Hcb).
  exists f', s'. split; [exact Hrun |]. split; [exact Hs' |].
  split; [by rewrite Hcb |].
  destruct (Hnever Hcur 0%Z "message" quiet (1 # 20)%Q None) as (_ & Hzero & _).
  rewrite Hrun in Hzero. exact Hzero.
Defined.

(* ===================================================================== *)
(** ** Further properties: what every outcome of a delivery keeps *)
(* ===================================================================== *)

(** Whatever the change is and however the call ends, [_queue_change]
    touches the notification queue and the log only, and the queue
    afterwards is the old one, the old one after a bounded push, or, when
    the eviction log failed, the old one without its head. *)
Lemma _queue_change_any change s :
  let s' := state_of (Session._queue_change change s) in
  queues_only s s' /\
  Session.error_queue s' = Session.error_queue s /\
  (Session.notification_queue s' = Session.notification_queue s \/
   Session.notification_queue s' = push_bounded (Session.notification_queue s) change \/
   (Session._MAX_QUEUE_SIZE < length (Session.notification_queue s) /\
    Session.notification_queue s' = tl (Session.notification_queue s))).
Proof.
  cbv zeta. unfold Session._queue_change, push_bounded. step_m.
  destruct (Py.truthy change); [| cbn; by repeat split; try left].
  destruct (Py.contains "type" change) as [[] | e]; cbv beta iota;
    [| cbn; by repeat split; try left | cbn; by repeat split; try left].
  destruct (Py.getitem change "type") as [ty | e]; cbv beta iota;
    [| cbn; by repeat split; try left].
  destruct ty as [| b | n | t | l | d]; cbv beta iota;
    try (cbn; by repeat split; try left).
  destruct (bool_decide (is_Some (Session.callbacks s !! t))); cbv beta iota;
    [| cbn; by repeat split; try left].
  destruct (Nat.ltb_spec Session._MAX_QUEUE_SIZE
              (length (Session.notification_queue s))) as [Hlt | Hge].
  - destruct (Session.notification_queue s) as [| x rest] eqn:Hq;
      [inversion Hlt |].
    step_m. destruct (Py.getitem x "data") as [data | e]; cbv beta iota.
    + cbn. rewrite ?Hq. repeat split; try done. right. by left.
    + cbn. rewrite ?Hq. repeat split; try done. right. right. by split.
  - step_m. cbn. repeat split; try done. right. by left.
Qed.

Lemma _queue_change_not_blocked change s s0 :
  Session._queue_change change s <> Blocked s0.
Proof.
  unfold Session._queue_change. step_m.
  destruct (Py.truthy change); [| discriminate].
  destruct (Py.contains "type" change) as [[] | e]; cbv beta iota;
    try discriminate.
  destruct (Py.getitem change "type") as [ty | e]; cbv beta iota;
    try discriminate.
  destruct ty as [| b | n | t | l | d]; cbv beta iota; try discriminate.
  destruct (bool_decide (is_Some (Session.callbacks s !! t))); cbv beta iota;
    try discriminate.
  destruct (Nat.ltb_spec Session._MAX_QUEUE_SIZE
              (length (Session.notification_queue s))) as [Hlt | Hge].
  - destruct (Session.notification_queue s) as [| x rest] eqn:Hq;
      [inversion Hlt |].
    step_m. destruct (Py.getitem x "data"); discriminate.
  - step_m. discriminate.
Qed.

Lemma _queue_change_bounded change s :
  length (Session.notification_queue s) <= S Session._MAX_QUEUE_SIZE ->
  length (Session.notification_queue (state_of (Session._queue_change change s)))
    <= S Session._MAX_QUEUE_SIZE.
Proof.
  intros Hle. destruct (_queue_change_any change s) as (_ & _ & [-> | [-> | [_ ->]]]).
  - exact Hle.
  - by apply push_bounded_length.
  - destruct (Session.notification_queue s); cbn [tl length] in *; lia.
Qed.

(** The same for a whole delivery, a single change or a list of them. *)
Lemma for_each__queue_change_any changes : forall s,
  let o := for_each changes Session._queue_change s in
  queues_only s (state_of o) /\
  Session.error_queue (state_of o) = Session.error_queue s /\
  (length (Session.notification_queue s) <= S Session._MAX_QUEUE_SIZE ->
   length (Session.notification_queue (state_of o)) <= S Session._MAX_QUEUE_SIZE) /\
  (forall s0, o <> Blocked s0).
Proof.
  induction changes as [| c changes IH]; intros s; cbv zeta.
  - cbn. split; [apply queues_only_refl |]. by repeat split.
  - cbn [for_each]. unfold bind at 1 2 3 4.
    destruct (_queue_change_any c s) as (Hfr & He & _).
    pose proof (_queue_change_bounded c s) as Hb.
    pose proof (_queue_change_not_blocked c s) as Hnb.
    destruct (Session._queue_change c s) as [[] s1 | e s1 | s1]; cbn [state_of] in *.
    + destruct (IH s1) as (Hfr' & He' & Hb' & Hnb').
      split; [by eapply queues_only_trans |].
      split; [congruence |]. split; [| exact Hnb'].
      intros Hle. apply Hb'. by apply Hb.
    + split; [exact Hfr |]. split; [exact He |]. split; [exact Hb |].
      discriminate.
    + by destruct (Hnb s1).
Qed.

Lemma _queue_changes_any changes s :
  let o := Session._queue_changes changes s in
  queues_only s (state_of o) /\
  Session.error_queue (state_of o) = Session.error_queue s /\
  (length (Session.notification_queue s) <= S Session._MAX_QUEUE_SIZE ->
   length (Session.notification_queue (state_of o)) <= S Session._MAX_QUEUE_SIZE) /\
  (forall s0, o <> Blocked s0).
Proof. unfold Session._queue_changes. apply for_each__queue_change_any. Qed.

(** The poller's delivery, started with the lock free: it returns with the
    lock free, or ends in the exception that [_queue_changes] raised with
    the lock still held; it does not block. *)
Lemma poller_delivers_outcome changes s :
  Session.callback_lock s = false ->
  let s1 := Session.set_callback_lock true s in
  match Session._queue_changes changes s1 with
  | Ret _ s2 => poller_delivers changes s = Ret tt (Session.set_callback_lock false s2)
  | Raise e s2 =>
      poller_delivers changes s = Raise e s2 /\ Session.callback_lock s2 = true
  | Blocked _ => False
  end.
Proof.
  intros Hlock s1. unfold poller_delivers. step_m. rewrite Hlock. fold s1.
  destruct (_queue_changes_any changes s1) as ((_ & _ & _ & Hl & _) & _ & _ & Hnb).
  destruct (Session._queue_changes changes s1) as [[] s2 | e s2 | s2];
    cbn [state_of] in *.
  - reflexivity.
  - split; [reflexivity | exact Hl].
  - by destruct (Hnb s2).
Qed.

(* ===================================================================== *)
(** ** Further properties: the callback registry *)
(* ===================================================================== *)

Lemma unregister_callback_registered name cb s :
  Session.callback_lock s = false ->
  Session.callbacks s !! name = Some cb ->
  Session.unregister_callback name s =
    Ret tt (Session.set_callback_lock false
              (Session.set_callbacks (delete name (Session.callbacks s)) s)).
Proof.
  intros Hlock Hcb. unfold Session.unregister_callback. step_m.
  rewrite Hlock. cbn [Session.callbacks Session.set_callback_lock].
  by rewrite Hcb.
Qed.

(** X1. With the callback lock free, registering two handlers for one
    notification name in a row leaves the second one in the registry; the
    handlers of all other names, the queues and the poller flag are as
    before and the lock is free again. *)
Theorem register_callback_last_wins
    (s : Session.session) (name : string) (cb1 cb2 : Session.callback) :
  Session.callback_lock s = false ->
  exists s',
    (Session.register_callback name cb1 >> Session.register_callback name cb2) s
      = Ret tt s' /\
    Session.callbacks s' !! name = Some cb2 /\
    (forall other, other <> name ->
       Session.callbacks s' !! other = Session.callbacks s !! other) /\
    Session.notification_queue s' = Session.notification_queue s /\
    Session.error_queue s' = Session.error_queue s /\
    Session.listen_notifications s' = Session.listen_notifications s /\
    Session.callback_lock s' = false.
Proof.
  intros Hlock.
  destruct (register_callback_unlocked name cb1 s Hlock)
    as (s1 & Hrun1 & Hcb1 & Hn1 & He1 & Hlock1 & Hl1 & _).
  destruct (register_callback_unlocked name cb2 s1 Hlock1)
    as (s2 & Hrun2 & Hcb2 & Hn2 & He2 & Hlock2 & Hl2 & _).
  exists s2. unfold bind. rewrite Hrun1.
  split; [exact Hrun2 |]. rewrite Hcb2, Hcb1.
  split; [apply lookup_insert_eq |]. split.
  - intros other Hne. by rewrite !lookup_insert_ne.
  - repeat split; congruence.
Qed.

Lemma register_callback_last_wins_witness :
  exists s',
    (Session.register_callback "message" quiet >>
     Session.register_callback "message" failing) (Session.new_Session 1)
      = Ret tt s' /\
    Session.callbacks s' !! "message" = Some failing.
Proof.
  destruct (register_callback_last_wins (Session.new_Session 1) "message"
              quiet failing eq_refl) as (s' & Hrun & Hcb & _).
  exists s'. split; [exact Hrun | exact Hcb].
Defined.

(** X2. Round trip: with the lock free and no handler registered for the
    name, registering a handler and unregistering it again gives the
    session back as it was. *)
Theorem register_then_unregister_restores
    (s : Session.session) (name : string) (cb : Session.callback) :
  Session.callback_lock s = false ->
  Session.callbacks s !! name = None ->
  (Session.register_callback name cb >> Session.unregister_callback name) s
    = Ret tt s.
Proof.
  intros Hlock Hcb.
  unfold Session.register_callback, Session.unregister_callback. step_m.
  rewrite Hlock. cbn [Session.callback_lock Session.set_callback_lock
                        Session.set_callbacks Session.callbacks].
  rewrite lookup_insert_eq. cbn [Session.callbacks Session.set_callback_lock
                                  Session.set_callbacks].
  rewrite delete_insert_eq, delete_id by done.
  destruct s. cbn in *. by subst.
Qed.

Lemma register_then_unregister_restores_witness :
  (Session.register_callback "org" quiet >> Session.unregister_callback "org")
    (listening_for "message" failing)
  = Ret tt (listening_for "message" failing).
Proof.
  apply register_then_unregister_restores; reflexivity.
Defined.

(** X3. With the lock free, unregistering a name that has a handler
    returns with that handler removed, the other handlers, the queues and
    the lock as before; from then on a delivered event of that type is
    dropped, while whether an event of another type is queued does not
    change. *)
Theorem unregister_callback_stops_delivery
    (s : Session.session) (name : string) (cb : Session.callback) :
  Session.callback_lock s = false ->
  Session.callbacks s !! name = Some cb ->
  exists s',
    Session.unregister_callback name s = Ret tt s' /\
    Session.callbacks s' = delete name (Session.callbacks s) /\
    Session.callback_lock s' = false /\
    Session.notification_queue s' = Session.notification_queue s /\
    (forall event, event_type event = Some name ->
       Session._queue_changes event s' = Ret tt s') /\
    (forall event t, event_type event = Some t -> t <> name ->
       registered s' event = registered s event).
Proof.
  intros Hlock Hcb. eexists.
  split; [by eapply unregister_callback_registered |].
  cbn [Session.callbacks Session.set_callback_lock Session.set_callbacks
         Session.callback_lock Session.notification_queue].
  repeat match goal with |- _ /\ _ => split end; try reflexivity.
  - intros event Ht. eapply _queue_changes_one; [exact Ht |].
    apply (_queue_change_unregistered event name); [exact Ht |].
    cbn. apply lookup_delete_eq.
  - intros event t Ht Hne. unfold registered. rewrite Ht. cbn.
    by rewrite lookup_delete_ne.
Qed.

Lemma unregister_callback_stops_delivery_witness :
  exists s',
    Session.unregister_callback "message" (listening_for "message" quiet)
      = Ret tt s' /\
    Session._queue_changes (Event "message" (VStr "late")) s' = Ret tt s'.
Proof.
  destruct (unregister_callback_stops_delivery (listening_for "message" quiet)
              "message" quiet eq_refl eq_refl)
    as (s' & Hrun & _ & _ & _ & Hdrop & _).
  exists s'. split; [exact Hrun |]. by apply Hdrop.
Defined.

(* ===================================================================== *)
(** ** Further properties: changes that are not events *)
(* ===================================================================== *)

(** X4. A change that is falsy ([None], [False], 0, an empty string, list
    or dict), a dict without a "type" key, or a dict whose "type" is
    [None], a boolean or a number, is passed over by [_queue_changes]: the
    call returns and the session is unchanged. *)
Theorem _queue_changes_passes_over (s : Session.session) (change : value) :
  passed_over change ->
  Session._queue_changes change s = Ret tt s.
Proof.
  intros [Hfalsy | (d & -> & Hty)].
  - destruct change as [| b | n | str | l | d]; cbn in Hfalsy;
      try (unfold Session._queue_changes, Session._queue_change;
           cbn [for_each Py.truthy]; rewrite ?Hfalsy; reflexivity).
    destruct l; [reflexivity | discriminate].
  - unfold Session._queue_changes, Session._queue_change. cbn [for_each].
    destruct d as [| item d]; [reflexivity |].
    cbn [Py.truthy]. unfold Py.contains, Py.getitem. step_m.
    destruct Hty as [-> | [-> | [[b ->] | [n ->]]]]; reflexivity.
Qed.

Lemma _queue_changes_passes_over_witness :
  Session._queue_changes (VDict [("data", VStr "a")]) (listening_for "message" quiet)
  = Ret tt (listening_for "message" quiet).
Proof.
  apply _queue_changes_passes_over. right.
  exists [("data", VStr "a")]. split; [reflexivity |]. by left.
Defined.

Lemma _queue_changes_malformed change s :
  malformed change ->
  Session._queue_changes change s = Raise TypeError s.
Proof.
  unfold Session._queue_changes, Session._queue_change.
  intros [(n & -> & Hn) | [-> | (d & -> & Hty)]]; cbn [for_each].
  - cbn [Py.truthy]. apply Z.eqb_neq in Hn. rewrite Hn. reflexivity.
  - reflexivity.
  - destruct d as [| item d]; [by destruct Hty as [[? ?] | [? ?]] |].
    cbn [Py.truthy]. unfold Py.contains, Py.getitem. step_m.
    destruct Hty as [[l ->] | [d' ->]]; reflexivity.
Qed.

(** X5. The delivery branch of the poller loop is outside its [try]: when
    a successful wait gives a malformed change (a nonzero number, [True],
    or a dict whose "type" is a list or a dict), the thread ends in
    TypeError after the lock has been acquired and before it is released.
    The queues are untouched, the lock stays held, and the rest of the
    backend's steps is never looked at. *)
Theorem poller_dies_on_malformed_change
    (str : exn -> string) (f : Flow.flow) (s : Session.session)
    (reply : Flow.transport_reply) (poll : option Z) (env : list backend_step)
    (changes : value) :
  Session.listen_notifications s = true ->
  Session.callback_lock s = false ->
  snd (Flow.wait_for_notification f (Session.sid s) None) reply = Ok changes ->
  malformed changes ->
  let posted := fst (Flow.wait_for_notification f (Session.sid s) None) in
  let s' := Session.set_callback_lock true (Session.add_polled posted s) in
  _notification_loop str f ((reply, poll) :: env) s = Raise TypeError s' /\
  Session.callback_lock s' = true /\
  Session.notification_queue s' = Session.notification_queue s /\
  Session.error_queue s' = Session.error_queue s /\
  (forall name cb, Session.register_callback name cb s' = Blocked s').
Proof.
  intros Hlisten Hlock Hok Hbad posted s'.
  split; [| split; [reflexivity | split; [reflexivity | split; [reflexivity |]]]].
  - subst s' posted. cbn [_notification_loop]. rewrite Hlisten.
    destruct (Flow.wait_for_notification f (Session.sid s) None) as [p answer].
    cbn [fst snd] in *. rewrite Hok. step_m.
    cbn [Session.callback_lock Session.add_polled]. rewrite Hlock.
    by rewrite (_queue_changes_malformed changes _ Hbad).
  - intros name cb. by apply locked_blocks.
Qed.

Lemma poller_dies_on_malformed_change_witness :
  let s := Session.set_listen_notifications true (listening_for "message" quiet) in
  let f := client_with 1 s in
  let reply := Flow.Response (VDict [("result", VInt 5)]) in
  exists s',
    _notification_loop (fun _ => "") f [(reply, None)] s = Raise TypeError s' /\
    Session.callback_lock s' = true.
Proof.
  intros s f reply.
  destruct (poller_dies_on_malformed_change (fun _ => "") f s reply None []
              (VInt 5)) as (Hrun & Hheld & _); try reflexivity.
  { left. exists 5%Z. split; [reflexivity | discriminate]. }
  eexists. split; [exact Hrun | exact Hheld].
Defined.

(** X6. The eviction log of [_queue_changes] reads the payload of the item
    it has just taken out. When more than 128 items are queued and the
    oldest is a dict without a "data" key, delivering an event whose type
    has a handler raises KeyError for "data": the oldest item is gone, the
    new event has not been queued, and nothing has been logged. *)
Theorem eviction_of_item_without_data
    (s : Session.session) (dx : list (string * value)) (rest : list value)
    (event : value) (t : string) :
  Session.notification_queue s = VDict dx :: rest ->
  Session._MAX_QUEUE_SIZE <= length rest ->
  Py.dict_get "data" dx = None ->
  event_type event = Some t ->
  is_Some (Session.callbacks s !! t) ->
  Session._queue_changes event s
    = Raise (KeyError (VStr "data")) (Session.set_notification_queue rest s).
Proof.
  intros Hq Hlen Hdata Ht Hcb.
  destruct (event_type_inv _ _ Ht) as (d & -> & _).
  unfold Session._queue_changes. cbn [for_each]. unfold bind at 1.
  rewrite (_queue_change_typed _ _ _ Ht), bool_decide_true by done.
  step_m. rewrite Hq.
  destruct (Nat.ltb_spec Session._MAX_QUEUE_SIZE (length (VDict dx :: rest)))
    as [Hlt | Hge]; [| cbn [length] in Hge; lia].
  step_m. rewrite Hq. cbv beta iota. unfold Py.getitem. by rewrite Hdata.
Qed.

Lemma eviction_of_item_without_data_witness :
  let bare := VDict [("type", VStr "message")] in
  let s := Session.set_notification_queue (repeat bare 129)
             (listening_for "message" quiet) in
  Session._queue_changes (Event "message" (VStr "new")) s
    = Raise (KeyError (VStr "data"))
        (Session.set_notification_queue (repeat bare 128) s).
Proof.
  intros bare s.
  apply (eviction_of_item_without_data s [("type", VStr "message")]
           (repeat bare 128) (Event "message" (VStr "new")) "message").
  - reflexivity.
  - rewrite repeat_length. apply Nat.le_refl.
  - reflexivity.
  - reflexivity.
  - by eexists.
Defined.

(* ===================================================================== *)
(** ** Further properties: what a dispatch can invoke *)
(* ===================================================================== *)

Lemma call_callback_outcome x s :
  (exists t d cb,
     event_type x = Some t /\ event_data x = Some d /\
     Session.callbacks s !! t = Some cb /\
     Session.call_callback x s =
       match cb t d with
       | Session.CbReturn => Ret tt (Session.add_invoked (t, d) s)
       | Session.CbRaise msg =>
           Raise (HandlerError msg) (Session.add_invoked (t, d) s)
       end) \/
  (exists e,
     Session.call_callback x s = Raise e s /\
     (event_type x = None \/
      (exists t, event_type x = Some t /\ Session.callbacks s !! t = None) \/
      Py.getitem x "data" = Err e)).
Proof.
  destruct (event_type x) as [t |] eqn:Ht.
  - destruct (Session.callbacks s !! t) as [cb |] eqn:Hcb.
    + destruct (event_data x) as [d |] eqn:Hd.
      * left. exists t, d, cb. repeat split; try done.
        by apply call_callback_deliverable.
      * right. destruct (event_type_inv _ _ Ht) as (items & -> & Hty).
        unfold event_data in Hd.
        destruct (Py.getitem (VDict items) "data") as [d | e] eqn:Hget;
          [discriminate |].
        exists e. split; [| by right; right].
        assert (Htype : Py.getitem (VDict items) "type" = Ok (VStr t)).
        { unfold Py.getitem. by rewrite Hty. }
        unfold Session.call_callback. step_m.
        rewrite Htype. cbv beta iota.
        rewrite Hcb, bool_decide_true by done. cbv beta iota.
        by rewrite Hcb, Hget.
    + right. exists (NotSupported (VStr t)).
      split; [by apply call_callback_unregistered |].
      right. left. by exists t.
  - right. unfold event_type in Ht. unfold Session.call_callback. step_m.
    destruct (Py.getitem x "type") as [[| b | n | t | l | d] | e];
      try discriminate; cbv beta iota; eexists; (split; [reflexivity | by left]).
Qed.

(** X7. One call of [consume_notification], with the lock free and an item
    at the head of the queue, returns true and invokes at most one handler:
    when it invokes one, it is the handler registered for the type tag of
    that item, called with that tag and the payload of that item. An item
    whose type has a handler but which has no "data" key is dropped without
    an invocation, the KeyError being logged. *)
Theorem dispatch_invokes_only_the_registered_handler
    (s : Session.session) (timeout_secs : Q) (x : value) (rest : list value) :
  Session.notification_queue s = x :: rest ->
  Session.callback_lock s = false ->
  exists s',
    Session.consume_notification timeout_secs s = Ret true s' /\
    Session.notification_queue s' = rest /\
    (Session.invoked s' = Session.invoked s \/
     exists t d,
       call_of x = Some (t, d) /\ is_Some (Session.callbacks s !! t) /\
       Session.invoked s' = Session.invoked s ++ [(t, d)]) /\
    (forall items t,
       x = VDict items -> event_type x = Some t ->
       is_Some (Session.callbacks s !! t) ->
       Py.dict_get "data" items = None ->
       Session.invoked s' = Session.invoked s /\
       Session.logged s' =
         Session.logged s ++ [Session.DebugError (KeyError (VStr "data"))]).
Proof.
  intros Hq Hlock. unfold Session.consume_notification. step_m.
  rewrite Hq. cbn [Session.callback_lock Session.set_notification_queue].
  rewrite Hlock.
  set (s1 := Session.set_callback_lock true (Session.set_notification_queue rest s)).
  destruct (call_callback_outcome x s1)
    as [(t & d & cb & Ht & Hd & Hcb & Hrun) | (e & Hrun & Hwhy)]; rewrite Hrun.
  - assert (Hcall : call_of x = Some (t, d)) by (unfold call_of; by rewrite Ht, Hd).
    destruct (cb t d); (eexists; split; [reflexivity |]);
      (split; [reflexivity |]); (split;
        [right; exists t, d; split; [done |]; split; [by eexists | reflexivity] |]);
      intros items t' -> Ht' _ Hnone; unfold event_data, Py.getitem in Hd;
      rewrite Hnone in Hd; discriminate.
  - eexists. split; [reflexivity |]. split; [reflexivity |].
    split; [by left |].
    intros items t -> Ht [cb Hcb] Hnone. split; [reflexivity |].
    destruct Hwhy as [Hty | [(t' & Ht' & Hno) | He]].
    + congruence.
    + rewrite Ht in Ht'. injection Ht' as <-. subst s1. cbn in Hno. congruence.
    + unfold Py.getitem in He. rewrite Hnone in He. by injection He as <-.
Qed.

Lemma dispatch_invokes_only_the_registered_handler_witness :
  let s := Session.set_notification_queue [VDict [("type", VStr "message")]]
             (listening_for "message" quiet) in
  exists s',
    Session.consume_notification (1 # 20) s = Ret true s' /\
    Session.invoked s' = [] /\
    Session.logged s' = [Session.DebugError (KeyError (VStr "data"))].
Proof.
  intros s.
  destruct (dispatch_invokes_only_the_registered_handler s (1 # 20)
              (VDict [("type", VStr "message")]) [] eq_refl eq_refl)
    as (s' & Hrun & _ & _ & Hbare).
  destruct (Hbare [("type", VStr "message")] "message" eq_refl eq_refl)
    as [Hinv Hlog]; [by eexists | reflexivity |].
  exists s'. split; [exact Hrun |]. split; [exact Hinv | exact Hlog].
Defined.

(* ===================================================================== *)
(** ** Further properties: reading the error queue *)
(* ===================================================================== *)

(** X8. [get_notification_error] gives [None] and changes nothing when the
    session resolved from its argument is not in the table (no KeyError,
    unlike the other methods) or when the error queue of the session is
    empty; otherwise it gives the oldest queued error and takes it out of
    the queue. It never takes the callback lock, so it also works while
    the lock is held. *)
Theorem get_notification_error_cases
    (f : Flow.flow) (timeout_secs : Q) (sid : Z) :
  let k := Flow._get_session_id f sid in
  (Flow.sessions f !! k = None ->
   Flow.get_notification_error timeout_secs sid f = Ret None f) /\
  (forall s,
     Flow.sessions f !! k = Some s -> Session.error_queue s = [] ->
     Flow.get_notification_error timeout_secs sid f = Ret None f) /\
  (forall s error rest,
     Flow.sessions f !! k = Some s -> Session.error_queue s = error :: rest ->
     Flow.get_notification_error timeout_secs sid f =
       Ret (Some error)
         (Flow.set_sessions
            (<[k := Session.set_error_queue rest s]> (Flow.sessions f)) f)).
Proof.
  cbv zeta. repeat match goal with |- _ /\ _ => split end.
  - intros Hnone. unfold Flow.get_notification_error. by rewrite Hnone.
  - intros s Hs Hq. unfold Flow.get_notification_error. rewrite Hs.
    unfold try_except, bind, Flow.on_session. rewrite Hs.
    unfold Session.get_queued_error, Session.ErrorQueue.get_timeout.
    rewrite Hq. cbv beta iota. unfold ret.
    rewrite insert_id by done. by destruct f.
  - intros s error rest Hs Hq. unfold Flow.get_notification_error. rewrite Hs.
    unfold try_except, bind, Flow.on_session. rewrite Hs.
    unfold Session.get_queued_error, Session.ErrorQueue.get_timeout.
    by rewrite Hq.
Qed.

Lemma get_notification_error_cases_witness :
  let s := Session.set_callback_lock true
             (Session.set_error_queue ["first"; "second"] (Session.new_Session 1)) in
  let f := client_with 1 s in
  Flow.get_notification_error (1 # 20) 0 f =
    Ret (Some "first")
      (Flow.set_sessions
         (<[1%Z := Session.set_error_queue ["second"] s]> (Flow.sessions f)) f) /\
  Flow.get_notification_error (1 # 20) 9 f = Ret None f.
Proof.
  intros s f.
  destruct (get_notification_error_cases f (1 # 20) 0) as (_ & _ & Hpop).
  destruct (get_notification_error_cases f (1 # 20) 9) as (Hnone & _).
  split; [exact (Hpop s "first" ["second"] eq_refl eq_refl) | exact (Hnone eq_refl)].
Defined.

(* ===================================================================== *)
(** ** Further properties: closing sessions *)
(* ===================================================================== *)

Set Warnings "-clear-no-such-hyp".

Lemma _notification_loop_after_wait str f step env s :
  Session.listen_notifications s = true ->
  _notification_loop str f (step :: env) s =
    after_wait str f step env
      (Session.add_polled (fst (Flow.wait_for_notification f (Session.sid s) None)) s).
Proof.
  intros Hlisten. destruct step as [reply poll].
  cbn [_notification_loop]. rewrite Hlisten. unfold after_wait.
  cbn [Session.sid Session.add_polled fst snd].
  by destruct (Flow.wait_for_notification f (Session.sid s) None).
Qed.

Lemma _notification_loop_stopped str f env s :
  Session.listen_notifications s = false ->
  _notification_loop str f env s = Ret tt s.
Proof. intros Hl. destruct env as [| [reply poll] env]; cbn; by rewrite Hl. Qed.

(** A poller that is inside a wait call when the flag is cleared ends once
    the call has returned, provided the callback lock is free. *)
Lemma after_wait_ends str f step env s1 :
  Session.listen_notifications s1 = false ->
  Session.callback_lock s1 = false ->
  thread_ends (Some (after_wait str f step env)) s1.
Proof.
  intros Hlisten Hlock s2. unfold after_wait.
  destruct (snd (Flow.wait_for_notification f (Session.sid s1) None) (fst step))
    as [changes | flow_err].
  - step_m. rewrite Hlock.
    set (sl := Session.set_callback_lock true s1).
    destruct (_queue_changes_any changes sl) as ((_ & _ & Hl & _) & _ & _ & Hnb).
    destruct (Session._queue_changes changes sl) as [[] s3 | e s3 | s3];
      cbn [state_of] in *; try discriminate.
    + rewrite _notification_loop_stopped; [discriminate |].
      simpl_session. by rewrite Hl.
    + by destruct (Hnb s3).
  - destruct (snd step); [discriminate |]. unfold bind.
    destruct (_queue_error_push (str flow_err) s1) as (s3 & Hrun & _ & _ & _ & Hfr).
    rewrite Hrun. destruct Hfr as (_ & _ & Hl & _).
    rewrite _notification_loop_stopped; [discriminate | by rewrite Hl].
Qed.

(** The same poller stays blocked when the lock is held and the call comes
    back with changes. *)
Lemma after_wait_blocked str f step env s1 changes :
  Session.callback_lock s1 = true ->
  snd (Flow.wait_for_notification f (Session.sid s1) None) (fst step) = Ok changes ->
  after_wait str f step env s1 = Blocked s1.
Proof.
  intros Hlock Hok. unfold after_wait. rewrite Hok. by apply locked_blocks.
Qed.

Lemma _close_absent f sid threads :
  Flow.sessions f !! Flow._get_session_id f sid = None ->
  Flow._close sid threads f
    = Raise (KeyError (VInt (Flow._get_session_id f sid))) f.
Proof.
  intros Hs. unfold Flow._close, bind, Flow.on_session. by rewrite Hs.
Qed.

Lemma _close_blocked f sid threads s rest s2 :
  Flow.sessions f !! Flow._get_session_id f sid = Some s ->
  threads (Flow._get_session_id f sid) = Some rest ->
  rest (Session.set_listen_notifications false s) = Blocked s2 ->
  Flow._close sid threads f =
    Blocked (Flow.set_sessions
               (<[Flow._get_session_id f sid := s2]> (Flow.sessions f)) f).
Proof.
  intros Hs Hthread Hrest. unfold Flow._close, bind, Flow.on_session.
  rewrite Hs. unfold Session.close. by rewrite Hthread, Hrest.
Qed.

(** [_close] on a session of the table returns with the session removed, or
    stays in the join of a poller thread that does not end. *)
Lemma _close_outcome f sid threads s :
  Flow.sessions f !! Flow._get_session_id f sid = Some s ->
  let k := Flow._get_session_id f sid in
  (thread_ends (threads k) (Session.set_listen_notifications false s) /\
   Flow._close sid threads f
     = Ret tt (Flow.set_sessions (delete k (Flow.sessions f)) f)) \/
  (~ thread_ends (threads k) (Session.set_listen_notifications false s) /\
   exists s2,
     Flow._close sid threads f
       = Blocked (Flow.set_sessions (<[k := s2]> (Flow.sessions f)) f)).
Proof.
  intros Hs k. subst k. unfold Flow._close, bind, Flow.on_session.
  rewrite Hs. unfold Session.close, thread_ends.
  destruct (threads (Flow._get_session_id f sid)) as [rest |].
  - destruct (rest (Session.set_listen_notifications false s))
      as [[] s2 | e s2 | s2] eqn:Hrest.
    + left. split; [discriminate |].
      cbn [Flow.sessions Flow.set_sessions]. rewrite delete_insert_eq.
      by destruct f.
    + left. split; [discriminate |].
      cbn [Flow.sessions Flow.set_sessions]. rewrite delete_insert_eq.
      by destruct f.
    + right. split; [intros Hends; by apply (Hends s2) |]. by exists s2.
  - left. split; [exact I |].
    cbn [Flow.sessions Flow.set_sessions]. rewrite delete_insert_eq.
    by destruct f.
Qed.

Lemma _close_present f sid threads s :
  Flow.sessions f !! Flow._get_session_id f sid = Some s ->
  thread_ends (threads (Flow._get_session_id f sid))
    (Session.set_listen_notifications false s) ->
  Flow._close sid threads f =
    Ret tt (Flow.set_sessions
              (delete (Flow._get_session_id f sid) (Flow.sessions f)) f).
Proof.
  intros Hs Hends.
  destruct (_close_outcome f sid threads s Hs) as [[_ Hrun] | [Hnot _]];
    [exact Hrun | contradiction].
Qed.

(** X9. [_close] clears the poller flag of the session, joins its poller
    thread and removes the session. When the thread is not alive, or ends,
    the call returns with exactly that session removed and the
    current-session pointer as before; closing it again then raises
    KeyError and changes nothing, and once the current session has been
    closed the calls that leave the session argument out raise KeyError.
    When the thread stays blocked the call does not return and the session
    stays in the table. A poller that is inside a wait call ends once the
    call has returned if the callback lock is free; if the lock is held and
    the call comes back with changes, it never ends, and neither does
    [_close]. *)
Theorem _close_removes_the_session
    (f : Flow.flow) (sid : Z) (threads : Z -> option (M Session.session unit))
    (s : Session.session) :
  let k := Flow._get_session_id f sid in
  let s1 := Session.set_listen_notifications false s in
  Flow.sessions f !! k = Some s ->
  (thread_ends (threads k) s1 ->
   exists f',
     Flow._close sid threads f = Ret tt f' /\
     Flow.sessions f' = delete k (Flow.sessions f) /\
     Flow._current_session f' = Flow._current_session f /\
     (forall threads', Flow._close sid threads' f' = Raise (KeyError (VInt k)) f') /\
     (k = Flow._current_session f ->
      forall name cb timeout_secs,
        Flow.register_callback name cb 0 f' = Raise (KeyError (VInt k)) f' /\
        Flow.process_one_notification timeout_secs 0 f'
          = Raise (KeyError (VInt k)) f')) /\
  (forall rest s2,
     threads k = Some rest -> rest s1 = Blocked s2 ->
     Flow._close sid threads f
       = Blocked (Flow.set_sessions (<[k := s2]> (Flow.sessions f)) f)) /\
  (forall str step env,
     threads k = Some (after_wait str f step env) ->
     Session.callback_lock s = false ->
     Flow._close sid threads f
       = Ret tt (Flow.set_sessions (delete k (Flow.sessions f)) f)) /\
  (forall str step env changes,
     threads k = Some (after_wait str f step env) ->
     Session.callback_lock s = true ->
     snd (Flow.wait_for_notification f (Session.sid s) None) (fst step) = Ok changes ->
     Flow._close sid threads f
       = Blocked (Flow.set_sessions (<[k := s1]> (Flow.sessions f)) f)).
Proof.
  intros k s1 Hs. subst k.
  repeat match goal with |- _ /\ _ => split end.
  - intros Hends.
    exists (Flow.set_sessions
              (delete (Flow._get_session_id f sid) (Flow.sessions f)) f).
    split; [by apply (_close_present f sid threads s) |].
    split; [reflexivity |]. split; [reflexivity |]. split.
    + intros threads'. set (f' := Flow.set_sessions _ f).
      change (Flow._get_session_id f sid) with (Flow._get_session_id f' sid).
      apply _close_absent. subst f'. cbn. apply lookup_delete_eq.
    + intros Hk name cb timeout_secs.
      unfold Flow.register_callback, Flow.process_one_notification, Flow.on_session.
      rewrite _get_session_id_zero.
      cbn [Flow._current_session Flow.set_sessions Flow.sessions].
      rewrite <- Hk, lookup_delete_eq. by split.
  - intros rest s2 Hthread Hrest. by apply (_close_blocked f sid threads s rest).
  - intros str step env Hthread Hlock.
    apply (_close_present f sid threads s Hs). rewrite Hthread.
    by apply after_wait_ends.
  - intros str step env changes Hthread Hlock Hok.
    apply (_close_blocked f sid threads s _ s1 Hs Hthread).
    by apply (after_wait_blocked str f step env s1 changes).
Qed.

Lemma _close_removes_the_session_witness :
  let s := Session.set_callback_lock true
             (Session.set_listen_notifications true (Session.new_Session 3)) in
  let f := client_with 3 s in
  let arrives := (Flow.Response (VDict [("result", Event "message" VNone)]), None) in
  let inside_wait := fun _ : Z => Some (after_wait (fun _ => "") f arrives []) in
  (exists f',
     Flow._close 3 (fun _ => None) f = Ret tt f' /\
     Flow.sessions f' = delete 3%Z (Flow.sessions f) /\
     Flow.process_one_notification (1 # 20) 0 f' = Raise (KeyError (VInt 3)) f') /\
  Flow._close 3 inside_wait f
    = Blocked (Flow.set_sessions
                 (<[3%Z := Session.set_listen_notifications false s]>
                    (Flow.sessions f)) f).
Proof.
  intros s f arrives inside_wait.
  destruct (_close_removes_the_session f 3 (fun _ => None) s eq_refl)
    as (Hends & _).
  destruct (_close_removes_the_session f 3 inside_wait s eq_refl)
    as (_ & _ & _ & Hstuck).
  split.
  - destruct (Hends I) as (f' & Hrun & Hmap & _ & _ & Hdangling).
    exists f'. split; [exact Hrun |]. split; [exact Hmap |].
    exact (proj2 (Hdangling eq_refl "message" quiet (1 # 20)%Q)).
  - exact (Hstuck (fun _ => "") arrives [] (Event "message" VNone)
             eq_refl eq_refl eq_refl).
Defined.

Lemma close_all_sessions_nonzero threads sids : forall f,
  NoDup sids ->
  0%Z ∉ sids ->
  (forall k, k ∈ sids -> is_Some (Flow.sessions f !! k)) ->
  (forall k s, Flow.sessions f !! k = Some s ->
     thread_ends (threads k) (Session.set_listen_notifications false s)) ->
  exists f',
    close_all_sessions sids threads f = Ret tt f' /\
    Flow._current_session f' = Flow._current_session f /\
    (forall k, Flow.sessions f' !! k =
               if bool_decide (k ∈ sids) then None else Flow.sessions f !! k).
Proof.
  induction sids as [| a sids IH]; intros f Hnodup Hzero Hkeys Hends.
  - exists f. split; [reflexivity |]. split; [reflexivity |].
    intros k. rewrite bool_decide_false; [done | set_solver].
  - apply NoDup_cons in Hnodup as [Ha Hnodup].
    assert (Hne : a <> 0%Z) by set_solver.
    destruct (Hkeys a) as [s Hs]; [set_solver |].
    assert (Hres : Flow._get_session_id f a = a) by by apply _get_session_id_nonzero.
    set (f1 := Flow.set_sessions (delete a (Flow.sessions f)) f).
    assert (Hrun : Flow._close a threads f = Ret tt f1).
    { rewrite (_close_present f a threads s); rewrite Hres; [done | done |].
      by apply Hends. }
    destruct (IH f1) as (f' & Hrun' & Hcur & Hmap); [done | set_solver | | |].
    + intros k Hk. subst f1. cbn. rewrite lookup_delete_ne by set_solver.
      apply Hkeys. set_solver.
    + intros k s' Hk. subst f1. cbn in Hk.
      apply lookup_delete_Some in Hk as [_ Hk]. by apply Hends.
    + exists f'. unfold close_all_sessions in *. cbn [for_each].
      unfold bind at 1. rewrite Hrun. split; [exact Hrun' |].
      split; [exact Hcur |]. intros k. rewrite Hmap. subst f1. cbn.
      destruct (decide (k = a)) as [-> | Hka].
      * rewrite lookup_delete_eq, (bool_decide_true (a ∈ a :: sids)) by set_solver.
        by destruct (bool_decide (a ∈ sids)).
      * rewrite lookup_delete_ne by done.
        destruct (decide (k ∈ sids)).
        -- by rewrite !bool_decide_true by set_solver.
        -- by rewrite !bool_decide_false by set_solver.
Qed.

(** X10. The closing loop of [terminate], run on the list of the keys of
    the session table: when no session has the identifier 0 and the poller
    thread of every session is not alive or ends once its flag is cleared,
    every [_close] returns and the table is empty afterwards. *)
Theorem terminate_closes_every_session
    (f : Flow.flow) (sids : list Z)
    (threads : Z -> option (M Session.session unit)) :
  NoDup sids ->
  (forall k, k ∈ sids <-> is_Some (Flow.sessions f !! k)) ->
  Flow.sessions f !! 0%Z = None ->
  (forall k s, Flow.sessions f !! k = Some s ->
     thread_ends (threads k) (Session.set_listen_notifications false s)) ->
  exists f',
    close_all_sessions sids threads f = Ret tt f' /\
    Flow.sessions f' = ∅ /\
    Flow._current_session f' = Flow._current_session f.
Proof.
  intros Hnodup Hkeys Hzero Hends.
  destruct (close_all_sessions_nonzero threads sids f Hnodup)
    as (f' & Hrun & Hcur & Hmap).
  - intros Hin. apply Hkeys in Hin. rewrite Hzero in Hin. by destruct Hin.
  - intros k Hk. by apply Hkeys.
  - exact Hends.
  - exists f'. split; [exact Hrun |]. split; [| exact Hcur].
    apply map_eq. intros k. rewrite Hmap, lookup_empty.
    destruct (decide (k ∈ sids)) as [Hin | Hout].
    + by rewrite bool_decide_true.
    + rewrite bool_decide_false by done.
      destruct (Flow.sessions f !! k) eqn:Hk; [| done].
      exfalso. apply Hout, Hkeys. by rewrite Hk.
Qed.

Lemma terminate_closes_every_session_witness :
  let s1 := Session.set_listen_notifications true (Session.new_Session 1) in
  let f := Flow.set_sessions
             (<[2%Z := Session.new_Session 2]> {[ 1%Z := s1 ]})
             (client_with 1 s1) in
  let threads := fun k : Z =>
    if (k =? 1)%Z
    then Some (after_wait (fun _ => "") f (Flow.RequestsConnectionError, Some 1%Z) [])
    else None in
  exists f',
    close_all_sessions [1%Z; 2%Z] threads f = Ret tt f' /\ Flow.sessions f' = ∅.
Proof.
  intros s1 f threads.
  destruct (terminate_closes_every_session f [1%Z; 2%Z] threads)
    as (f' & Hrun & Hmap & _).
  - repeat constructor; set_solver.
  - intros k. subst f. cbn. split.
    + intros Hk. apply list_elem_of_In in Hk.
      destruct Hk as [<- | [<- | []]]; by eexists.
    + intros [s Hs].
      destruct (decide (k = 2%Z)) as [-> | H2]; [set_solver |].
      rewrite lookup_insert_ne in Hs by done.
      destruct (decide (k = 1%Z)) as [-> | H1]; [set_solver |].
      by rewrite lookup_singleton_ne in Hs.
  - reflexivity.
  - intros k s Hs. subst threads. cbv beta.
    destruct (k =? 1)%Z eqn:Hk; [| exact I].
    apply Z.eqb_eq in Hk. subst k. subst f. cbn in Hs.
    rewrite lookup_insert_ne in Hs by discriminate.
    rewrite lookup_singleton_eq in Hs. injection Hs as <-.
    by apply after_wait_ends.
  - exists f'. split; [exact Hrun | exact Hmap].
Defined.

Lemma _get_session_id_zero_or_current f b :
  b = 0%Z \/ b = Flow._current_session f ->
  Flow._get_session_id f b = Flow._current_session f.
Proof.
  intros [-> | ->]; [apply _get_session_id_zero | apply _get_session_id_current].
Qed.

(** Once the current session is gone, the loop fails at the first
    identifier that resolves to it, unless it is held up in a join
    before. *)
Lemma close_all_sessions_after_current threads sids : forall f,
  NoDup sids ->
  Flow._current_session f <> 0%Z ->
  Flow.sessions f !! Flow._current_session f = None ->
  (exists b, b ∈ sids /\ (b = 0%Z \/ b = Flow._current_session f)) ->
  (forall k, k ∈ sids -> k <> 0%Z -> k <> Flow._current_session f ->
             is_Some (Flow.sessions f !! k)) ->
  exists f',
    Flow.sessions f' !! 0%Z = Flow.sessions f !! 0%Z /\
    (close_all_sessions sids threads f
       = Raise (KeyError (VInt (Flow._current_session f))) f' \/
     close_all_sessions sids threads f = Blocked f') /\
    ((forall k s, Flow.sessions f !! k = Some s ->
        thread_ends (threads k) (Session.set_listen_notifications false s)) ->
     close_all_sessions sids threads f
       = Raise (KeyError (VInt (Flow._current_session f))) f').
Proof.
  induction sids as [| a sids IH]; intros f Hnodup Hc Hgone (b & Hb & Hbc) Hkeys.
  - by apply elem_of_nil in Hb.
  - apply NoDup_cons in Hnodup as [Hfresh Hnodup].
    unfold close_all_sessions in *. cbn [for_each]. unfold bind at 1 2 3.
    destruct (decide (a = 0%Z \/ a = Flow._current_session f)) as [Ha | Ha].
    + exists f. split; [reflexivity |].
      rewrite _close_absent;
        rewrite (_get_session_id_zero_or_current f a Ha); try done.
      split; [by left | done].
    + assert (Ha0 : a <> 0%Z) by tauto.
      assert (Hac : a <> Flow._current_session f) by tauto.
      assert (Hres : Flow._get_session_id f a = a)
        by by apply _get_session_id_nonzero.
      destruct (Hkeys a) as [s Hs]; [by left | done | done |].
      destruct (_close_outcome f a threads s) as [[_ Hrun] | [Hnot [s2 Hrun]]];
        [by rewrite Hres | |]; rewrite Hres in *; rewrite Hrun.
      * set (f1 := Flow.set_sessions (delete a (Flow.sessions f)) f).
        destruct (IH f1) as (f' & Hzero & Hout & Hall).
        -- exact Hnodup.
        -- exact Hc.
        -- subst f1. cbn. by rewrite lookup_delete_ne.
        -- exists b. split; [| exact Hbc].
           apply elem_of_cons in Hb as [-> | Hb]; [tauto | exact Hb].
        -- intros k Hk Hk0 Hkc. subst f1. cbn.
           assert (Hka : a <> k) by (intros ->; contradiction).
           rewrite lookup_delete_ne by done.
           apply Hkeys; [by right | done | done].
        -- exists f'. split.
           { rewrite Hzero. subst f1. cbn. by rewrite lookup_delete_ne. }
           split; [exact Hout |].
           intros Hends. apply Hall. intros k s' Hk. subst f1. cbn in Hk.
           apply lookup_delete_Some in Hk as [_ Hk]. by apply Hends.
      * eexists. split; [| split; [by right |]].
        -- cbn. by rewrite lookup_insert_ne.
        -- intros Hends. destruct Hnot. by apply Hends.
Qed.

Lemma close_all_sessions_with_zero threads sids : forall f,
  NoDup sids ->
  Flow._current_session f <> 0%Z ->
  0%Z ∈ sids ->
  Flow._current_session f ∈ sids ->
  (forall k, k ∈ sids -> is_Some (Flow.sessions f !! k)) ->
  exists f',
    Flow.sessions f' !! 0%Z = Flow.sessions f !! 0%Z /\
    (close_all_sessions sids threads f
       = Raise (KeyError (VInt (Flow._current_session f))) f' \/
     close_all_sessions sids threads f = Blocked f') /\
    ((forall k s, Flow.sessions f !! k = Some s ->
        thread_ends (threads k) (Session.set_listen_notifications false s)) ->
     close_all_sessions sids threads f
       = Raise (KeyError (VInt (Flow._current_session f))) f').
Proof.
  induction sids as [| a sids IH]; intros f Hnodup Hc Hzero Hcur Hkeys.
  - by apply elem_of_nil in Hzero.
  - apply NoDup_cons in Hnodup as [Hfresh Hnodup].
    set (c := Flow._current_session f) in *.
    destruct (Hkeys c Hcur) as [sc Hsc].
    assert (Hres : Flow._get_session_id f a = (if decide (a = 0%Z \/ a = c) then c else a)).
    { destruct (decide (a = 0%Z \/ a = c)) as [Ha | Ha].
      - by apply _get_session_id_zero_or_current.
      - apply _get_session_id_nonzero. tauto. }
    destruct (Hkeys a) as [sa Hsa]; [by left |].
    assert (Hk : exists s, Flow.sessions f !! Flow._get_session_id f a = Some s).
    { rewrite Hres. destruct (decide (a = 0%Z \/ a = c)); by eexists. }
    destruct Hk as [s Hs].
    assert (Hk0 : Flow._get_session_id f a <> 0%Z).
    { rewrite Hres. destruct (decide (a = 0%Z \/ a = c)); [done | tauto]. }
    unfold close_all_sessions in *. cbn [for_each]. unfold bind at 1 2 3.
    destruct (_close_outcome f a threads s Hs) as [[_ Hrun] | [Hnot [s2 Hrun]]];
      rewrite Hrun.
    + set (f1 := Flow.set_sessions
                   (delete (Flow._get_session_id f a) (Flow.sessions f)) f).
      assert (Hstep : exists f',
        Flow.sessions f' !! 0%Z = Flow.sessions f1 !! 0%Z /\
        (for_each sids (fun sid => Flow._close sid threads) f1
           = Raise (KeyError (VInt c)) f' \/
         for_each sids (fun sid => Flow._close sid threads) f1 = Blocked f') /\
        ((forall k s', Flow.sessions f1 !! k = Some s' ->
            thread_ends (threads k) (Session.set_listen_notifications false s')) ->
         for_each sids (fun sid => Flow._close sid threads) f1
           = Raise (KeyError (VInt c)) f')).
      { destruct (decide (a = 0%Z \/ a = c)) as [Ha | Ha].
        - apply (close_all_sessions_after_current threads sids f1).
          + exact Hnodup.
          + exact Hc.
          + subst f1. cbn. rewrite Hres. apply lookup_delete_eq.
          + destruct Ha as [-> | ->].
            * exists c. split; [| by right].
              apply elem_of_cons in Hcur as [Hcur | Hcur]; [by destruct Hc | done].
            * exists 0%Z. split; [| by left].
              apply elem_of_cons in Hzero as [Hzero | Hzero];
                [by destruct Hc | done].
          + intros k Hk Hk0' Hkc. subst f1. cbn. rewrite Hres.
            assert (Hck : c <> k) by (intros Heq; apply Hkc; symmetry; exact Heq).
            rewrite lookup_delete_ne by done. apply Hkeys. by right.
        - apply (IH f1).
          + exact Hnodup.
          + exact Hc.
          + apply elem_of_cons in Hzero as [Hzero | Hzero];
              [exfalso; apply Ha; left; by symmetry | done].
          + apply elem_of_cons in Hcur as [Hcur | Hcur];
              [exfalso; apply Ha; right; by symmetry | done].
          + intros k Hk. subst f1. cbn. rewrite Hres.
            rewrite lookup_delete_ne by (intros ->; contradiction).
            apply Hkeys. by right. }
      destruct Hstep as (f' & Hz & Hout & Hall).
      exists f'. split.
      { rewrite Hz. subst f1. cbn. by rewrite lookup_delete_ne. }
      split; [exact Hout |].
      intros Hends. apply Hall. intros k s' Hk'. subst f1. cbn in Hk'.
      apply lookup_delete_Some in Hk' as [_ Hk']. by apply Hends.
    + eexists. split; [| split; [by right |]].
      * cbn. by rewrite lookup_insert_ne.
      * intros Hends. destruct Hnot. by apply Hends.
Qed.

(** X11. The closing loop of [terminate] passes each key to [_close],
    which resolves 0 to the current session. When the table has a session
    with identifier 0 and the current session is another one of the table,
    the loop never returns normally, in whatever order the keys come, and
    session 0 is left in the table as it was, its poller not stopped: the
    loop either stays in the join of a poller thread that does not end, or,
    when every poller thread ends, closes the current session where it
    meant to close session 0 and raises KeyError for the current session
    at its second visit. *)
Theorem terminate_never_closes_session_zero
    (f : Flow.flow) (sids : list Z)
    (threads : Z -> option (M Session.session unit)) (s0 : Session.session) :
  NoDup sids ->
  (forall k, k ∈ sids <-> is_Some (Flow.sessions f !! k)) ->
  Flow.sessions f !! 0%Z = Some s0 ->
  Flow._current_session f <> 0%Z ->
  is_Some (Flow.sessions f !! Flow._current_session f) ->
  exists f',
    Flow.sessions f' !! 0%Z = Some s0 /\
    (close_all_sessions sids threads f
       = Raise (KeyError (VInt (Flow._current_session f))) f' \/
     close_all_sessions sids threads f = Blocked f') /\
    ((forall k s, Flow.sessions f !! k = Some s ->
        thread_ends (threads k) (Session.set_listen_notifications false s)) ->
     close_all_sessions sids threads f
       = Raise (KeyError (VInt (Flow._current_session f))) f').
Proof.
  intros Hnodup Hkeys Hzero Hc Hcur.
  destruct (close_all_sessions_with_zero threads sids f)
    as (f' & Hz & Hout & Hall); try done.
  - apply Hkeys. by rewrite Hzero.
  - by apply Hkeys.
  - intros k Hk. by apply Hkeys.
  - exists f'. split; [by rewrite Hz |]. by split.
Qed.

Lemma terminate_never_closes_session_zero_witness :
  let f := Flow.set_sessions
             (<[5%Z := Session.new_Session 5]> {[ 0%Z := Session.new_Session 0 ]})
             (client_with 5 (Session.new_Session 5)) in
  exists f',
    close_all_sessions [0%Z; 5%Z] (fun _ => None) f
      = Raise (KeyError (VInt 5)) f' /\
    Flow.sessions f' !! 0%Z = Some (Session.new_Session 0).
Proof.
  intros f.
  destruct (terminate_never_closes_session_zero f [0%Z; 5%Z] (fun _ => None)
              (Session.new_Session 0)) as (f' & Hz & _ & Hall).
  - apply NoDup_cons. split.
    + intros Hin. apply list_elem_of_In in Hin. destruct Hin as [Heq | []].
      discriminate.
    + apply NoDup_singleton.
  - intros k. subst f. cbn. split.
    + intros Hk. apply list_elem_of_In in Hk.
      destruct Hk as [<- | [<- | []]]; by eexists.
    + intros [s Hs].
      destruct (decide (k = 5%Z)) as [-> | H5]; [right; left |].
      rewrite lookup_insert_ne in Hs by done.
      destruct (decide (k = 0%Z)) as [-> | H0]; [left |].
      by rewrite lookup_singleton_ne in Hs.
  - reflexivity.
  - discriminate.
  - by eexists.
  - exists f'. split; [| exact Hz]. apply Hall. intros k s _. exact I.
Defined.

(* ===================================================================== *)
(** ** Further properties: responses that are not of the expected shape *)
(* ===================================================================== *)

(** X12. Outside the shape that the backend is meant to answer in, the
    response handling of [_run] raises instead of returning: a decoded
    response that is not a dict has no [keys] (AttributeError), and a dict
    whose "error" field is [None], a boolean or a number has no length
    (TypeError), even when a "result" is there; the same holds of "Error"
    when "error" is absent. *)
Theorem _run_response_on_unexpected_shapes :
  (forall response_data,
     (forall d, response_data <> VDict d) ->
     Flow._run_response response_data = Err AttributeError) /\
  (forall d v,
     Py.dict_get "error" d = Some v -> Py.len v = Err TypeError ->
     Flow._run_response (VDict d) = Err TypeError) /\
  (forall d v,
     Py.dict_get "error" d = None ->
     Py.dict_get "Error" d = Some v -> Py.len v = Err TypeError ->
     Flow._run_response (VDict d) = Err TypeError).
Proof.
  repeat match goal with |- _ /\ _ => split end.
  - intros response_data Hnot.
    destruct response_data as [| b | n | s | l | d]; try reflexivity.
    by destruct (Hnot d).
  - intros d v Hv Hlen.
    unfold Flow._run_response, Flow.nonempty_field, rbind, Py.keys, Py.getitem.
    by rewrite existsb_keys, Hv, Hlen.
  - intros d v Hnone Hv Hlen.
    unfold Flow._run_response, Flow.nonempty_field, rbind, Py.keys, Py.getitem.
    by rewrite !existsb_keys, Hnone, Hv, Hlen.
Qed.

Lemma _run_response_on_unexpected_shapes_witness :
  Flow._run_response (VDict [("result", VInt 1); ("error", VNone)]) = Err TypeError /\
  Flow._run_response (VList []) = Err AttributeError.
Proof.
  destruct _run_response_on_unexpected_shapes as (Hshape & Hnull & _).
  split.
  - by apply (Hnull _ VNone).
  - apply Hshape. discriminate.
Defined.

Lemma nonempty_field_cases name d :
  match Flow.nonempty_field name (VDict d) with
  | Ok true =>
      exists msg n,
        Py.dict_get name d = Some msg /\ Py.len msg = Ok n /\ 0 < n /\
        Py.getitem (VDict d) name = Ok msg
  | Ok false => True
  | Err e' =>
      e' = TypeError /\
      exists v, Py.dict_get name d = Some v /\ Py.len v = Err TypeError
  end.
Proof.
  unfold Flow.nonempty_field, rbind, Py.keys, Py.getitem.
  rewrite existsb_keys.
  destruct (Py.dict_get name d) as [v |]; [| exact I].
  destruct (Py.len v) as [n | e'] eqn:Hv.
  - destruct (Nat.ltb_spec 0 n); [| exact I]. by exists v, n.
  - assert (He : e' = TypeError) by (destruct v; cbn in Hv; congruence).
    subst e'. split; [reflexivity |]. by exists v.
Qed.

(** X13. Every exception that the response handling of [_run] raises has
    its ground in the response: AttributeError only for a response that is
    not a dict, TypeError only for an "error" or "Error" field that has no
    length, and FlowError only with the value of an "error" or "Error"
    field that has a positive length. The indexing of the response never
    raises KeyError, each key being tested before it is read. *)
Theorem _run_response_raises_on_grounds (response_data : value) (e : exn) :
  Flow._run_response response_data = Err e ->
  (e = AttributeError /\ forall d, response_data <> VDict d) \/
  (exists d v,
     response_data = VDict d /\ e = TypeError /\
     (Py.dict_get "error" d = Some v \/ Py.dict_get "Error" d = Some v) /\
     Py.len v = Err TypeError) \/
  (exists d msg n,
     response_data = VDict d /\ e = FlowError msg /\
     (Py.dict_get "error" d = Some msg \/ Py.dict_get "Error" d = Some msg) /\
     Py.len msg = Ok n /\ 0 < n).
Proof.
  destruct response_data as [| b | n | s | l | d];
    try (cbn; intros [= <-]; left; split; [reflexivity | discriminate]).
  unfold Flow._run_response.
  pose proof (nonempty_field_cases "error" d) as He.
  pose proof (nonempty_field_cases "Error" d) as HE.
  destruct (Flow.nonempty_field "error" (VDict d)) as [[] | e1]; cbn [rbind].
  - destruct He as (msg & n & Hmsg & Hn & Hpos & ->). cbn [rbind].
    intros [= <-]. right. right. exists d, msg, n.
    split; [done |]. split; [done |]. split; [by left | by split].
  - destruct (Flow.nonempty_field "Error" (VDict d)) as [[] | e2]; cbn [rbind].
    + destruct HE as (msg & n & Hmsg & Hn & Hpos & ->). cbn [rbind].
      intros [= <-]. right. right. exists d, msg, n.
      split; [done |]. split; [done |]. split; [by right | by split].
    + cbn [Py.keys rbind]. rewrite existsb_keys. unfold Py.getitem.
      destruct (Py.dict_get "result" d); discriminate.
    + destruct HE as (-> & v & Hv & Hl). intros [= <-].
      right. left. exists d, v. split; [done |]. split; [done |].
      split; [by right | done].
  - destruct He as (-> & v & Hv & Hl). intros [= <-].
    right. left. exists d, v. split; [done |]. split; [done |].
    split; [by left | done].
Qed.

Lemma _run_response_raises_on_grounds_witness :
  let response_data := VDict [("Error", VStr "no account"); ("result", VInt 1)] in
  Flow._run_response response_data = Err (FlowError (VStr "no account")) /\
  exists d msg n,
    response_data = VDict d /\
    FlowError (VStr "no account") = FlowError msg /\
    (Py.dict_get "error" d = Some msg \/ Py.dict_get "Error" d = Some msg) /\
    Py.len msg = Ok n /\ 0 < n.
Proof.
  intros response_data.
  assert (Hrun : Flow._run_response response_data
                 = Err (FlowError (VStr "no account"))) by reflexivity.
  split; [exact Hrun |].
  destruct (_run_response_raises_on_grounds response_data _ Hrun)
    as [[Habs _] | [(d & v & _ & Habs & _) | Hground]];
    [discriminate | discriminate | exact Hground].
Defined.

(* ===================================================================== *)
(** ** Further properties: sessions are independent *)
(* ===================================================================== *)

Lemma failed_unregister_keeps_the_lock s name :
  Session.callback_lock s = false ->
  Session.callbacks s !! name = None ->
  Session.unregister_callback name s
    = Raise (KeyError (VStr name)) (Session.set_callback_lock true s) /\
  (forall other cb,
     Session.register_callback other cb (Session.set_callback_lock true s)
       = Blocked (Session.set_callback_lock true s)).
Proof.
  intros Hlock Hcb. split.
  - unfold Session.unregister_callback. step_m. rewrite Hlock.
    cbn [Session.callbacks Session.set_callback_lock]. by rewrite Hcb.
  - intros other cb. by apply locked_blocks.
Qed.

(** X14. Each session has its own callback lock. After
    [unregister_callback] has failed on one session and left its lock
    held, a registration on that session blocks, while on every other
    session of the table the registration returns with the handler
    installed; the failed call itself changes no other session. *)
Theorem a_held_lock_blocks_one_session_only
    (f : Flow.flow) (k j : Z) (s sj : Session.session) (name : string) :
  k <> 0%Z -> j <> 0%Z -> j <> k ->
  Flow.sessions f !! k = Some s ->
  Flow.sessions f !! j = Some sj ->
  Session.callback_lock s = false ->
  Session.callback_lock sj = false ->
  Session.callbacks s !! name = None ->
  exists f1,
    Flow.unregister_callback name k f = Raise (KeyError (VStr name)) f1 /\
    Flow.sessions f1 !! j = Some sj /\
    (forall cb, exists f2, Flow.register_callback name cb k f1 = Blocked f2) /\
    (forall cb, exists f2 sj',
       Flow.register_callback name cb j f1 = Ret tt f2 /\
       Flow.sessions f2 !! j = Some sj' /\
       Session.callbacks sj' !! name = Some cb /\
       Session.callback_lock sj' = false).
Proof.
  intros Hk Hj Hjk Hs Hsj Hlock Hlockj Hcb.
  destruct (failed_unregister_keeps_the_lock s name Hlock Hcb)
    as (Hraise & Hblocked).
  set (s1 := Session.set_callback_lock true s) in *.
  set (f1 := Flow.set_sessions (<[k := s1]> (Flow.sessions f)) f).
  assert (Hs1 : Flow.sessions f1 !! k = Some s1) by apply lookup_insert_eq.
  assert (Hsj1 : Flow.sessions f1 !! j = Some sj).
  { subst f1. cbn. by rewrite lookup_insert_ne. }
  exists f1. split.
  { unfold Flow.unregister_callback, Flow.on_session.
    rewrite (_get_session_id_nonzero f k Hk), Hs, Hraise. reflexivity. }
  split; [exact Hsj1 |]. split.
  - intros cb. eexists.
    unfold Flow.register_callback, Flow.on_session.
    rewrite (_get_session_id_nonzero f1 k Hk), Hs1, (Hblocked name cb).
    reflexivity.
  - intros cb.
    destruct (register_callback_unlocked name cb sj Hlockj)
      as (sj' & Hrun & Hcbs & _ & _ & Hl & _).
    exists (Flow.set_sessions (<[j := sj']> (Flow.sessions f1)) f1), sj'.
    split.
    { unfold Flow.register_callback.
      rewrite (_get_session_id_nonzero f1 j Hj).
      by apply (on_session_Ret j _ f1 sj tt sj'). }
    split; [apply lookup_insert_eq |].
    split; [by rewrite Hcbs, lookup_insert_eq | exact Hl].
Qed.

Lemma a_held_lock_blocks_one_session_only_witness :
  let f := Flow.set_sessions
             (<[2%Z := Session.new_Session 2]> {[ 1%Z := Session.new_Session 1 ]})
             (client_with 1 (Session.new_Session 1)) in
  exists f1,
    Flow.unregister_callback "message" 1 f = Raise (KeyError (VStr "message")) f1 /\
    (exists f2, Flow.register_callback "message" quiet 1 f1 = Blocked f2) /\
    (exists f2, Flow.register_callback "message" quiet 2 f1 = Ret tt f2).
Proof.
  intros f.
  destruct (a_held_lock_blocks_one_session_only f 1 2
              (Session.new_Session 1) (Session.new_Session 2) "message")
    as (f1 & Hraise & _ & Hblocked & Hfree); try done.
  exists f1. split; [exact Hraise |]. split; [exact (Hblocked quiet) |].
  destruct (Hfree quiet) as (f2 & sj' & Hrun & _). by exists f2.
Defined.

(* ===================================================================== *)
(** ** Further properties: the queues stay bounded *)
(* ===================================================================== *)

Lemma _queue_error_bounded error s :
  queues_bounded s -> queues_bounded (state_of (Session._queue_error error s)).
Proof.
  intros [He Hn].
  destruct (_queue_error_push error s) as (s' & Hrun & Hq & _ & Hnq & _).
  rewrite Hrun. cbn [state_of]. split.
  - rewrite Hq. by apply push_bounded_length.
  - by rewrite Hnq.
Qed.

Lemma _queue_changes_bounded changes s :
  queues_bounded s -> queues_bounded (state_of (Session._queue_changes changes s)).
Proof.
  intros [He Hn].
  destruct (_queue_changes_any changes s) as (_ & Heq & Hb & _).
  split; [by rewrite Heq | by apply Hb].
Qed.

Lemma consume_notification_bounded timeout_secs s :
  queues_bounded s ->
  queues_bounded (state_of (Session.consume_notification timeout_secs s)).
Proof.
  intros [He Hn]. unfold Session.consume_notification. step_m.
  destruct (Session.notification_queue s) as [| x rest] eqn:Hq.
  - change (queues_bounded s). split; [exact He | by rewrite Hq].
  - cbn [Session.callback_lock Session.set_notification_queue].
    assert (Hrest : length rest <= S Session._MAX_QUEUE_SIZE)
      by (cbn [length] in Hn; lia).
    destruct (Session.callback_lock s); [by split |].
    set (s1 := Session.set_callback_lock true (Session.set_notification_queue rest s)).
    destruct (call_callback_total x s1) as (s2 & [[[] Hrun] | [e Hrun]] & Hfr);
      rewrite Hrun; destruct Hfr as [-> | [c ->]]; by split.
Qed.

Lemma _notification_loop_bounded str f env : forall s,
  queues_bounded s ->
  queues_bounded (state_of (_notification_loop str f env s)).
Proof.
  induction env as [| [reply poll] env IH]; intros s Hb;
    cbn [_notification_loop];
    destruct (Session.listen_notifications s); try exact Hb;
    destruct (Flow.wait_for_notification f (Session.sid s) None) as [posted answer].
  set (s1 := Session.add_polled posted s).
  assert (Hb1 : queues_bounded s1) by exact Hb.
  destruct (answer reply) as [changes | flow_err].
  - step_m. destruct (Session.callback_lock s1) eqn:Hlock; [exact Hb1 |].
    set (s2 := Session.set_callback_lock true s1).
    pose proof (_queue_changes_bounded changes s2 Hb1) as Hb3.
    destruct (_queue_changes_any changes s2) as (_ & _ & _ & Hnb).
    destruct (Session._queue_changes changes s2) as [[] s3 | e s3 | s3];
      cbn [state_of] in *.
    + apply IH. exact Hb3.
    + exact Hb3.
    + by destruct (Hnb s3).
  - destruct poll as [rc |]; [exact Hb1 |].
    unfold bind.
    pose proof (_queue_error_bounded (str flow_err) s1 Hb1) as Hb2.
    destruct (_queue_error_push (str flow_err) s1) as (s2 & Hrun & _).
    rewrite Hrun in *. cbn [state_of] in Hb2. by apply IH.
Qed.

(** X15. No step of a session lets a queue grow past 129 items: if both
    queues hold at most 129 items, they still do after [_queue_error],
    after [_queue_changes] on any value whatever, after
    [consume_notification], and at whatever point the poller loop has
    reached on any sequence of replies of the backend, also when the step
    ends in an exception or blocks. *)
Theorem queues_stay_bounded (s : Session.session) :
  queues_bounded s ->
  (forall error, queues_bounded (state_of (Session._queue_error error s))) /\
  (forall changes, queues_bounded (state_of (Session._queue_changes changes s))) /\
  (forall timeout_secs,
     queues_bounded (state_of (Session.consume_notification timeout_secs s))) /\
  (forall str f env,
     queues_bounded (state_of (_notification_loop str f env s))).
Proof.
  intros Hb. repeat match goal with |- _ /\ _ => split end; intros.
  - by apply _queue_error_bounded.
  - by apply _queue_changes_bounded.
  - by apply consume_notification_bounded.
  - by apply _notification_loop_bounded.
Qed.

Lemma queues_stay_bounded_witness :
  let s := Session.set_listen_notifications true (listening_for "message" quiet) in
  let f := client_with 1 s in
  let env := [(Flow.Response (VDict [("result", Event "message" (VStr "a"))]), None);
              (Flow.RequestsTimeout, None);
              (Flow.Response (VDict [("result", VInt 5)]), None)] in
  queues_bounded s /\
  queues_bounded (state_of (_notification_loop (fun _ => "timeout") f env s)).
Proof.
  intros s f env.
  assert (Hb : queues_bounded s) by (split; vm_compute; lia).
  split; [exact Hb |].
  destruct (queues_stay_bounded s Hb) as (_ & _ & _ & Hloop).
  apply Hloop.
Defined.

(* ===================================================================== *)
(** ** Further properties: a run of the poller *)
(* ===================================================================== *)

Lemma deliverable_frame s s' x :
  Session.callbacks s' = Session.callbacks s -> deliverable s x -> deliverable s' x.
Proof.
  intros Hcb [Hd (t & Ht & Hreg)]. split; [done |].
  exists t. by rewrite Hcb.
Qed.

Lemma Forall_fold_push_bounded {A} (P : A -> Prop) xs : forall q,
  Forall P q -> Forall P xs -> Forall P (fold_left push_bounded xs q).
Proof.
  induction xs as [| x xs IH]; intros q Hq Hxs; [exact Hq |].
  apply Forall_cons in Hxs as [Hx Hxs]. cbn [fold_left].
  apply IH; [by apply Forall_push_bounded | exact Hxs].
Qed.

Lemma _queue_changes_delivered changes s :
  Forall (deliverable s) (delivered (Ok changes)) ->
  Forall (fun x => is_Some (event_data x)) (Session.notification_queue s) ->
  exists s',
    Session._queue_changes changes s = Ret tt s' /\
    Session.notification_queue s' =
      fold_left push_bounded (delivered (Ok changes)) (Session.notification_queue s) /\
    Session.error_queue s' = Session.error_queue s /\
    queues_only s s'.
Proof.
  intros Hall Hq. unfold Session._queue_changes.
  destruct changes as [| b | n | str | l | d]; by apply for_each__queue_change.
Qed.

Lemma _notification_loop_run str f k env : forall s,
  Session.sid s = k ->
  Session.listen_notifications s = true ->
  Session.callback_lock s = false ->
  Forall (fun x => is_Some (event_data x)) (Session.notification_queue s) ->
  Forall (fun step : backend_step =>
            snd step = None /\
            Forall (deliverable s)
              (delivered (snd (Flow.wait_for_notification f k None) (fst step))))
         env ->
  exists s',
    _notification_loop str f env s = Blocked s' /\
    Session.error_queue s' =
      fold_left push_bounded
        (flat_map (fun step : backend_step =>
                     failure str (snd (Flow.wait_for_notification f k None) (fst step)))
                  env)
        (Session.error_queue s) /\
    Session.notification_queue s' =
      fold_left push_bounded
        (flat_map (fun step : backend_step =>
                     delivered (snd (Flow.wait_for_notification f k None) (fst step)))
                  env)
        (Session.notification_queue s) /\
    Session.polled s' =
      Session.polled s ++
        repeat (fst (Flow.wait_for_notification f k None)) (S (length env)) /\
    Session.callback_lock s' = false /\
    Session.listen_notifications s' = true /\
    Session.callbacks s' = Session.callbacks s.
Proof.
  induction env as [| [reply poll] env IH]; intros s Hsid Hlisten Hlock Hq Hall;
    cbn [_notification_loop]; rewrite Hlisten, Hsid;
    destruct (Flow.wait_for_notification f k None) as [posted answer] eqn:Hwait;
    cbn [fst snd] in *.
  - eexists. split; [reflexivity |]. cbn. by repeat split.
  - apply Forall_cons in Hall as [[Hpoll Hnow] Hall]. cbn [fst snd] in *.
    subst poll.
    cbn [flat_map length fst]. rewrite !fold_left_app.
    destruct (answer reply) as [changes | flow_err] eqn:Hanswer;
      cbn [failure fold_left].
    + step_m. cbn [Session.callback_lock Session.add_polled]. rewrite Hlock.
      set (s2 := Session.set_callback_lock true (Session.add_polled posted s)).
      destruct (_queue_changes_delivered changes s2) as (s3 & Hrun & Hq3 & He3 & Hfr);
        [exact Hnow | exact Hq |].
      rewrite Hrun. cbv beta iota.
      destruct Hfr as (Hsid3 & Hcb3 & Hl3 & _ & _ & Hp3).
      subst s2. simpl_session.
      destruct (IH (Session.set_callback_lock false s3))
        as (s' & Hloop & He' & Hq' & Hp' & Hlock' & Hl' & Hcb').
      * simpl_session. congruence.
      * simpl_session. congruence.
      * reflexivity.
      * simpl_session. rewrite Hq3.
        apply Forall_fold_push_bounded; [exact Hq |].
        eapply Forall_impl; [exact Hnow |]. by intros x [Hx _].
      * eapply Forall_impl; [exact Hall |].
        intros step [Hp Hd]. split; [done |].
        eapply Forall_impl; [exact Hd |].
        intros x. apply deliverable_frame. simpl_session. by rewrite Hcb3.
      * exists s'. split; [exact Hloop |]. simpl_session.
        rewrite He', Hq', Hp', Hcb', He3, Hq3, Hp3, Hcb3.
        rewrite <- app_assoc. by repeat split.
    + unfold bind. set (s1 := Session.add_polled posted s).
      destruct (_queue_error_push (str flow_err) s1)
        as (s2 & Hrun & He2 & _ & Hq2 & Hfr).
      rewrite Hrun.
      destruct Hfr as (Hsid2 & Hcb2 & Hl2 & Hlock2 & _ & Hp2).
      subst s1. simpl_session.
      destruct (IH s2) as (s' & Hloop & He' & Hq' & Hp' & Hlock' & Hl' & Hcb').
      * congruence.
      * congruence.
      * congruence.
      * by rewrite Hq2.
      * eapply Forall_impl; [exact Hall |].
        intros step [Hp Hd]. split; [done |].
        eapply Forall_impl; [exact Hd |].
        intros x. apply deliverable_frame. by rewrite Hcb2.
      * exists s'. split; [exact Hloop |].
        rewrite He', Hq', Hp', Hcb', He2, Hq2, Hp2, Hcb2.
        rewrite <- app_assoc. by repeat split.
Qed.

(** X16. A run of the poller while the backend stays alive. Let the flag be
    set, the lock free, both queues hold at most 129 items, each with a
    payload, and let every reply of the backend either fail (with [poll()]
    reporting [None]) or deliver changes that have a payload and a type
    with a handler. Then, after these replies, the thread is inside its
    next wait call; the error queue holds the last 129 of what it held
    followed by the descriptions of the failures, in order, and the
    notification queue the last 129 of what it held followed by the
    delivered changes, in order; one request has been posted per reply and
    one more for the pending call, the lock is free and the registry as
    before. *)
Theorem poller_queues_what_the_backend_sends
    (str : exn -> string) (f : Flow.flow) (s : Session.session)
    (env : list backend_step) :
  Session.listen_notifications s = true ->
  Session.callback_lock s = false ->
  queues_bounded s ->
  Forall (fun x => is_Some (event_data x)) (Session.notification_queue s) ->
  Forall (fun step : backend_step =>
            snd step = None /\
            Forall (deliverable s) (delivered (wait_answer f s (fst step))))
         env ->
  exists s',
    _notification_loop str f env s = Blocked s' /\
    Session.error_queue s' =
      last_n (S Session._MAX_QUEUE_SIZE)
        (Session.error_queue s ++
         flat_map (fun step : backend_step =>
                     failure str (wait_answer f s (fst step))) env) /\
    Session.notification_queue s' =
      last_n (S Session._MAX_QUEUE_SIZE)
        (Session.notification_queue s ++
         flat_map (fun step : backend_step =>
                     delivered (wait_answer f s (fst step))) env) /\
    Session.polled s' =
      Session.polled s ++
        repeat (fst (Flow.wait_for_notification f (Session.sid s) None))
          (S (length env)) /\
    Session.callback_lock s' = false /\
    Session.listen_notifications s' = true /\
    Session.callbacks s' = Session.callbacks s.
Proof.
  intros Hlisten Hlock [Hbe Hbn] Hq Hall.
  destruct (_notification_loop_run str f (Session.sid s) env s eq_refl
              Hlisten Hlock Hq Hall)
    as (s' & Hrun & He & Hn & Hp & Hlock' & Hl' & Hcb').
  exists s'. split; [exact Hrun |].
  rewrite He, Hn. unfold wait_answer.
  rewrite !fold_push_bounded by done. by repeat split.
Qed.

Lemma poller_queues_what_the_backend_sends_witness :
  let s := Session.set_listen_notifications true (listening_for "message" quiet) in
  let f := client_with 1 s in
  let env := [(Flow.Response (VDict [("result", Event "message" (VStr "a"))]), None);
              (Flow.RequestsTimeout, None);
              (Flow.Response
                 (VDict [("result", VList [Event "message" (VStr "b");
                                           Event "message" (VStr "c")])]), None)] in
  exists s',
    _notification_loop (fun _ => "timeout") f env s = Blocked s' /\
    Session.error_queue s' = ["timeout"] /\
    Session.notification_queue s' =
      [Event "message" (VStr "a"); Event "message" (VStr "b");
       Event "message" (VStr "c")] /\
    length (Session.polled s') = 4.
Proof.
  intros s f env.
  assert (Hdeliverable : forall payload, deliverable s (Event "message" payload)).
  { intros payload. split; [by eexists |].
    exists "message". split; [reflexivity | by eexists]. }
  destruct (poller_queues_what_the_backend_sends (fun _ => "timeout") f s env)
    as (s' & Hrun & He & Hn & Hp & _).
  - reflexivity.
  - reflexivity.
  - split; vm_compute; lia.
  - constructor.
  - repeat (apply Forall_cons; split);
      try apply Forall_nil; try (split; [reflexivity |]);
      cbn [fst wait_answer delivered];
      repeat (apply Forall_cons; split); try apply Forall_nil;
      try apply Hdeliverable; exact I.
  - exists s'. split; [exact Hrun |]. split; [exact He |]. split; [exact Hn |].
    rewrite Hp. reflexivity.
Defined.

(* ===================================================================== *)
(** ** Further properties: decorators, and the errors as they come out *)
(* ===================================================================== *)

(** X17. A notification decorator gives back the function it was given,
    and installs it on the session that is current when the decorator is
    applied. With the lock free and the notification queue empty, an event
    of the decorator's type that the poller then delivers to that session
    is handed to the function by the next [process_one_notification]. *)
Theorem decorated_function_receives_its_events
    (f : Flow.flow) (s : Session.session) (name : string)
    (func : Session.callback) (payload : value) (timeout_secs : Q) :
  Flow.sessions f !! Flow._current_session f = Some s ->
  Session.callback_lock s = false ->
  Session.notification_queue s = [] ->
  exists f1 f2 f3 s3,
    _make_notification_decorator name func f = Ret func f1 /\
    Flow.on_session (Flow._current_session f)
      (poller_delivers (Event name payload)) f1 = Ret tt f2 /\
    Flow.process_one_notification timeout_secs 0 f2 = Ret true f3 /\
    Flow.sessions f3 !! Flow._current_session f = Some s3 /\
    Session.callbacks s3 !! name = Some func /\
    Session.invoked s3 = Session.invoked s ++ [(name, payload)] /\
    Session.notification_queue s3 = [].
Proof.
  intros Hs Hlock Hq. set (k := Flow._current_session f) in *.
  destruct (register_callback_unlocked name func s Hlock)
    as (s1 & Hreg & Hcb1 & Hq1 & _ & Hlock1 & _ & Hinv1 & _).
  set (f1 := Flow.set_sessions (<[k := s1]> (Flow.sessions f)) f).
  assert (Hs1 : Flow.sessions f1 !! k = Some s1) by apply lookup_insert_eq.
  assert (Hfunc : Session.callbacks s1 !! name = Some func)
    by (by rewrite Hcb1, lookup_insert_eq).
  destruct (poller_delivers_registered (Event name payload) name s1)
    as (s2 & Hdel & Hq2 & Hlock2); try done.
  { by rewrite Hq1, Hq. }
  assert (Hfr : Session.callbacks s2 = Session.callbacks s1 /\
                Session.invoked s2 = Session.invoked s1).
  { unfold poller_delivers in Hdel. revert Hdel. step_m. rewrite Hlock1.
    set (sl := Session.set_callback_lock true s1).
    destruct (_queue_changes_any (Event name payload) sl)
      as ((_ & Hcb & _ & _ & Hinv & _) & _).
    destruct (Session._queue_changes (Event name payload) sl) as [[] sx | e sx | sx];
      try discriminate.
    intros [= <-]. cbn [state_of] in *. simpl_session. by split. }
  destruct Hfr as [Hcb2 Hinv2].
  set (f2 := Flow.set_sessions (<[k := s2]> (Flow.sessions f1)) f1).
  assert (Hs2 : Flow.sessions f2 !! k = Some s2) by apply lookup_insert_eq.
  assert (Hq2' : Session.notification_queue s2 = [Event name payload]).
  { rewrite Hq2, Hq1, Hq. reflexivity. }
  destruct (consume_notification_dispatches timeout_secs (Event name payload) []
              name payload func s2)
    as (s3 & Hrun & Hinv3 & _ & Hq3 & _ & Hcb3 & _); try done.
  { by rewrite Hcb2. }
  exists f1, f2, (Flow.set_sessions (<[k := s3]> (Flow.sessions f2)) f2), s3.
  split.
  { unfold _make_notification_decorator, bind, Flow.register_callback.
    rewrite _get_session_id_zero. fold k.
    by rewrite (on_session_Ret k _ f s tt s1 Hs Hreg). }
  split; [by apply (on_session_Ret k _ f1 s1 tt s2) |].
  split.
  { unfold Flow.process_one_notification. rewrite _get_session_id_zero.
    change (Flow._current_session f2) with k.
    by apply (on_session_Ret k _ f2 s2 true s3). }
  split; [apply lookup_insert_eq |].
  split; [by rewrite Hcb3, Hcb2 |].
  split; [by rewrite Hinv3, Hinv2, Hinv1 | exact Hq3].
Qed.

Lemma decorated_function_receives_its_events_witness :
  let f := client_with 1 (Session.new_Session 1) in
  exists f1 f2 f3,
    message quiet f = Ret quiet f1 /\
    Flow.on_session 1 (poller_delivers (Event "message" (VStr "hello"))) f1
      = Ret tt f2 /\
    Flow.process_one_notification (1 # 20) 0 f2 = Ret true f3 /\
    Session.invoked <$> (Flow.sessions f3 !! 1%Z) = Some [("message", VStr "hello")].
Proof.
  intros f.
  destruct (decorated_function_receives_its_events f (Session.new_Session 1)
              "message" quiet (VStr "hello") (1 # 20) eq_refl eq_refl eq_refl)
    as (f1 & f2 & f3 & s3 & Hdec & Hdel & Hrun & Hs3 & _ & Hinv & _).
  exists f1, f2, f3. split; [exact Hdec |]. split; [exact Hdel |].
  split; [exact Hrun |].
  change (Flow._current_session f) with 1%Z in Hs3.
  rewrite Hs3. simpl. rewrite Hinv. reflexivity.
Defined.

Lemma drain_errors_all timeout_secs errors : forall s,
  Session.error_queue s = errors ->
  exists s',
    drain_errors (length errors) timeout_secs s = Ret errors s' /\
    Session.error_queue s' = [] /\
    Session.notification_queue s' = Session.notification_queue s /\
    Session.callback_lock s' = Session.callback_lock s.
Proof.
  induction errors as [| e errors IH]; intros s Hq.
  - exists s. by repeat split.
  - destruct (IH (Session.set_error_queue errors s) eq_refl)
      as (s' & Hrun & Hq' & Hn & Hl).
    exists s'. cbn [length drain_errors]. unfold bind at 1.
    unfold Session.get_queued_error, Session.ErrorQueue.get_timeout.
    rewrite Hq. unfold bind at 1. rewrite Hrun. by repeat split.
Qed.

(** X18. Round trip through the error queue: starting from an empty error
    queue, the descriptions pushed by [_queue_error], when there are at
    most 129 of them, come out of [get_queued_error] one per call in the
    order in which they were pushed; after the last one the queue is empty
    and the next call ends in [Queue.Empty]. The notification queue and the
    callback lock play no part in it. *)
Theorem errors_come_out_in_order
    (s : Session.session) (errors : list string) (timeout_secs : Q) :
  Session.error_queue s = [] ->
  length errors <= S Session._MAX_QUEUE_SIZE ->
  exists s1 s2,
    for_each errors Session._queue_error s = Ret tt s1 /\
    drain_errors (length errors) timeout_secs s1 = Ret errors s2 /\
    Session.error_queue s2 = [] /\
    Session.get_queued_error timeout_secs s2 = Raise QueueEmpty s2 /\
    Session.notification_queue s2 = Session.notification_queue s /\
    Session.callback_lock s2 = Session.callback_lock s.
Proof.
  intros Hq Hlen.
  destruct (for_each__queue_error errors s) as (s1 & Hpush & Hq1 & Hn1 & Hfr).
  assert (Hq1' : Session.error_queue s1 = errors).
  { rewrite Hq1, Hq, fold_push_bounded by (cbn; lia).
    by apply last_n_all. }
  destruct (drain_errors_all timeout_secs errors s1 Hq1')
    as (s2 & Hdrain & Hq2 & Hn2 & Hl2).
  exists s1, s2. split; [exact Hpush |]. split; [exact Hdrain |].
  split; [exact Hq2 |]. split.
  - unfold Session.get_queued_error, Session.ErrorQueue.get_timeout.
    by rewrite Hq2.
  - split; [congruence |]. destruct Hfr as (_ & _ & _ & Hl & _). congruence.
Qed.

Lemma errors_come_out_in_order_witness :
  exists s1 s2,
    for_each ["refused"; "reset"] Session._queue_error
      (Session.set_callback_lock true (Session.new_Session 1)) = Ret tt s1 /\
    drain_errors 2 (1 # 20) s1 = Ret ["refused"; "reset"] s2.
Proof.
  destruct (errors_come_out_in_order
              (Session.set_callback_lock true (Session.new_Session 1))
              ["refused"; "reset"] (1 # 20) eq_refl)
    as (s1 & s2 & Hpush & Hdrain & _).
  { vm_compute. lia. }
  exists s1, s2. split; [exact Hpush | exact Hdrain].
Defined.
